(** * Mixin Safe: keeper network-info checks, observer UTXO store,
      signature combination and broadcast

    A shallow embedding of the Go sources.  Go functions that return
    [(value, error)] return pairs or an [outcome]; a Go [panic] is the
    [Panics] outcome; the SQLite store is an explicit state that every
    store method takes and returns.  Transient database failures
    ([BeginTx], [Commit], a broken connection) are not modelled: a store
    method fails only for a reason visible in its own statements. *)

From Stdlib Require Import ZArith Lia List String Ascii Bool Sorted.
From Stdlib.Strings Require Import Byte.
From stdpp Require Import base option list strings gmap.
Import ListNotations.

Set Default Proof Using "Type".
Open Scope Z_scope.

(** ** Go runtime conventions *)

(** What a call does: it returns a value, or the goroutine panics. *)
Inductive outcome (A : Type) : Type :=
| Returns (a : A)
| Panics (why : string).
Arguments Returns {A} a.
Arguments Panics {A} why.

(** Go's [error]: [None] is [nil]. *)
Definition error : Type := option string.

(** ** encoding/hex and encoding/binary *)
Module hex.

Definition hextable : string := "0123456789abcdef".

Definition digit (n : N) : ascii :=
  match String.get (N.to_nat n) hextable with
  | Some c => c
  | None => "0"%char
  end.

(** [hex.EncodeToString]: two lower-case digits per byte. *)
Fixpoint EncodeToString (src : list byte) : string :=
  match src with
  | [] => EmptyString
  | b :: rest =>
      String (digit (N.div (Byte.to_N b) 16))
        (String (digit (N.modulo (Byte.to_N b) 16)) (EncodeToString rest))
  end.

End hex.

Module binary.

(** [binary.BigEndian.Uint64] over the (eight-byte) slice it is given. *)
Definition Uint64 (b : list byte) : Z :=
  fold_left (fun acc x => acc * 256 + Z.of_N (Byte.to_N x)) b 0.

(** A byte from the low eight bits of a number. *)
Definition byteOf (v : Z) : byte :=
  default x00 (Byte.of_N (Z.to_N (v mod 256))).

(** The [n] low bytes of [v], most significant first. *)
Fixpoint bigEndian (n : nat) (v : Z) : list byte :=
  match n with
  | O => []
  | S n' => bigEndian n' (v / 256) ++ [byteOf v]
  end.

(** [binary.BigEndian.AppendUint64] and [AppendUint32]. *)
Definition AppendUint64 (b : list byte) (v : Z) : list byte := b ++ bigEndian 8 v.
Definition AppendUint32 (b : list byte) (v : Z) : list byte := b ++ bigEndian 4 v.

(** [binary.BigEndian.Uint32] over the (four-byte) slice it is given. *)
Definition Uint32 (b : list byte) : Z :=
  fold_left (fun acc x => acc * 256 + Z.of_N (Byte.to_N x)) b 0.

End binary.

(** Go slice expressions [b[lo:hi]] and [b[lo:]]. *)
Definition slice {A : Type} (lo hi : nat) (b : list A) : list A :=
  firstn (hi - lo) (skipn lo b).
Definition slice_from {A : Type} (lo : nat) (b : list A) : list A := skipn lo b.

(** ** package common *)
Module common.

(** Modelled from the spec: the persisted state enum
    [{Initial=1, Pending=2, Done=3, Failed=4}] (section 6); the constant
    declarations (common/request.go) are not among the sources. *)
Definition RequestStateInitial : Z := 1.
Definition RequestStatePending : Z := 2.
Definition RequestStateDone : Z := 3.
Definition RequestStateFailed : Z := 4.

(** The originating role of a request. *)
Inductive Role : Type := RequestRoleHolder | RequestRoleSigner | RequestRoleObserver.

Definition Role_eqb (a b : Role) : bool :=
  match a, b with
  | RequestRoleHolder, RequestRoleHolder
  | RequestRoleSigner, RequestRoleSigner
  | RequestRoleObserver, RequestRoleObserver => true
  | _, _ => false
  end.

(** [common.Request], the fields the network handlers read. *)
Record Request : Type := {
  Id : string;
  Role_ : Role;
  Curve : Z;
  ExtraBytes : list byte;
  CreatedAt : Z;
}.

End common.

(** ** package keeper/store: network_infos and requests *)
Module store.

Record NetworkInfo : Type := {
  RequestId : string;
  Chain : Z;
  Fee : Z;
  Height : Z;
  Hash : string;
  CreatedAt : Z;
}.

(** The two tables the network handlers touch: [network_infos], newest
    row first, and the state column of [requests]. *)
Record Store : Type := {
  network_infos : list NetworkInfo;
  requests : gmap string Z;
}.

(** Modelled from the spec: [ReadLatestNetworkInfo] (and its earlier name
    [ReadNetworkInfo]) returns "the last stored" record of the chain;
    keeper/store/network.go is not among the sources.  Requests are
    handled in MTG order, so the row that is latest at the request's
    timestamp is the one written last. *)
Definition ReadLatestNetworkInfo (s : Store) (chain : Z) : option NetworkInfo :=
  List.find (fun i => Chain i =? chain) (network_infos s).

(** Modelled from the spec: [WriteNetworkInfoFromRequest] stores the row
    and finishes the request in one transaction. *)
Definition WriteNetworkInfoFromRequest (s : Store) (info : NetworkInfo) : Store :=
  {| network_infos := info :: network_infos s;
     requests := <[RequestId info := common.RequestStateDone]> (requests s) |}.

(** [FinishRequest] (keeper/store/request.go):
    [UPDATE requests SET state=Done WHERE request_id=? AND state=Initial]
    through [execOne], which reports an error unless exactly one row was
    changed. *)
Definition FinishRequest (s : Store) (id : string) : Store * error :=
  match requests s !! id with
  | Some st =>
      if st =? common.RequestStateInitial
      then ({| network_infos := network_infos s;
               requests := <[id := common.RequestStateDone]> (requests s) |}, None)
      else (s, Some "UPDATE requests"%string)
  | None => (s, Some "UPDATE requests"%string)
  end.

(** Modelled from the spec: a validation failure moves the request to
    [Failed] (section 7); it writes nothing else. *)
Definition FailRequest (s : Store) (id : string) : Store :=
  {| network_infos := network_infos s;
     requests := <[id := common.RequestStateFailed]> (requests s) |}.

End store.

(** ** bitcoin / ethereum RPC results *)
Module rpc.

Record Block : Type := {
  Height : Z;
  Confirmations : Z;
}.

(** [RPCGetBlock(rpc, hash)] returns a block pointer and an error. *)
Definition GetBlock : Type := string -> string -> option Block * error.

End rpc.

(** ** package mtg (external): the transactions a worker emits *)
Module mtg.

Record Transaction : Type := {
  TraceId : string;
  OpponentAppId : string;
  AssetId : string;
  Amount : string;
  Memo : string;
}.

End mtg.

(** ** package keeper, network.go as in src/keeper/network.go

    The earlier revision: two chains, [FinishRequest] for a dropped
    request, every record checked against the RPC. *)
Module keeper_v1.
Section network.

Variables SafeChainBitcoin SafeChainEthereum : Z.
Variable BitcoinRPC : string.
Variable RPCGetBlock : rpc.GetBlock.

Definition bitcoinMinimumFeeRate : Z := 10.
Definition bitcoinMaximumFeeRate : Z := 1000.

Definition verifyBitcoinNetworkInfo (info : store.NetworkInfo) : bool * error :=
  if negb (String.length (store.Hash info) =? 64)%nat then (false, None) else
  match RPCGetBlock BitcoinRPC (store.Hash info) with
  | (Some block, None) =>
      if negb (rpc.Height block =? store.Height info)
      then (false, Some "malicious bitcoin block"%string)
      else if (store.Fee info <? bitcoinMinimumFeeRate)
              || (store.Fee info >? bitcoinMaximumFeeRate)
      then (false, None)
      else (true, None)
  | _ => (false, Some "malicious bitcoin block or node not in sync?"%string)
  end.

(** The header of the pushed record: chain, fee and height at fixed
    offsets of the request's extra. *)
Definition decodeInfo (req : common.Request) : store.NetworkInfo :=
  let extra := common.ExtraBytes req in
  {| store.RequestId := common.Id req;
     store.CreatedAt := common.CreatedAt req;
     store.Chain := Z.of_N (Byte.to_N (nth 0 extra x00));
     store.Fee := binary.Uint64 (slice 1 9 extra);
     store.Height := binary.Uint64 (slice 9 17 extra);
     store.Hash := EmptyString |}.

Definition withHash (info : store.NetworkInfo) (h : string) : store.NetworkInfo :=
  {| store.RequestId := store.RequestId info;
     store.CreatedAt := store.CreatedAt info;
     store.Chain := store.Chain info;
     store.Fee := store.Fee info;
     store.Height := store.Height info;
     store.Hash := h |}.

(** [writeNetworkInfo]: the store after the call and the error returned. *)
Definition writeNetworkInfo (s : store.Store) (req : common.Request)
  : outcome (store.Store * error) :=
  if negb (common.Role_eqb (common.Role_ req) common.RequestRoleObserver)
  then Panics "role" else
  let extra := common.ExtraBytes req in
  if (length extra <? 17)%nat then Returns (store.FinishRequest s (common.Id req)) else
  let info := decodeInfo req in
  let old := store.ReadLatestNetworkInfo s (store.Chain info) in
  let stale :=
    match old with
    | Some o => String.eqb (store.RequestId o) (common.Id req)
                || (store.Height o >? store.Height info)
    | None => false
    end in
  if stale then Returns (store.FinishRequest s (common.Id req)) else
  if store.Chain info =? SafeChainBitcoin then
    let info := withHash info (hex.EncodeToString (slice_from 17 extra)) in
    match verifyBitcoinNetworkInfo info with
    | (_, Some err) => Returns (s, Some err)
    | (false, None) => Returns (store.FinishRequest s (common.Id req))
    | (true, None) => Returns (store.WriteNetworkInfoFromRequest s info, None)
    end
  else if store.Chain info =? SafeChainEthereum then Panics "0"
  else Returns (store.FinishRequest s (common.Id req)).

(** The keeper handling a sequence of network-info requests in order.  A
    returned error leaves the request pending and a panic stops the
    node; either way the store is as the transaction rolled it back. *)
Fixpoint writeNetworkInfos (s : store.Store) (reqs : list common.Request) : store.Store :=
  match reqs with
  | [] => s
  | req :: rest =>
      match writeNetworkInfo s req with
      | Returns (s', _) => writeNetworkInfos s' rest
      | Panics _ => s
      end
  end.

End network.
End keeper_v1.

(** ** package keeper, network.go in its later revision

    Four chains, [failRequest] for a dropped request, and a record that
    repeats the stored hash is re-affirmed without an RPC call. *)
Module keeper.
Section network.

Variables SafeChainBitcoin SafeChainLitecoin SafeChainEthereum SafeChainPolygon : Z.
Variable SafeCurveChain : Z -> Z.
Variables BitcoinRPC LitecoinRPC EthereumRPC PolygonRPC : string.
Variable bitcoin_RPCGetBlock : rpc.GetBlock.
Variable ethereum_RPCGetBlock : rpc.GetBlock.

Definition bitcoinMinimumFeeRate : Z := 1.
Definition bitcoinMaximumFeeRate : Z := 1000.

Definition bitcoinParams (chain : Z) : outcome string :=
  if chain =? SafeChainBitcoin then Returns BitcoinRPC
  else if chain =? SafeChainLitecoin then Returns LitecoinRPC
  else Panics "chain".

Definition ethereumParams (chain : Z) : outcome string :=
  if chain =? SafeChainEthereum then Returns EthereumRPC
  else if chain =? SafeChainPolygon then Returns PolygonRPC
  else Panics "chain".

(** [old != nil && old.Hash == info.Hash] *)
Definition sameHash (info : store.NetworkInfo) (old : option store.NetworkInfo) : bool :=
  match old with
  | Some o => String.eqb (store.Hash o) (store.Hash info)
  | None => false
  end.

Definition oldHeight (old : option store.NetworkInfo) : Z :=
  match old with
  | Some o => store.Height o
  | None => 0
  end.

(** The last statement of [verifyBitcoinNetworkInfo]. *)
Definition feeCheck (info : store.NetworkInfo) : bool * error :=
  if (store.Fee info <? bitcoinMinimumFeeRate) || (store.Fee info >? bitcoinMaximumFeeRate)
  then (false, None)
  else (true, None).

Definition verifyBitcoinNetworkInfo (info : store.NetworkInfo) (old : option store.NetworkInfo)
  : outcome (bool * error) :=
  if negb (String.length (store.Hash info) =? 64)%nat then Returns (false, None) else
  if sameHash info old then
    if negb (oldHeight old =? store.Height info)
    then Returns (false, Some "malicious bitcoin block"%string)
    else Returns (feeCheck info)
  else
    match bitcoinParams (store.Chain info) with
    | Panics why => Panics why
    | Returns url =>
        match bitcoin_RPCGetBlock url (store.Hash info) with
        | (Some block, None) =>
            if negb (rpc.Height block =? store.Height info)
            then Returns (false, Some "malicious bitcoin block"%string)
            else if rpc.Confirmations block =? -1
            then Returns (false, Some "malicious bitcoin fork"%string)
            else Returns (feeCheck info)
        | _ => Returns (false, Some "malicious bitcoin block or node not in sync?"%string)
        end
    end.

Definition verifyEthereumNetworkInfo (info : store.NetworkInfo) (old : option store.NetworkInfo)
  : outcome (bool * error) :=
  if negb (String.length (store.Hash info) =? 66)%nat then Returns (false, None) else
  if sameHash info old then
    if negb (oldHeight old =? store.Height info)
    then Returns (false, Some "malicious bitcoin block"%string)
    else Returns (true, None)
  else
    match ethereumParams (store.Chain info) with
    | Panics why => Panics why
    | Returns url =>
        match ethereum_RPCGetBlock url (store.Hash info) with
        | (Some block, None) =>
            if negb (rpc.Height block =? store.Height info)
            then Returns (false, Some "malicious ethereum block"%string)
            else Returns (true, None)
        | _ => Returns (false, Some "malicious ethereum block or node not in sync?"%string)
        end
    end.

(** Modelled from the spec: [failRequest] marks the request [Failed] and
    hands back no transaction and the given compaction asset; keeper/node.go
    is not among the sources. *)
Definition failRequest (s : store.Store) (req : common.Request) (asset : string)
  : outcome (store.Store * (list mtg.Transaction * string)) :=
  Returns (store.FailRequest s (common.Id req), ([], asset)).

(** What [writeNetworkInfo] does once a verifier has answered. *)
Definition afterVerify (s : store.Store) (req : common.Request) (info : store.NetworkInfo)
  (v : outcome (bool * error)) : outcome (store.Store * (list mtg.Transaction * string)) :=
  match v with
  | Panics why => Panics why
  | Returns (_, Some err) => Panics err
  | Returns (false, None) => failRequest s req ""
  | Returns (true, None) =>
      Returns (store.WriteNetworkInfoFromRequest s info, ([], EmptyString))
  end.

Definition writeNetworkInfo (s : store.Store) (req : common.Request)
  : outcome (store.Store * (list mtg.Transaction * string)) :=
  if negb (common.Role_eqb (common.Role_ req) common.RequestRoleObserver)
  then Panics "role" else
  let extra := common.ExtraBytes req in
  if (length extra <? 17)%nat then failRequest s req "" else
  let info := keeper_v1.decodeInfo req in
  let old := store.ReadLatestNetworkInfo s (store.Chain info) in
  let stale :=
    match old with
    | Some o => String.eqb (store.RequestId o) (common.Id req)
                || (store.Height o >? store.Height info)
    | None => false
    end in
  if stale then failRequest s req "" else
  if negb (store.Chain info =? SafeCurveChain (common.Curve req)) then Panics "id" else
  if (store.Chain info =? SafeChainBitcoin) || (store.Chain info =? SafeChainLitecoin) then
    let info := keeper_v1.withHash info (hex.EncodeToString (slice_from 17 extra)) in
    afterVerify s req info (verifyBitcoinNetworkInfo info old)
  else if (store.Chain info =? SafeChainEthereum) || (store.Chain info =? SafeChainPolygon) then
    let info := keeper_v1.withHash info ("0x" ++ hex.EncodeToString (slice_from 17 extra)) in
    afterVerify s req info (verifyEthereumNetworkInfo info old)
  else failRequest s req "".

(** The keeper handling a sequence of network-info requests in order;
    a panic stops the node with the store as it was. *)
Fixpoint writeNetworkInfos (s : store.Store) (reqs : list common.Request) : store.Store :=
  match reqs with
  | [] => s
  | req :: rest =>
      match writeNetworkInfo s req with
      | Returns (s', _) => writeNetworkInfos s' rest
      | Panics _ => s
      end
  end.

End network.
End keeper.

(** ** database/sql and the wire types the observer store sees *)
Module sql.

(** [sql.NullString]: a NULL column scans as [{String: "", Valid: false}]. *)
Record NullString : Type := {
  String_ : string;
  Valid : bool;
}.

Definition null : NullString := {| String_ := EmptyString; Valid := false |}.
Definition valid (v : string) : NullString := {| String_ := v; Valid := true |}.

(** SQL [column = ?] on a nullable column: never true for NULL. *)
Definition equals (c : NullString) (v : string) : bool :=
  Valid c && String.eqb (String_ c) v.

End sql.

Module wire.

Record OutPoint : Type := {
  Hash : string;
  Index : Z;
}.

Record TxIn : Type := {
  PreviousOutPoint : OutPoint;
  Witness : list (list byte);
  Sequence : Z;
}.

Record TxOut : Type := {
  Value : Z;
  PkScript : list byte;
}.

Record MsgTx : Type := {
  TxIn_ : list TxIn;
  TxOut_ : list TxOut;
}.

End wire.

(** ** package observer: the [bitcoin_outputs] table *)
Module Output.

Record t : Type := {
  TransactionHash : string;
  Index : Z;
  Address : string;
  Satoshi : Z;
  Chain : Z;
  State : Z;
  SpentBy : sql.NullString;
  RawTransaction : sql.NullString;
  CreatedAt : Z;
  UpdatedAt : Z;
}.

(** The primary key [(transaction_hash, output_index)]. *)
Definition hasKey (hash : string) (index : Z) (o : t) : bool :=
  String.eqb (TransactionHash o) hash && (Index o =? index).

End Output.

Module Transaction.

(** The approval record the observer keeps per transaction. *)
Record t : Type := {
  TransactionHash : string;
  RawTransaction : string;
  Chain : Z;
  Holder : string;
  Signer : string;
  Accountant : string;
  State : Z;
}.

End Transaction.

Module observer_store.

(** Rows of [bitcoin_outputs] in the order of a table scan. *)
Definition table : Type := list Output.t.

(** [SELECT ... LIMIT 1] has no [ORDER BY]: which matching row comes back
    is the database's choice, so the query is a parameter of the methods
    that use it.  [firstRow] is the choice of a plain table scan. *)
Definition QueryRow : Type := (Output.t -> bool) -> table -> option Output.t.
Definition firstRow : QueryRow := fun p rows => List.find p rows.

(** [UPDATE bitcoin_outputs SET state=?, spent_by=?, updated_at=?
     WHERE transaction_hash=? AND output_index=? AND state=? AND spent_by IS NULL]
    with state [Done] set and state [Initial] matched. *)
Definition spendable (hash : string) (index : Z) (o : Output.t) : bool :=
  Output.hasKey hash index o
  && (Output.State o =? common.RequestStateInitial)
  && negb (sql.Valid (Output.SpentBy o)).

Definition markSpent (spentBy : string) (now : Z) (o : Output.t) : Output.t :=
  {| Output.TransactionHash := Output.TransactionHash o;
     Output.Index := Output.Index o;
     Output.Address := Output.Address o;
     Output.Satoshi := Output.Satoshi o;
     Output.Chain := Output.Chain o;
     Output.State := common.RequestStateDone;
     Output.SpentBy := sql.valid spentBy;
     Output.RawTransaction := Output.RawTransaction o;
     Output.CreatedAt := Output.CreatedAt o;
     Output.UpdatedAt := now |}.

(** [execOne] of that UPDATE: the rows after it, or [None] for the error
    it reports unless exactly one row was changed. *)
Definition updateSpent (hash : string) (index : Z) (spentBy : string) (now : Z)
  (rows : table) : option table :=
  if (length (List.filter (spendable hash index) rows) =? 1)%nat
  then Some (List.map (fun o => if spendable hash index o then markSpent spentBy now o else o) rows)
  else None.

(** [execOne] of the INSERT: a second row under the same primary key is a
    constraint error. *)
Definition insertRow (o : Output.t) (rows : table) : option table :=
  if existsb (Output.hasKey (Output.TransactionHash o) (Output.Index o)) rows
  then None
  else Some (rows ++ [o]).

(** A row across store calls: kept as it is, or assigned by the guarded
    UPDATE, which finds it [Initial] with [spent_by] NULL and leaves it
    [Done] with [spent_by] set. *)
Definition rowStep (r r' : Output.t) : Prop :=
  r' = r
  \/ (Output.State r = common.RequestStateInitial
      /\ sql.Valid (Output.SpentBy r) = false
      /\ exists spentBy now, r' = markSpent spentBy now r).

(** A table across store calls: the rows it had, each kept or assigned,
    followed by the rows inserted since. *)
Definition extends (rows rows' : table) : Prop :=
  exists upd ins, rows' = upd ++ ins /\ Forall2 rowStep rows upd.

Section methods.

Variable queryRow : QueryRow.
(** [msgTx.TxHash().String()] and [bitcoin.MarshalWiredTransaction]. *)
Variable TxHash : wire.MsgTx -> string.
Variable MarshalWiredTransaction : wire.MsgTx -> Z -> option (list byte).

(** The WHERE clause of [AssignBitcoinUTXOByRangeForTransaction]:
    [(chain=? AND satoshi>=? AND satoshi<=? AND state=?) OR (spent_by=?)]. *)
Definition inRangeOrMine (min max : Z) (tx : Transaction.t) (o : Output.t) : bool :=
  ((Output.Chain o =? Transaction.Chain tx)
   && (Output.Satoshi o >=? min) && (Output.Satoshi o <=? max)
   && (Output.State o =? common.RequestStateInitial))
  || sql.equals (Output.SpentBy o) (Transaction.TransactionHash tx).

(** The table after the call (unchanged unless the transaction commits),
    the row returned and the error. *)
Definition AssignBitcoinUTXOByRangeForTransaction (rows : table) (min max : Z)
  (tx : Transaction.t) (now : Z) : table * (option Output.t * error) :=
  match queryRow (inRangeOrMine min max tx) rows with
  | None => (rows, (None, None))
  | Some o =>
      if String.eqb (sql.String_ (Output.SpentBy o)) (Transaction.TransactionHash tx)
      then (rows, (Some o, None))
      else
        match updateSpent (Output.TransactionHash o) (Output.Index o)
                (Transaction.TransactionHash tx) now rows with
        | None => (rows, (None, Some "UPDATE bitcoin_outputs"%string))
        | Some rows' => (rows', (Some o, None))
        end
  end.

Definition WriteBitcoinUTXOIfNotExists (rows : table) (utxo : Output.t)
  : outcome (table * error) :=
  if negb (Output.State utxo =? common.RequestStateInitial) then Panics "state" else
  if existsb (Output.hasKey (Output.TransactionHash utxo) (Output.Index utxo)) rows
  then Returns (rows, None)
  else
    match insertRow utxo rows with
    | None => Returns (rows, Some "INSERT bitcoin_outputs"%string)
    | Some rows' => Returns (rows', None)
    end.

(** The first loop of [WriteBitcoinFeeOutput]: every input of the fee
    transaction is marked spent by it, or the call fails. *)
Fixpoint spendInputs (hash : string) (now : Z) (ins : list wire.TxIn) (rows : table)
  : option table :=
  match ins with
  | [] => Some rows
  | i :: rest =>
      match updateSpent (wire.Hash (wire.PreviousOutPoint i))
              (wire.Index (wire.PreviousOutPoint i)) hash now rows with
      | None => None
      | Some rows' => spendInputs hash now rest rows'
      end
  end.

(** The row written for output [i] of the fee transaction: output 0 pays
    the fee of [tx] and is born spent by it. *)
Definition feeOutputRow (hash raw receiver : string) (tx : Transaction.t) (now : Z)
  (i : nat) (out : wire.TxOut) : Output.t :=
  {| Output.TransactionHash := hash;
     Output.Index := Z.of_nat i;
     Output.Address := receiver;
     Output.Satoshi := wire.Value out;
     Output.Chain := Transaction.Chain tx;
     Output.State := if (i =? 0)%nat then common.RequestStateDone
                     else common.RequestStateInitial;
     Output.SpentBy := if (i =? 0)%nat then sql.valid (Transaction.TransactionHash tx)
                       else sql.null;
     Output.RawTransaction := sql.valid raw;
     Output.CreatedAt := now;
     Output.UpdatedAt := now |}.

(** The second loop: one INSERT per output, from index [i] on. *)
Fixpoint insertOutputs (hash raw receiver : string) (tx : Transaction.t) (now : Z)
  (i : nat) (outs : list wire.TxOut) (rows : table) : option table :=
  match outs with
  | [] => Some rows
  | out :: rest =>
      match insertRow (feeOutputRow hash raw receiver tx now i out) rows with
      | None => None
      | Some rows' => insertOutputs hash raw receiver tx now (S i) rest rows'
      end
  end.

(** The rows [insertOutputs] appends: one per output, in order. *)
Fixpoint feeOutputRows (hash raw receiver : string) (tx : Transaction.t) (now : Z)
  (i : nat) (outs : list wire.TxOut) : table :=
  match outs with
  | [] => []
  | out :: rest =>
      feeOutputRow hash raw receiver tx now i out
        :: feeOutputRows hash raw receiver tx now (S i) rest
  end.

Definition WriteBitcoinFeeOutput (rows : table) (msgTx : wire.MsgTx) (receiver : string)
  (tx : Transaction.t) (now : Z) : table * error :=
  match MarshalWiredTransaction msgTx (Transaction.Chain tx) with
  | None => (rows, Some "MarshalWiredTransaction"%string)
  | Some signedBuffer =>
      let hash := TxHash msgTx in
      let raw := hex.EncodeToString signedBuffer in
      match spendInputs hash now (wire.TxIn_ msgTx) rows with
      | None => (rows, Some "UPDATE bitcoin_outputs"%string)
      | Some rows1 =>
          match insertOutputs hash raw receiver tx now 0 (wire.TxOut_ msgTx) rows1 with
          | None => (rows, Some "INSERT bitcoin_outputs"%string)
          | Some rows2 => (rows2, None)
          end
      end
  end.

(** The writers of the table, as calls the observer makes over time. *)
Inductive call : Type :=
| CallAssign (min max : Z) (tx : Transaction.t) (now : Z)
| CallWriteIfNotExists (utxo : Output.t)
| CallWriteFeeOutput (msgTx : wire.MsgTx) (receiver : string) (tx : Transaction.t) (now : Z).

(** The table after one call; a panic leaves it as it was. *)
Definition after (rows : table) (c : call) : table :=
  match c with
  | CallAssign min max tx now =>
      fst (AssignBitcoinUTXOByRangeForTransaction rows min max tx now)
  | CallWriteIfNotExists utxo =>
      match WriteBitcoinUTXOIfNotExists rows utxo with
      | Returns (rows', _) => rows'
      | Panics _ => rows
      end
  | CallWriteFeeOutput msgTx receiver tx now =>
      fst (WriteBitcoinFeeOutput rows msgTx receiver tx now)
  end.

Definition afterAll (rows : table) (cs : list call) : table :=
  fold_left after cs rows.

End methods.
(** The primary keys of the rows, in table order. *)
Definition keys (rows : table) : list (string * Z) :=
  List.map (fun o => (Output.TransactionHash o, Output.Index o)) rows.

(** [ReadBitcoinUTXO]:
    [SELECT ... WHERE chain=? AND transaction_hash=? AND output_index=?]. *)
Definition ReadBitcoinUTXO (rows : table) (hash : string) (index chain : Z)
  : option Output.t * error :=
  (List.find (fun o => (Output.Chain o =? chain) && Output.hasKey hash index o) rows, None).

(** [ORDER BY created_at ASC]: rows with equal [created_at] come in an
    order the database chooses; the scan order is taken here. *)
Fixpoint insertByCreatedAt (o : Output.t) (sorted : table) : table :=
  match sorted with
  | [] => [o]
  | x :: rest =>
      if Output.CreatedAt o <=? Output.CreatedAt x then o :: sorted
      else x :: insertByCreatedAt o rest
  end.

Definition orderByCreatedAt (rows : table) : table := fold_right insertByCreatedAt [] rows.

(** [ReadBitcoinUTXOs]:
    [SELECT ... WHERE chain=? AND state=Initial ORDER BY created_at ASC LIMIT 256]. *)
Definition ReadBitcoinUTXOs (rows : table) (chain : Z) : list Output.t * error :=
  (firstn 256
     (orderByCreatedAt
        (List.filter (fun o => (Output.Chain o =? chain)
                               && (Output.State o =? common.RequestStateInitial)) rows)),
   None).

End observer_store.

(** ** packages strings and bytes *)
Module strings.

(** [strings.Contains]. *)
Fixpoint Contains (s substr : string) : bool :=
  String.prefix substr s
  || match s with
     | EmptyString => false
     | String _ rest => Contains rest substr
     end.

(** [strings.Join]. *)
Fixpoint Join (elems : list string) (sep : string) : string :=
  match elems with
  | [] => EmptyString
  | [e] => e
  | e :: rest => (e ++ sep ++ Join rest sep)%string
  end.

(** [strings.Split(s, sep)] for a separator of one byte, as the sources
    call it: the pieces of [s] between the separators, one more than
    there are separators. *)
Fixpoint Split (s : string) (sep : ascii) : list string :=
  match s with
  | EmptyString => [EmptyString]
  | String c rest =>
      if Ascii.eqb c sep then EmptyString :: Split rest sep
      else
        match Split rest sep with
        | [] => [String c EmptyString]
        | piece :: pieces => String c piece :: pieces
        end
  end.

End strings.

Module bytes.

(** [bytes.Equal]; a nil slice equals an empty one. *)
Fixpoint Equal (a b : list byte) : bool :=
  match a, b with
  | [], [] => true
  | x :: a', y :: b' => Byte.eqb x y && Equal a' b'
  | _, _ => false
  end.

End bytes.

(** ** PSBT packets and the keeper's records the observer reads *)
Module psbt.

Record PartialSig : Type := {
  PubKey : list byte;
  Signature : list byte;
}.

Record PInput : Type := {
  PartialSigs : list PartialSig;
}.

End psbt.

Module bitcoin.

(** [bitcoin.PartiallySignedTransaction]: the unsigned transaction and one
    PSBT input per transaction input. *)
Record PartiallySignedTransaction : Type := {
  UnsignedTx : wire.MsgTx;
  Inputs : list psbt.PInput;
}.

End bitcoin.

Module Safe.

Record t : Type := {
  Holder : string;
  Chain : Z;
  Signer : string;
  Observer : string;
  Address : string;
  Path : string;
}.

End Safe.

Module SignatureRequest.

Record t : Type := {
  InputIndex : nat;
  Signature : sql.NullString;
}.

End SignatureRequest.

(** How an observer method ends: it returns an error value (nil or not),
    or it panics.  Methods take the world (both stores and the chain's
    RPC endpoint) and hand back the world they leave. *)
Inductive exit : Type :=
| Return (err : error)
| Panicked (why : string).

(** A loop body either goes on to the next iteration or leaves the
    function. *)
Inductive loop (A : Type) : Type :=
| Next (a : A)
| Exit (e : exit).
Arguments Next {A} a.
Arguments Exit {A} e.

(** [txscript.SigHashAll] *)
Definition SigHashAll : byte := x01.

(** ** package observer, the accountant path (first file of part_001) *)
Module observer_v1.
Section node.

Variable W : Type.
Variable BitcoinRPC : string.
Variable SafeChainBitcoin : Z.
Variable RPCSendRawTransaction : W -> string -> string -> W * (string * error).
Variable UnmarshalPartiallySignedTransaction :
  list byte -> option bitcoin.PartiallySignedTransaction.
Variable Marshal : bitcoin.PartiallySignedTransaction -> list byte.
(** [p.SigHash(idx)]; the witness sighash does not cover witnesses. *)
Variable SigHash : bitcoin.PartiallySignedTransaction -> nat -> list byte.
(** [common.DecodeHexOrPanic]: [None] is the panic. *)
Variable DecodeHexOrPanic : string -> option (list byte).
Variable ReadTransactionApproval : W -> string -> option Transaction.t * error.
Variable ListAllSignaturesForTransaction :
  W -> string -> Z -> list SignatureRequest.t * error.
(** The script of the UTXO row, when the row exists. *)
Variable ReadBitcoinUTXO : W -> string -> Z -> option (list byte).
Variable checkBitcoinUTXOSignatureRequired : W -> wire.OutPoint -> bool.
(** The accountant's signature over a sighash, serialized, or the error
    of [bitcoinReadAccountantKey]. *)
Variable accountantSign : W -> string -> list byte -> list byte + string.
(** [ParseDERSignature], [NewAddressPubKey] and [der.Verify] over the
    signature, the sighash and the hex key; [None] when a parse failure
    makes the call panic on a nil value. *)
Variable derVerify : list byte -> list byte -> string -> option bool.
Variable BtcEncode : wire.MsgTx -> option (list byte).
Variable FinishTransactionSignatures : W -> string -> string -> W * error.

Definition bitcoinBroadcastTransaction (w : W) (hash : string) (raw : list byte)
  : W * exit :=
  let '(w1, (id, err)) := RPCSendRawTransaction w BitcoinRPC (hex.EncodeToString raw) in
  match err with
  | Some e => (w1, Return (Some e))
  | None =>
      if negb (String.eqb id hash)
      then (w1, Return (Some ("malformed bitcoin transaction " ++ hash ++ " " ++ id)%string))
      else (w1, Return None)
  end.

(** [signed[r.InputIndex] = DecodeHexOrPanic(r.Signature.String)] for
    every request; [None] when a decode panics. *)
Fixpoint signedMap (requests : list SignatureRequest.t) (signed : gmap nat (list byte))
  : option (gmap nat (list byte)) :=
  match requests with
  | [] => Some signed
  | r :: rest =>
      match DecodeHexOrPanic (sql.String_ (SignatureRequest.Signature r)) with
      | None => None
      | Some b => signedMap rest (<[SignatureRequest.InputIndex r := b]> signed)
      end
  end.

Definition appendWitness (tin : wire.TxIn) (items : list (list byte)) : wire.TxIn :=
  {| wire.PreviousOutPoint := wire.PreviousOutPoint tin;
     wire.Witness := wire.Witness tin ++ items;
     wire.Sequence := wire.Sequence tin |}.

(** The witness of the multisig branch. *)
Definition multisigWitness (holderSig signerSig script : list byte) : list (list byte) :=
  [ []; holderSig ++ [SigHashAll]; signerSig ++ [SigHashAll]; [x01]; script ].

(** [hpsbt.Packet.Inputs[idx].PartialSigs = sigs] *)
Definition setPartialSigs (hp : bitcoin.PartiallySignedTransaction) (idx : nat)
  (sigs : list psbt.PartialSig) : bitcoin.PartiallySignedTransaction :=
  {| bitcoin.UnsignedTx := bitcoin.UnsignedTx hp;
     bitcoin.Inputs := <[idx := {| psbt.PartialSigs := sigs |}]> (bitcoin.Inputs hp) |}.

(** The loop state: the inputs of [msgTx] and the holder's packet (nil
    when its parse failed), both updated in place by the source. *)
Definition packets : Type := list wire.TxIn * option bitcoin.PartiallySignedTransaction.

(** One iteration of the loop over [msgTx.TxIn]. *)
Definition signInput (w : W) (tx : Transaction.t) (spsbt : bitcoin.PartiallySignedTransaction)
  (signed : gmap nat (list byte)) (idx : nat) (st : packets) : loop packets :=
  let '(ins, hpsbt) := st in
  match ins !! idx with
  | None => Exit (Panicked "index out of range")
  | Some tin =>
      let pop := wire.PreviousOutPoint tin in
      let hash := SigHash spsbt idx in
      let utxo := ReadBitcoinUTXO w (wire.Hash pop) (wire.Index pop) in
      if checkBitcoinUTXOSignatureRequired w pop then
        match hpsbt with
        | None => Exit (Panicked "nil pointer dereference")
        | Some hp =>
        match bitcoin.Inputs hp !! idx with
        | None => Exit (Panicked "index out of range")
        | Some hpin =>
        match psbt.PartialSigs hpin !! 0%nat with
        | None => Exit (Panicked "index out of range")
        | Some hsig =>
        if negb (String.eqb (hex.EncodeToString (psbt.PubKey hsig)) (Transaction.Holder tx))
        then Exit (Panicked (Transaction.TransactionHash tx)) else
        match bitcoin.Inputs spsbt !! idx with
        | None => Exit (Panicked "index out of range")
        | Some spin =>
        match psbt.PartialSigs spin !! 0%nat with
        | None => Exit (Panicked "index out of range")
        | Some ssig =>
        if negb (String.eqb (hex.EncodeToString (psbt.PubKey ssig)) (Transaction.Signer tx))
        then Exit (Panicked (Transaction.TransactionHash tx)) else
        if negb (bytes.Equal (psbt.Signature ssig) (default [] (signed !! idx)))
        then Exit (Panicked (Transaction.TransactionHash tx)) else
        match derVerify (psbt.Signature ssig) hash (Transaction.Signer tx) with
        | None => Exit (Panicked "nil pointer dereference")
        | Some false => Exit (Panicked (Transaction.TransactionHash tx))
        | Some true =>
        match utxo with
        | None => Exit (Panicked "nil pointer dereference")
        | Some script =>
            Next (<[idx := appendWitness tin
                             (multisigWitness (psbt.Signature hsig) (psbt.Signature ssig) script)]> ins,
                  Some (setPartialSigs hp idx
                          (psbt.PartialSigs hpin ++ psbt.PartialSigs spin)))
        end end end end end end end
      else
        match accountantSign w (Transaction.Accountant tx) hash with
        | inr err => Exit (Return (Some err))
        | inl signature =>
        match utxo with
        | None => Exit (Panicked "nil pointer dereference")
        | Some script =>
        match DecodeHexOrPanic (Transaction.Accountant tx) with
        | None => Exit (Panicked (Transaction.Accountant tx))
        | Some pub =>
        match hpsbt with
        | None => Exit (Panicked "nil pointer dereference")
        | Some hp =>
        match bitcoin.Inputs hp !! idx with
        | None => Exit (Panicked "index out of range")
        | Some _ =>
            Next (<[idx := appendWitness tin [signature ++ [SigHashAll]; script]]> ins,
                  Some (setPartialSigs hp idx
                          [ {| psbt.PubKey := pub; psbt.Signature := signature |} ]))
        end end end end end
  end.

(** [hpsbt.Packet.Inputs[idx]], when the packet and the input exist. *)
Definition holderInput (hpsbt : option bitcoin.PartiallySignedTransaction) (idx : nat)
  : option psbt.PInput :=
  match hpsbt with
  | Some hp => bitcoin.Inputs hp !! idx
  | None => None
  end.

(** What holds of input [idx] (as [tin] before the loop, [signedIn]
    after it) when it went through the multisig branch: the holder's and
    the signer's first partial signatures carry the recorded keys, the
    signer's signature is the keeper's response for the input and
    verifies over the input's sighash, and the witness is the multisig
    stack added to what the input had. *)
Definition multisigInputSigned (w : W) (tx : Transaction.t)
  (spsbt : bitcoin.PartiallySignedTransaction) (signed : gmap nat (list byte))
  (hpsbt : option bitcoin.PartiallySignedTransaction) (idx : nat) (tin : wire.TxIn)
  (signedIn : option wire.TxIn) : Prop :=
  exists hpin hsig spin ssig script,
    holderInput hpsbt idx = Some hpin
    /\ psbt.PartialSigs hpin !! 0%nat = Some hsig
    /\ bitcoin.Inputs spsbt !! idx = Some spin
    /\ psbt.PartialSigs spin !! 0%nat = Some ssig
    /\ hex.EncodeToString (psbt.PubKey hsig) = Transaction.Holder tx
    /\ hex.EncodeToString (psbt.PubKey ssig) = Transaction.Signer tx
    /\ psbt.Signature ssig = default [] (signed !! idx)
    /\ derVerify (psbt.Signature ssig) (SigHash spsbt idx) (Transaction.Signer tx) = Some true
    /\ ReadBitcoinUTXO w (wire.Hash (wire.PreviousOutPoint tin))
         (wire.Index (wire.PreviousOutPoint tin)) = Some script
    /\ signedIn
       = Some (appendWitness tin
                 (multisigWitness (psbt.Signature hsig) (psbt.Signature ssig) script)).

Fixpoint signInputs (w : W) (tx : Transaction.t) (spsbt : bitcoin.PartiallySignedTransaction)
  (signed : gmap nat (list byte)) (idxs : list nat) (st : packets) : loop packets :=
  match idxs with
  | [] => Next st
  | idx :: rest =>
      match signInput w tx spsbt signed idx st with
      | Next st' => signInputs w tx spsbt signed rest st'
      | Exit e => Exit e
      end
  end.

Definition bitcoinAccountantSignTransaction (w : W) (extra : list byte) : W * exit :=
  if (length extra <? 32)%nat then (w, Panicked "slice bounds out of range") else
  let transactionHash := hex.EncodeToString (slice 0 32 extra) in
  let spsbt := UnmarshalPartiallySignedTransaction (slice_from 32 extra) in
  match ReadTransactionApproval w transactionHash with
  | (_, Some err) => (w, Return (Some err))
  | (None, None) => (w, Panicked "nil pointer dereference")
  | (Some tx, None) =>
  if Transaction.State tx =? common.RequestStateDone then (w, Return None) else
  if negb (Transaction.Chain tx =? SafeChainBitcoin) then (w, Panicked transactionHash) else
  match DecodeHexOrPanic (Transaction.RawTransaction tx) with
  | None => (w, Panicked (Transaction.RawTransaction tx))
  | Some b =>
  let hpsbt := UnmarshalPartiallySignedTransaction b in
  match ListAllSignaturesForTransaction w transactionHash common.RequestStateDone with
  | (_, Some err) => (w, Return (Some err))
  | (requests, None) =>
  match signedMap requests ∅ with
  | None => (w, Panicked "hex")
  | Some signed =>
  match spsbt with
  | None => (w, Panicked "nil pointer dereference")
  | Some sp =>
      let msgTx := bitcoin.UnsignedTx sp in
      match signInputs w tx sp signed (seq 0 (length (wire.TxIn_ msgTx)))
              (wire.TxIn_ msgTx, hpsbt) with
      | Exit e => (w, e)
      | Next (ins, hpsbt') =>
          let signedTx := {| wire.TxIn_ := ins; wire.TxOut_ := wire.TxOut_ msgTx |} in
          match BtcEncode signedTx, hpsbt' with
          | Some signedBuffer, Some hp =>
              let raw := hex.EncodeToString (Marshal hp) in
              let '(w1, err) := FinishTransactionSignatures w transactionHash raw in
              match err with
              | Some e => (w1, Return (Some e))
              | None => bitcoinBroadcastTransaction w1 transactionHash signedBuffer
              end
          | None, _ => (w, Panicked "BtcEncode")
          | _, None => (w, Panicked "nil pointer dereference")
          end
      end
  end end end end end.

End node.
End observer_v1.

Module ethereum.

(** [ethereum.SafeTransaction], as far as the observer looks into it. *)
Record SafeTransaction : Type := {
  TxHash : string;
  Payload : list byte;
}.

End ethereum.

(** ** package observer, the later revision (second file of part_001) *)
Module observer.
Section node.

Variable W : Type.
Variables SafeChainBitcoin SafeChainLitecoin SafeChainEthereum SafeChainPolygon : Z.
Variable MaxTransactionSequence : Z.
(** [node.bitcoinParams(chain)]: the RPC endpoint and the asset id, or
    [None] for the panic on an unknown chain. *)
Variable bitcoinParams : Z -> option (string * string).
Variable RPCSendRawTransaction : W -> string -> string -> W * (string * error).
Variable UnmarshalPartiallySignedTransaction :
  list byte -> option bitcoin.PartiallySignedTransaction.
Variable Marshal : bitcoin.PartiallySignedTransaction -> list byte.
Variable Hash : bitcoin.PartiallySignedTransaction -> string.
Variable SigHash : bitcoin.PartiallySignedTransaction -> nat -> list byte.
Variable DecodeHexOrPanic : string -> option (list byte).
Variable ReadTransactionApproval : W -> string -> option Transaction.t * error.
Variable ReadSafe : W -> string -> option Safe.t * error.
Variable deriveBIP32WithKeeperPath : W -> string -> string -> string + string.
Variable ListAllSignaturesForTransaction :
  W -> string -> Z -> list SignatureRequest.t * error.
Variable checkBitcoinUTXOSignatureRequired : W -> wire.OutPoint -> bool.
Variable VerifySignatureDER : string -> list byte -> list byte -> error.
Variable UpdateRecoveryState : W -> string -> string -> Z -> W * error.
Variable FinishTransactionSignatures : W -> string -> string -> W * error.
Variable UnmarshalSafeTransaction : list byte -> option ethereum.SafeTransaction.
Variable MarshalSafeTransaction : ethereum.SafeTransaction -> list byte.
Variable CheckTransactionPartiallySignedBy : string -> string -> bool.

Definition bitcoinBroadcastTransaction (w : W) (hash : string) (raw : list byte) (chain : Z)
  : W * exit :=
  match bitcoinParams chain with
  | None => (w, Panicked "chain")
  | Some (url, _) =>
      let '(w1, (id, err)) := RPCSendRawTransaction w url (hex.EncodeToString raw) in
      match err with
      | Some e =>
          if strings.Contains e "Transaction already in block chain"
          then (w1, Return None)
          else (w1, Return (Some e))
      | None =>
          if negb (String.eqb id hash)
          then (w1, Return (Some ("malformed bitcoin transaction " ++ hash ++ " " ++ id)%string))
          else (w1, Return None)
      end
  end.

(** The [switch in.Sequence] of the combine loop: [None] is a panic,
    [Some b] leaves [signedByHolderObserver = b]. *)
Definition checkHolderSide (tx : Transaction.t) (opk : string) (sequence : Z)
  (hpin : psbt.PInput) (hsig : psbt.PartialSig) : option bool :=
  if sequence =? MaxTransactionSequence then
    if negb (String.eqb (hex.EncodeToString (psbt.PubKey hsig)) (Transaction.Holder tx))
    then None else Some false
  else if (length (psbt.PartialSigs hpin) =? 1)%nat then
    if negb (String.eqb (hex.EncodeToString (psbt.PubKey hsig)) opk)
    then None else Some false
  else
    let pubs := List.map (fun sig => hex.EncodeToString (psbt.PubKey sig))
                  (psbt.PartialSigs hpin) in
    if existsb (String.eqb (Transaction.Holder tx)) pubs && existsb (String.eqb opk) pubs
    then Some true else None.

(** One iteration of [for idx, in := range spsbt.UnsignedTx.TxIn]. *)
Definition combineInput (w : W) (tx : Transaction.t) (spk opk : string)
  (spsbt : bitcoin.PartiallySignedTransaction) (signed : gmap nat (list byte))
  (idx : nat) (tin : wire.TxIn) (hpsbt : option bitcoin.PartiallySignedTransaction)
  : loop (option bitcoin.PartiallySignedTransaction) :=
  let pop := wire.PreviousOutPoint tin in
  let hash := SigHash spsbt idx in
  if negb (checkBitcoinUTXOSignatureRequired w pop) then Next hpsbt else
  match hpsbt with
  | None => Exit (Panicked "nil pointer dereference")
  | Some hp =>
  match bitcoin.Inputs hp !! idx with
  | None => Exit (Panicked "index out of range")
  | Some hpin =>
  match psbt.PartialSigs hpin !! 0%nat with
  | None => Exit (Panicked "index out of range")
  | Some hsig =>
  match checkHolderSide tx opk (wire.Sequence tin) hpin hsig with
  | None => Exit (Panicked (Hash spsbt))
  | Some true => Next hpsbt
  | Some false =>
  match bitcoin.Inputs spsbt !! idx with
  | None => Exit (Panicked "index out of range")
  | Some spin =>
  match psbt.PartialSigs spin !! 0%nat with
  | None => Exit (Panicked "index out of range")
  | Some ssig =>
  if negb (String.eqb (hex.EncodeToString (psbt.PubKey ssig)) spk)
  then Exit (Panicked (Hash spsbt)) else
  if negb (bytes.Equal (psbt.Signature ssig) (default [] (signed !! idx)))
  then Exit (Panicked (Hash spsbt)) else
  match VerifySignatureDER spk hash (psbt.Signature ssig) with
  | Some _ => Exit (Panicked (Hash spsbt))
  | None =>
      Next (Some (observer_v1.setPartialSigs hp idx
                    (psbt.PartialSigs hpin ++ psbt.PartialSigs spin)))
  end end end end end end end.

(** What holds of a normal-transaction input [idx] that needed the
    signer once the combine loop is through: the holder's first partial
    signature carries the holder key, the signer's carries the derived
    signer key, is the keeper's response for the input and verifies
    against the derived key over the input's sighash; the holder packet
    then lists the holder's signatures followed by the signer's. *)
Definition normalInputCombined (tx : Transaction.t) (spk : string)
  (spsbt : bitcoin.PartiallySignedTransaction) (signed : gmap nat (list byte))
  (hpsbt : option bitcoin.PartiallySignedTransaction) (idx : nat)
  (combined : option psbt.PInput) : Prop :=
  exists hpin hsig spin ssig,
    observer_v1.holderInput hpsbt idx = Some hpin
    /\ psbt.PartialSigs hpin !! 0%nat = Some hsig
    /\ bitcoin.Inputs spsbt !! idx = Some spin
    /\ psbt.PartialSigs spin !! 0%nat = Some ssig
    /\ hex.EncodeToString (psbt.PubKey hsig) = Transaction.Holder tx
    /\ hex.EncodeToString (psbt.PubKey ssig) = spk
    /\ psbt.Signature ssig = default [] (signed !! idx)
    /\ VerifySignatureDER spk (SigHash spsbt idx) (psbt.Signature ssig) = None
    /\ combined
       = Some {| psbt.PartialSigs := psbt.PartialSigs hpin ++ psbt.PartialSigs spin |}.

Fixpoint combineInputs (w : W) (tx : Transaction.t) (spk opk : string)
  (spsbt : bitcoin.PartiallySignedTransaction) (signed : gmap nat (list byte))
  (idx : nat) (ins : list wire.TxIn) (hpsbt : option bitcoin.PartiallySignedTransaction)
  : loop (option bitcoin.PartiallySignedTransaction) :=
  match ins with
  | [] => Next hpsbt
  | tin :: rest =>
      match combineInput w tx spk opk spsbt signed idx tin hpsbt with
      | Next hpsbt' => combineInputs w tx spk opk spsbt signed (S idx) rest hpsbt'
      | Exit e => Exit e
      end
  end.

Definition keeperCombineBitcoinTransactionSignatures (w : W) (extra : list byte) : W * exit :=
  match UnmarshalPartiallySignedTransaction extra with
  | None => (w, Panicked "nil pointer dereference")
  | Some spsbt =>
  match ReadTransactionApproval w (Hash spsbt) with
  | (_, Some err) => (w, Return (Some err))
  | (None, None) => (w, Panicked "nil pointer dereference")
  | (Some tx, None) =>
  if Transaction.State tx >=? common.RequestStateDone then (w, Return None) else
  if negb ((Transaction.Chain tx =? SafeChainBitcoin)
           || (Transaction.Chain tx =? SafeChainLitecoin))
  then (w, Panicked (Hash spsbt)) else
  match DecodeHexOrPanic (Transaction.RawTransaction tx) with
  | None => (w, Panicked (Transaction.RawTransaction tx))
  | Some b =>
  let hpsbt := UnmarshalPartiallySignedTransaction b in
  match ReadSafe w (Transaction.Holder tx) with
  | (_, Some err) => (w, Return (Some err))
  | (None, None) => (w, Panicked "nil pointer dereference")
  | (Some safe, None) =>
  match deriveBIP32WithKeeperPath w (Transaction.Signer tx) (Safe.Path safe) with
  | inr err => (w, Panicked err)
  | inl spk =>
  match deriveBIP32WithKeeperPath w (Safe.Observer safe) (Safe.Path safe) with
  | inr err => (w, Panicked err)
  | inl opk =>
  match ListAllSignaturesForTransaction w (Hash spsbt) common.RequestStateDone with
  | (_, Some err) => (w, Return (Some err))
  | (requests, None) =>
  match observer_v1.signedMap DecodeHexOrPanic requests ∅ with
  | None => (w, Panicked "hex")
  | Some signed =>
  match combineInputs w tx spk opk spsbt signed 0
          (wire.TxIn_ (bitcoin.UnsignedTx spsbt)) hpsbt with
  | Exit e => (w, e)
  | Next None => (w, Panicked "nil pointer dereference")
  | Next (Some hp) =>
      let raw := hex.EncodeToString (Marshal hp) in
      let '(w1, err) := UpdateRecoveryState w (Safe.Address safe) raw common.RequestStateDone in
      match err with
      | Some e => (w1, Return (Some e))
      | None =>
          let '(w2, err2) := FinishTransactionSignatures w1 (Hash hp) raw in
          (w2, Return err2)
      end
  end end end end end end end end end.

(** [sigs += 1] for each of holder, observer and signer that has
    partially signed. *)
Definition countSigned (raw : string) (pubs : list string) : Z :=
  fold_left (fun sigs pub =>
               if CheckTransactionPartiallySignedBy raw pub then sigs + 1 else sigs)
    pubs 0.

(** The count the verification compares with 2. *)
Definition signaturesOf (st : ethereum.SafeTransaction) (safe : Safe.t) : Z :=
  countSigned (hex.EncodeToString (MarshalSafeTransaction st))
    [Safe.Holder safe; Safe.Observer safe; Safe.Signer safe].

Definition keeperVerifyEthereumTransactionSignatures (w : W) (extra : list byte) : W * exit :=
  match UnmarshalSafeTransaction extra with
  | None => (w, Panicked "nil pointer dereference")
  | Some st =>
  let raw := hex.EncodeToString (MarshalSafeTransaction st) in
  match ReadTransactionApproval w (ethereum.TxHash st) with
  | (_, Some err) => (w, Return (Some err))
  | (None, None) => (w, Panicked "nil pointer dereference")
  | (Some tx, None) =>
  if Transaction.State tx >=? common.RequestStateDone then (w, Return None) else
  match ReadSafe w (Transaction.Holder tx) with
  | (_, Some err) => (w, Return (Some err))
  | (None, None) => (w, Panicked "nil pointer dereference")
  | (Some safe, None) =>
  if negb ((Safe.Chain safe =? SafeChainEthereum) || (Safe.Chain safe =? SafeChainPolygon))
  then (w, Panicked (ethereum.TxHash st)) else
  let sigs := countSigned raw [Safe.Holder safe; Safe.Observer safe; Safe.Signer safe] in
  if sigs <? 2
  then (w, Return (Some "Ethereum safe transaction has insufficient signatures"%string))
  else
    let '(w1, err) := UpdateRecoveryState w (Safe.Address safe) "" common.RequestStateDone in
    match err with
    | Some e => (w1, Return (Some e))
    | None =>
        let '(w2, err2) := FinishTransactionSignatures w1 (ethereum.TxHash st) raw in
        (w2, Return err2)
    end
  end end end.

End node.
End observer.

(** ** Replay of MTG outputs *)
Module replay.

(** [mtg.Action], the fields that identify a delivery. *)
Record Action : Type := {
  OutputId : string;
  Extra : string;
  Sequence : Z;
}.

(** The stored result of a handled action, as the keeper test reads it
    back ([ar.Transactions], [ar.Compaction]). *)
Record ActionResult : Type := {
  Transactions : list mtg.Transaction;
  Compaction : string;
}.

Definition Transaction_eqb (a b : mtg.Transaction) : bool :=
  String.eqb (mtg.TraceId a) (mtg.TraceId b)
  && String.eqb (mtg.OpponentAppId a) (mtg.OpponentAppId b)
  && String.eqb (mtg.AssetId a) (mtg.AssetId b)
  && String.eqb (mtg.Amount a) (mtg.Amount b)
  && String.eqb (mtg.Memo a) (mtg.Memo b).

Fixpoint Transactions_eqb (a b : list mtg.Transaction) : bool :=
  match a, b with
  | [], [] => true
  | x :: a', y :: b' => Transaction_eqb x y && Transactions_eqb a' b'
  | _, _ => false
  end.

(** [mtg.ReplayCheck] (external): it panics unless both runs of the
    worker gave the same transactions and the same compaction asset. *)
Definition ReplayCheck (txs1 txs2 : list mtg.Transaction) (asset1 asset2 : string) : bool :=
  Transactions_eqb txs1 txs2 && String.eqb asset1 asset2.

Section worker.

(** The node's state and its [processAction]. *)
Variable State : Type.
Variable processAction : State -> Action -> State * (list mtg.Transaction * string).

(** [ProcessOutput] (src/signer/node.go): the action is processed twice
    and the two results are checked against each other. *)
Definition ProcessOutput (st : State) (out : Action)
  : outcome (State * (list mtg.Transaction * string)) :=
  let '(st1, (txs1, asset1)) := processAction st out in
  let '(st2, (txs2, asset2)) := processAction st1 out in
  if ReplayCheck txs1 txs2 asset1 asset2
  then Returns (st2, (txs1, asset1))
  else Panics (OutputId out).

End worker.

Section keeper.

(** The keeper's state apart from the action results, the request it
    decodes from an output ([None]: not a request, nothing to do), and
    its action handlers. *)
Variable App : Type.
Variable parseRequest : Action -> option string.
Variable handle : App -> Action -> string -> App * (list mtg.Transaction * string).

Record Keeper : Type := {
  app : App;
  action_results : gmap (string * string) ActionResult;
}.

(** Modelled from the spec: the keeper's [processAction] (keeper/node.go
    is not among the sources).  "A duplicate delivery is recognized by
    (OutputId, RequestId) in the action-result cache" (section 5): a hit
    returns the stored result and changes nothing; a miss runs the
    handler and stores its result with the state it leaves. *)
Definition processAction (st : Keeper) (out : Action)
  : Keeper * (list mtg.Transaction * string) :=
  match parseRequest out with
  | None => (st, ([], EmptyString))
  | Some requestId =>
      match action_results st !! (OutputId out, requestId) with
      | Some ar => (st, (Transactions ar, Compaction ar))
      | None =>
          let '(app', (txs, asset)) := handle (app st) out requestId in
          ({| app := app';
              action_results :=
                <[(OutputId out, requestId) :=
                    {| Transactions := txs; Compaction := asset |}]> (action_results st) |},
           (txs, asset))
      end
  end.

(** The result a delivery of [out] finds settled in [st], if any: what
    [processAction] returns without running a handler. *)
Definition stored (st : Keeper) (out : Action) : option (list mtg.Transaction * string) :=
  match parseRequest out with
  | None => Some ([], EmptyString)
  | Some requestId =>
      (fun ar => (Transactions ar, Compaction ar))
        <$> action_results st !! (OutputId out, requestId)
  end.

(** The keeper consuming deliveries in order; a panic stops it. *)
Fixpoint deliver (st : Keeper) (outs : list Action) : Keeper :=
  match outs with
  | [] => st
  | out :: rest =>
      match ProcessOutput Keeper processAction st out with
      | Returns (st', _) => deliver st' rest
      | Panics _ => st
      end
  end.

End keeper.
End replay.

(** ** Revoking a proposed transaction *)
Module keeper_revoke.

(** Modelled from the spec: the keeper's rows for transactions, UTXOs
    and signature requests (section 3), with the columns a revocation
    reads or writes; keeper/store is only partly among the sources. *)
Record Transaction : Type := {
  TransactionHash : string;
  RequestId : string;
  Holder : string;
  State : Z;
}.

Record UTXO : Type := {
  OutputHash : string;
  OutputIndex : Z;
  OutputState : Z;
  SpentBy : sql.NullString;
}.

Record SignatureRequest : Type := {
  SignedTransaction : string;
  InputIndex : nat;
  RequestState : Z;
}.

Record Store : Type := {
  transactions : list Transaction;
  utxos : list UTXO;
  signature_requests : list SignatureRequest;
}.

Section handler.

(** ECDSA verification of a signature over the Bitcoin-signed-message
    hash of a payload, and the derived observer key of a holder's safe. *)
Variable VerifyMessageSignature : string -> string -> list byte -> bool.
Variable observerKey : string -> string.

(** The signed payload [REVOKE:<requestId>:<txHash>] (section 6). *)
Definition revokeMessage (requestId txHash : string) : string :=
  ("REVOKE:" ++ requestId ++ ":" ++ txHash)%string.

Definition failTransaction (hash : string) (t : Transaction) : Transaction :=
  if String.eqb (TransactionHash t) hash
  then {| TransactionHash := TransactionHash t;
          RequestId := RequestId t;
          Holder := Holder t;
          State := common.RequestStateFailed |}
  else t.

Definition releaseUTXO (hash : string) (u : UTXO) : UTXO :=
  if sql.equals (SpentBy u) hash
  then {| OutputHash := OutputHash u;
          OutputIndex := OutputIndex u;
          OutputState := common.RequestStateInitial;
          SpentBy := sql.null |}
  else u.

Definition failSignatureRequest (hash : string) (r : SignatureRequest) : SignatureRequest :=
  if String.eqb (SignedTransaction r) hash
  then {| SignedTransaction := SignedTransaction r;
          InputIndex := InputIndex r;
          RequestState := common.RequestStateFailed |}
  else r.

(** Modelled from the spec: the [SafeRevokeTransaction] handler
    (keeper/bitcoin.go is not among the sources).  "Verify signature
    over REVOKE:<reqId>:<txHash>; mark transaction Failed; release
    assigned UTXOs back to Initial" (section 4.2), by holder or
    observer; the transaction's signature requests fail with it.  The
    extra names the proposing request and carries the signature.  The
    result says whether the revocation was accepted. *)
Definition processSafeRevokeTransaction (s : Store) (holder requestId : string)
  (sig : list byte) : Store * bool :=
  match List.find (fun t => String.eqb (RequestId t) requestId) (transactions s) with
  | None => (s, false)
  | Some tx =>
      if negb (String.eqb (Holder tx) holder) then (s, false) else
      let msg := revokeMessage (RequestId tx) (TransactionHash tx) in
      if VerifyMessageSignature holder msg sig
         || VerifyMessageSignature (observerKey holder) msg sig
      then ({| transactions := List.map (failTransaction (TransactionHash tx)) (transactions s);
               utxos := List.map (releaseUTXO (TransactionHash tx)) (utxos s);
               signature_requests :=
                 List.map (failSignatureRequest (TransactionHash tx)) (signature_requests s) |},
            true)
      else (s, false)
  end.

End handler.
End keeper_revoke.

(** ** shopspring/decimal and gofrs/uuid (external) *)
Module decimal.

(** A decimal is the number [value * 10 ^ exp]. *)
Record t : Type := {
  value : Z;
  exp : Z;
}.

Definition New (v e : Z) : t := {| value := v; exp := e |}.

(** [decimal.NewFromBigInt(v, e)] *)
Definition NewFromBigInt (v e : Z) : t := {| value := v; exp := e |}.

Definition Mul (a b : t) : t :=
  {| value := value a * value b; exp := exp a + exp b |}.

Definition Sign (d : t) : Z := Z.sgn (value d).

(** [d.BigInt()]: the integer part, truncated toward zero. *)
Definition BigInt (d : t) : Z :=
  if 0 <=? exp d then value d * 10 ^ exp d
  else Z.quot (value d) (10 ^ (- exp d)).

Definition IsInteger (d : t) : bool :=
  (0 <=? exp d) || (Z.rem (value d) (10 ^ (- exp d)) =? 0).

(** [big.Int.IsInt64] *)
Definition IsInt64 (n : Z) : bool := (- 2 ^ 63 <=? n) && (n <? 2 ^ 63).

(** [d.IntPart()]: the integer part as an int64, wrapped when it does
    not fit. *)
Definition IntPart (d : t) : Z :=
  (BigInt d + 2 ^ 63) mod 2 ^ 64 - 2 ^ 63.

(** [a.Equal(b)]: both rescaled to the smaller exponent. *)
Definition Equal (a b : t) : bool :=
  let m := Z.min (exp a) (exp b) in
  value a * 10 ^ (exp a - m) =? value b * 10 ^ (exp b - m).

End decimal.

Module uuid.

(** [UUID.String()] of sixteen bytes: the canonical 8-4-4-4-12 form. *)
Definition String_ (u : list byte) : string :=
  (hex.EncodeToString (slice 0 4 u) ++ "-" ++ hex.EncodeToString (slice 4 6 u) ++ "-"
   ++ hex.EncodeToString (slice 6 8 u) ++ "-" ++ hex.EncodeToString (slice 8 10 u) ++ "-"
   ++ hex.EncodeToString (slice 10 16 u))%string.

End uuid.

(** ** package keeper: operation parameters and account plans *)
Module OperationParams.

Record t : Type := {
  RequestId : string;
  Chain : Z;
  OperationPriceAsset : string;
  OperationPriceAmount : decimal.t;
  TransactionMinimum : decimal.t;
  CreatedAt : Z;
}.

End OperationParams.

Module keeper_params.
Section node.

(** The keeper's store. *)
Variable W : Type.
Variables SafeChainBitcoin SafeChainLitecoin SafeChainEthereum SafeChainPolygon : Z.
Variable SafeCurveChain : Z -> Z.
Variable failRequest :
  W -> common.Request -> string -> outcome (W * (list mtg.Transaction * string)).
Variable WriteOperationParamsFromRequest :
  W -> OperationParams.t -> common.Request -> W * error.

(** The fields at fixed offsets of a 33-byte extra: chain, asset id,
    price and minimum in units of [10 ^ -8]. *)
Definition decodeParams (req : common.Request) : OperationParams.t :=
  let extra := common.ExtraBytes req in
  {| OperationParams.RequestId := common.Id req;
     OperationParams.Chain := Z.of_N (Byte.to_N (nth 0 extra x00));
     OperationParams.OperationPriceAsset := uuid.String_ (slice 1 17 extra);
     OperationParams.OperationPriceAmount :=
       decimal.NewFromBigInt (binary.Uint64 (slice 17 25 extra)) (-8);
     OperationParams.TransactionMinimum :=
       decimal.NewFromBigInt (binary.Uint64 (slice 25 33 extra)) (-8);
     OperationParams.CreatedAt := common.CreatedAt req |}.

(** [writeOperationParams] (later revision of network.go). *)
Definition writeOperationParams (w : W) (req : common.Request)
  : outcome (W * (list mtg.Transaction * string)) :=
  if negb (common.Role_eqb (common.Role_ req) common.RequestRoleObserver)
  then Panics "role" else
  let extra := common.ExtraBytes req in
  if negb (length extra =? 33)%nat then failRequest w req "" else
  let chain := Z.of_N (Byte.to_N (nth 0 extra x00)) in
  if negb (chain =? SafeCurveChain (common.Curve req)) then Panics (common.Id req) else
  if (chain =? SafeChainBitcoin) || (chain =? SafeChainLitecoin)
     || (chain =? SafeChainEthereum) || (chain =? SafeChainPolygon)
  then
    match WriteOperationParamsFromRequest w (decodeParams req) req with
    | (_, Some err) => Panics err
    | (w', None) => Returns (w', ([], EmptyString))
    end
  else failRequest w req "".

End node.

Section node_v1.

Variables SafeChainBitcoin SafeChainEthereum : Z.
Variable WriteAccountPlanFromRequest :
  store.Store -> Z -> string -> decimal.t -> decimal.t -> common.Request -> store.Store * error.

(** [writeAccountPlan] (src/keeper/network.go): the store after the call
    and the error returned. *)
Definition writeAccountPlan (s : store.Store) (req : common.Request)
  : outcome (store.Store * error) :=
  if negb (common.Role_eqb (common.Role_ req) common.RequestRoleObserver)
  then Panics "role" else
  let extra := common.ExtraBytes req in
  if negb (length extra =? 33)%nat then Returns (store.FinishRequest s (common.Id req)) else
  let chain := Z.of_N (Byte.to_N (nth 0 extra x00)) in
  if (chain =? SafeChainBitcoin) || (chain =? SafeChainEthereum)
  then
    Returns (WriteAccountPlanFromRequest s chain
               (uuid.String_ (slice 1 17 extra))
               (decimal.NewFromBigInt (binary.Uint64 (slice 17 25 extra)) (-8))
               (decimal.NewFromBigInt (binary.Uint64 (slice 25 33 extra)) (-8))
               req)
  else Returns (store.FinishRequest s (common.Id req)).

End node_v1.
End keeper_params.

(** ** package observer: the price info sent at boot *)
Module observer_price.

Record Asset : Type := {
  AssetId : string;
}.

Section node.

Variable W : Type.
(** [node.bitcoinParams]: RPC endpoint and asset id; [None] is its panic. *)
Variable bitcoinParams : Z -> option (string * string).
Variable fetchAssetMeta : W -> string -> W * (option Asset * error).
(** The configuration: [conf.PriceAssetId], and [conf.PriceAmount] and
    [conf.TransactionMinimum] as [decimal.RequireFromString] reads them
    ([None]: it panics). *)
Variable PriceAssetId : string.
Variables PriceAmount TransactionMinimum : option decimal.t.
Variable ValueDust : Z.
Variable bitcoinDummyHolder : string.
Variable UniqueConversationID : string -> string -> string.
Variable decimal_String : decimal.t -> string.
(** [uuid.FromString]: the sixteen bytes, or [None] for its error. *)
Variable uuid_FromString : string -> option (list byte).
Variable ActionObserverSetAccountPlan : Z.
Variable sendBitcoinKeeperResponse :
  W -> string -> Z -> Z -> string -> list byte -> W * error.

(** [amount.Sign() <= 0 || !amount.IsInteger() || !amount.BigInt().IsInt64()] *)
Definition badAmount (d : decimal.t) : bool :=
  (decimal.Sign d <=? 0) || negb (decimal.IsInteger d)
  || negb (decimal.IsInt64 (decimal.BigInt d)).

(** The extra of the response: chain, asset id, price and minimum. *)
Definition priceExtra (chain : Z) (asset : list byte) (amount minimum : decimal.t)
  : list byte :=
  binary.AppendUint64
    (binary.AppendUint64 ([binary.byteOf chain] ++ asset)
       ((decimal.IntPart amount) mod 2 ^ 64))
    ((decimal.IntPart minimum) mod 2 ^ 64).

Definition sendBitcoinPriceInfo (w : W) (chain : Z) : W * exit :=
  match bitcoinParams chain with
  | None => (w, Panicked "chain")
  | Some (_, bitcoinAssetId) =>
  let '(w1, (asset, err)) := fetchAssetMeta w PriceAssetId in
  match err with
  | Some e => (w1, Return (Some e))
  | None =>
  match PriceAmount with
  | None => (w1, Panicked "decimal")
  | Some amount0 =>
  match TransactionMinimum with
  | None => (w1, Panicked "decimal")
  | Some minimum0 =>
  match asset with
  | None => (w1, Panicked "nil pointer dereference")
  | Some asset =>
  let amount := decimal.Mul amount0 (decimal.New 1 8) in
  if badAmount amount then (w1, Panicked "PriceAmount") else
  let minimum := decimal.Mul minimum0 (decimal.New 1 8) in
  if badAmount minimum then (w1, Panicked "TransactionMinimum") else
  if decimal.IntPart minimum <? ValueDust then (w1, Panicked "TransactionMinimum") else
  let id := UniqueConversationID bitcoinAssetId (AssetId asset) in
  let id := UniqueConversationID id (decimal_String amount) in
  let id := UniqueConversationID id (decimal_String minimum) in
  match uuid_FromString (AssetId asset) with
  | None => (w1, Panicked "uuid")
  | Some u =>
      let '(w2, err) :=
        sendBitcoinKeeperResponse w1 bitcoinDummyHolder ActionObserverSetAccountPlan
          chain id (priceExtra chain u amount minimum) in
      (w2, Return err)
  end end end end end end.

End node.
End observer_price.

(** ** package keeper/store: the [requests] table (request.go) *)
Module request_store.

(** [common.Request] as the store reads and writes it. *)
Record Request : Type := {
  Id : string;
  MixinHash : string;
  MixinIndex : Z;
  AssetId : string;
  Amount : string;
  Role : Z;
  Action : Z;
  Curve : Z;
  Holder : string;
  Extra : string;
  State : Z;
  CreatedAt : Z;
}.

(** A row: the request and its [updated_at] column, which
    [requestFromRow] scans and drops. *)
Definition Row : Type := (Request * Z)%type.

(** Rows of [requests] in the order of a table scan. *)
Definition table : Type := list Row.

Definition hasId (id : string) (r : Row) : bool := String.eqb (Id (fst r)) id.

Definition isInitial (r : Row) : bool := State (fst r) =? common.RequestStateInitial.

Definition withState (st : Z) (r : Request) : Request :=
  {| Id := Id r; MixinHash := MixinHash r; MixinIndex := MixinIndex r;
     AssetId := AssetId r; Amount := Amount r; Role := Role r; Action := Action r;
     Curve := Curve r; Holder := Holder r; Extra := Extra r;
     State := st; CreatedAt := CreatedAt r |}.

(** [WriteRequestIfNotExist]: the table after the call and the error. *)
Definition WriteRequestIfNotExist (rows : table) (req : Request) : outcome (table * error) :=
  if (State req =? 0) || (Role req =? 0) then Panics "request" else
  if existsb (hasId (Id req)) rows then Returns (rows, None)
  else Returns (rows ++ [(req, CreatedAt req)], None).

(** [ReadRequest]: the row with the id, nil when there is none. *)
Definition ReadRequest (rows : table) (id : string) : option Request * error :=
  (fst <$> List.find (hasId id) rows, None).

(** [FinishRequest]:
    [UPDATE requests SET state=Done, updated_at=now
     WHERE request_id=? AND state=Initial]
    through [execOne], which reports an error unless exactly one row was
    changed. *)
Definition FinishRequest (rows : table) (id : string) (now : Z) : table * error :=
  let hit r := hasId id r && isInitial r in
  if (length (List.filter hit rows) =? 1)%nat
  then (List.map (fun r => if hit r
                           then (withState common.RequestStateDone (fst r), now)
                           else r) rows, None)
  else (rows, Some "UPDATE requests"%string).

(** The first row of [ORDER BY created_at ASC]: a row with the least
    [created_at]; among equal ones the database is free to choose, and
    the scan order is taken here. *)
Fixpoint oldest (rows : table) : option Row :=
  match rows with
  | [] => None
  | r :: rest =>
      match oldest rest with
      | Some r' => if CreatedAt (fst r') <? CreatedAt (fst r) then Some r' else Some r
      | None => Some r
      end
  end.

(** The first row of [ORDER BY created_at DESC]. *)
Fixpoint latest (rows : table) : option Row :=
  match rows with
  | [] => None
  | r :: rest =>
      match latest rest with
      | Some r' => if CreatedAt (fst r) <? CreatedAt (fst r') then Some r' else Some r
      | None => Some r
      end
  end.

(** [ReadPendingRequest]:
    [SELECT ... WHERE state=Initial ORDER BY created_at ASC]. *)
Definition ReadPendingRequest (rows : table) : option Request * error :=
  (fst <$> oldest (List.filter isInitial rows), None).

(** [ReadLatestRequest]: [SELECT ... ORDER BY created_at DESC LIMIT 1]. *)
Definition ReadLatestRequest (rows : table) : option Request * error :=
  (fst <$> latest rows, None).

(** The writers of the table, as calls the keeper makes over time. *)
Inductive call : Type :=
| CallWrite (req : Request)
| CallFinish (id : string) (now : Z).

(** The table after one call; a panic leaves it as it was. *)
Definition after (rows : table) (c : call) : table :=
  match c with
  | CallWrite req =>
      match WriteRequestIfNotExist rows req with
      | Returns (rows', _) => rows'
      | Panics _ => rows
      end
  | CallFinish id now => fst (FinishRequest rows id now)
  end.

Definition afterAll (rows : table) (cs : list call) : table := fold_left after cs rows.

(** The request ids of the rows, in table order. *)
Definition ids (rows : table) : list string := List.map (fun r => Id (fst r)) rows.

(** A stored request across calls: kept, or moved from [Initial] to
    [Done]. *)
Definition requestStep (r r' : Request) : Prop :=
  r' = r \/ (State r = common.RequestStateInitial /\ r' = withState common.RequestStateDone r).

End request_store.

(** ** package keeper/store: the [safes] table (safe.go) *)
Module safe_store.

Record Safe : Type := {
  Holder : string;
  Chain : Z;
  Signer : string;
  Observer : string;
  Timelock : Z;
  Address : string;
  Extra : list byte;
  Receivers : list string;
  Threshold : Z;
  RequestId : string;
  CreatedAt : Z;
  UpdatedAt : Z;
}.

(** A row of [safes], in the order of [safeCols]; the receivers are one
    column. *)
Record Row : Type := {
  holder : string;
  chain : Z;
  signer : string;
  observer : string;
  timelock : Z;
  address : string;
  extra : list byte;
  receivers : string;
  threshold : Z;
  request_id : string;
  created_at : Z;
  updated_at : Z;
}.

(** [(s *Safe) values()] *)
Definition values (s : Safe) : Row :=
  {| holder := Holder s; chain := Chain s; signer := Signer s; observer := Observer s;
     timelock := Timelock s; address := Address s; extra := Extra s;
     receivers := strings.Join (Receivers s) ";";
     threshold := Threshold s; request_id := RequestId s;
     created_at := CreatedAt s; updated_at := UpdatedAt s |}.

(** [safeFromRow], on a row that exists. *)
Definition safeFromRow (row : Row) : Safe :=
  {| Holder := holder row; Chain := chain row; Signer := signer row;
     Observer := observer row; Timelock := timelock row; Address := address row;
     Extra := extra row;
     Receivers := strings.Split (receivers row) ";";
     Threshold := threshold row; RequestId := request_id row;
     CreatedAt := created_at row; UpdatedAt := updated_at row |}.

(** The two tables [WriteSafeWithRequest] touches. *)
Record Store : Type := {
  safes : list Row;
  requests : request_store.table;
}.

Section methods.

(** The uniqueness constraints of [safes]: whether a new row clashes
    with one in the table.  (The keeper's schema is not among the
    sources.) *)
Variable clashes : Row -> Row -> bool.

(** [UPDATE requests SET state=Done, updated_at=now WHERE request_id=?]
    through [execOne]. *)
Definition finishRequestOf (rows : request_store.table) (id : string) (now : Z)
  : option request_store.table :=
  if (length (List.filter (request_store.hasId id) rows) =? 1)%nat
  then Some (List.map (fun r => if request_store.hasId id r
                                then (request_store.withState common.RequestStateDone (fst r), now)
                                else r) rows)
  else None.

(** [WriteSafeWithRequest]: both statements in one transaction. *)
Definition WriteSafeWithRequest (s : Store) (safe : Safe) (now : Z) : Store * error :=
  if existsb (clashes (values safe)) (safes s)
  then (s, Some "INSERT safes"%string)
  else
    match finishRequestOf (requests s) (RequestId safe) now with
    | None => (s, Some "UPDATE requests"%string)
    | Some requests' =>
        ({| safes := safes s ++ [values safe]; requests := requests' |}, None)
    end.

(** [ReadSafe] and [readSafe]: [SELECT ... FROM safes WHERE holder=?]. *)
Definition ReadSafe (s : Store) (h : string) : option Safe * error :=
  (safeFromRow <$> List.find (fun row => String.eqb (holder row) h) (safes s), None).

(** [ReadSafeByAddress]: [SELECT ... FROM safes WHERE address=?]. *)
Definition ReadSafeByAddress (s : Store) (addr : string) : option Safe * error :=
  (safeFromRow <$> List.find (fun row => String.eqb (address row) addr) (safes s), None).

End methods.
End safe_store.

(** ** package keeper: requests that pass the replay and height guards *)
Module keeper_record.

(** The request is not the stored one again and not below it. *)
Definition fresh (s : store.Store) (req : common.Request) : Prop :=
  forall old,
    store.ReadLatestNetworkInfo s (store.Chain (keeper_v1.decodeInfo req)) = Some old ->
    store.RequestId old <> common.Id req
    /\ store.Height old <= store.Height (keeper_v1.decodeInfo req).

End keeper_record.

(** ** package observer: paying the fee of a signed transaction *)
Module observer_fee.

(** Conversions to uint64 and to int64. *)
Definition u64 (x : Z) : Z := x mod 2 ^ 64.
Definition i64 (x : Z) : Z := (x + 2 ^ 63) mod 2 ^ 64 - 2 ^ 63.

(** [uint64(40+len(msgTx.TxIn)*300+2*128) / 4] *)
Definition estvb (inputs : nat) : Z := u64 (40 + Z.of_nat inputs * 300 + 2 * 128) / 4.

Section node.

Variable queryRow : observer_store.QueryRow.
Variable TxHash : wire.MsgTx -> string.
Variable MarshalWiredTransaction : wire.MsgTx -> Z -> option (list byte).
(** [uint64(float64(fee)*0.9)] and [uint64(float64(fee)*1.1)]; float64
    arithmetic is not modelled. *)
Variable feeRange : Z -> Z * Z.
(** [bitcoin.ParseAddress]: the script of an address, or its error. *)
Variable ParseAddress : string -> Z -> list byte + string.
(** [chainhash.NewHashFromStr], as the string of the hash it parses. *)
Variable NewHashFromStr : string -> option string.
Variable MaxTransactionSequence : Z.
Variable ValueDust : Z -> Z.
Variable ReadAccountantPrivateKey : string -> string + string.
Variable DecodeHexOrPanic : string -> option (list byte).
(** The witness of an input for a private key: the signature over the
    input's witness sighash with [SigHashAll] appended, and the public
    key; or the error of the script builder or of the sighash. *)
Variable signWitness : list byte -> wire.MsgTx -> nat -> Z -> list (list byte) + string.

(** The range query of [AssignBitcoinUTXOByRangeForTransaction] finds no
    row for the fee. *)
Definition nothingInRange (rows : observer_store.table) (fee : Z) (tx : Transaction.t)
  : Prop :=
  queryRow (observer_store.inRangeOrMine (fst (feeRange fee)) (snd (feeRange fee)) tx) rows
  = None.

Definition feeInput (hash : string) (utxo : Output.t) : wire.TxIn :=
  {| wire.PreviousOutPoint := {| wire.Hash := hash; wire.Index := Output.Index utxo |};
     wire.Witness := [];
     wire.Sequence := MaxTransactionSequence |}.

(** The outputs added when the inputs suffice: the fee, and the change
    when it is above dust. *)
Definition feeOutputs (fee fvb : Z) (chain : Z) (script : list byte) (total : Z)
  (inputs : nat) : list wire.TxOut :=
  let change := u64 (u64 (total - u64 (estvb inputs * fvb)) - fee) in
  {| wire.Value := i64 fee; wire.PkScript := script |}
    :: (if change >? u64 (ValueDust chain)
        then [ {| wire.Value := i64 change; wire.PkScript := script |} ]
        else []).

(** The first loop: inputs are added in order until their total covers
    the fee and the estimated size at the fee rate. *)
Fixpoint selectInputs (fee fvb : Z) (chain : Z) (script : list byte)
  (utxos : list Output.t) (total : Z) (ins : list wire.TxIn)
  : (list wire.TxIn * list wire.TxOut) + string :=
  match utxos with
  | [] => inl (ins, [])
  | utxo :: rest =>
      let total := u64 (total + u64 (Output.Satoshi utxo)) in
      match NewHashFromStr (Output.TransactionHash utxo) with
      | None => inr "NewHashFromStr"%string
      | Some hash =>
          let ins := ins ++ [feeInput hash utxo] in
          if total <? u64 (u64 (estvb (length ins) * fvb) + fee)
          then selectInputs fee fvb chain script rest total ins
          else inl (ins, feeOutputs fee fvb chain script total (length ins))
      end
  end.

Definition setWitness (msgTx : wire.MsgTx) (idx : nat) (items : list (list byte))
  : wire.MsgTx :=
  {| wire.TxIn_ :=
       match wire.TxIn_ msgTx !! idx with
       | Some tin =>
           <[idx := {| wire.PreviousOutPoint := wire.PreviousOutPoint tin;
                       wire.Witness := wire.Witness tin ++ items;
                       wire.Sequence := wire.Sequence tin |}]> (wire.TxIn_ msgTx)
       | None => wire.TxIn_ msgTx
       end;
     wire.TxOut_ := wire.TxOut_ msgTx |}.

(** The second loop: every input is signed with the accountant key of
    its UTXO's address. *)
Fixpoint signFeeInputs (utxos : list Output.t) (idxs : list nat) (msgTx : wire.MsgTx)
  : outcome (wire.MsgTx + string) :=
  match idxs with
  | [] => Returns (inl msgTx)
  | idx :: rest =>
      match utxos !! idx with
      | None => Panics "index out of range"
      | Some utxo =>
          match ReadAccountantPrivateKey (Output.Address utxo) with
          | inr err => Returns (inr err)
          | inl accountant =>
              match DecodeHexOrPanic accountant with
              | None => Panics accountant
              | Some key =>
                  match signWitness key msgTx idx (Output.Satoshi utxo) with
                  | inr err => Returns (inr err)
                  | inl items => signFeeInputs utxos rest (setWitness msgTx idx items)
                  end
              end
          end
      end
  end.

(** The [Output] handed back for a new fee transaction: its output 0. *)
Definition feeOutput (hash : string) (value : Z) (raw : list byte) : Output.t :=
  {| Output.TransactionHash := hash;
     Output.Index := 0;
     Output.Address := EmptyString;
     Output.Satoshi := value;
     Output.Chain := 0;
     Output.State := 0;
     Output.SpentBy := sql.null;
     Output.RawTransaction := sql.valid (hex.EncodeToString raw);
     Output.CreatedAt := 0;
     Output.UpdatedAt := 0 |}.

(** [bitcoinRetrieveFeeInputsForTransaction]: the table after the call,
    the output returned and the error. *)
Definition bitcoinRetrieveFeeInputsForTransaction (rows : observer_store.table)
  (fee fvb : Z) (tx : Transaction.t) (now : Z)
  : outcome (observer_store.table * (option Output.t * error)) :=
  let '(min, max) := feeRange fee in
  let '(rows1, (old, err)) :=
    observer_store.AssignBitcoinUTXOByRangeForTransaction queryRow rows min max tx now in
  match err, old with
  | Some _, _ | None, Some _ => Returns (rows1, (old, err))
  | None, None =>
  match fst (observer_store.ReadBitcoinUTXOs rows1 (Transaction.Chain tx)) with
  | [] => Returns (rows1, (None, None))
  | first :: others =>
  let utxos := first :: others in
  let receiver := Output.Address first in
  match ParseAddress receiver (Transaction.Chain tx) with
  | inr e => Returns (rows1, (None, Some e))
  | inl script =>
  match selectInputs fee fvb (Transaction.Chain tx) script utxos 0 [] with
  | inr e => Returns (rows1, (None, Some e))
  | inl (_, []) => Returns (rows1, (None, None))
  | inl (ins, out0 :: outs) =>
  match signFeeInputs utxos (seq 0 (length ins))
          {| wire.TxIn_ := ins; wire.TxOut_ := out0 :: outs |} with
  | Panics why => Panics why
  | Returns (inr e) => Returns (rows1, (None, Some e))
  | Returns (inl msgTx) =>
  match MarshalWiredTransaction msgTx (Transaction.Chain tx) with
  | None => Returns (rows1, (None, Some "MarshalWiredTransaction"%string))
  | Some raw =>
      let '(rows2, err) :=
        observer_store.WriteBitcoinFeeOutput TxHash MarshalWiredTransaction
          rows1 msgTx receiver tx now in
      Returns (rows2, (Some (feeOutput (TxHash msgTx) (wire.Value out0) raw), err))
  end end end end end end.

End node.
(** The total of the amounts of some rows. *)
Definition totalSatoshi (utxos : list Output.t) : Z :=
  fold_right (fun o acc => Output.Satoshi o + acc) 0 utxos.

(** An input of the fee transaction spends this UTXO. *)
Definition spends (NewHashFromStr : string -> option string) (utxo : Output.t)
  (tin : wire.TxIn) : Prop :=
  NewHashFromStr (Output.TransactionHash utxo) = Some (wire.Hash (wire.PreviousOutPoint tin))
  /\ wire.Index (wire.PreviousOutPoint tin) = Output.Index utxo.

End observer_fee.

(** ** package observer: broadcasting a spend *)
Module observer_spend.
Section node.

Variable W : Type.
Variable bitcoinParams : Z -> option (string * string).
Variable RPCSendRawTransaction : W -> string -> string -> W * (string * error).
Variable DecodeHexOrPanic : string -> option (list byte).
Variable TxHash : wire.MsgTx -> string.
Variable MarshalWiredTransaction : wire.MsgTx -> Z -> option (list byte).
(** [bitcoin.RPCGetTransaction(chain, rpc, hash)]: whether the node
    knows the transaction, and the error. *)
Variable RPCGetTransaction : W -> Z -> string -> string -> W * (bool * error).
(** [node.bitcoinProcessTransaction] of the transaction with this hash. *)
Variable bitcoinProcessTransaction : W -> string -> Z -> W * exit.

Abbreviation bitcoinBroadcastTransaction :=
  (observer.bitcoinBroadcastTransaction W bitcoinParams RPCSendRawTransaction).

(** Broadcast a transaction and ask the node for it: [inl] to go on,
    [inr] to leave with an error or a panic.  An error keeps the text of
    its cause; what [fmt.Errorf] writes around it is not modelled. *)
Definition broadcastAndFetch (w : W) (rpc hash : string) (raw : list byte) (chain : Z)
  : W * (unit + exit) :=
  match bitcoinBroadcastTransaction w hash raw chain with
  | (w1, Panicked why) => (w1, inr (Panicked why))
  | (w1, Return (Some e)) => (w1, inr (Return (Some e)))
  | (w1, Return None) =>
      let '(w2, (found, err)) := RPCGetTransaction w1 chain rpc hash in
      match err with
      | Some e => (w2, inr (Return (Some e)))
      | None =>
          if found then (w2, inl tt)
          else (w2, inr (Return (Some "bitcoin.RPCGetTransaction"%string)))
      end
  end.

Definition bitcoinBroadcastTransactionAndWriteDeposit (w : W) (feeInput : Output.t)
  (msgTx : wire.MsgTx) (chain : Z) : W * exit :=
  match bitcoinParams chain with
  | None => (w, Panicked "chain")
  | Some (rpc, _) =>
  let feeRaw := sql.String_ (Output.RawTransaction feeInput) in
  let '(w1, fee) :=
    if String.eqb feeRaw EmptyString then (w, inl tt)
    else
      match DecodeHexOrPanic feeRaw with
      | None => (w, inr (Panicked feeRaw))
      | Some raw => broadcastAndFetch w rpc (Output.TransactionHash feeInput) raw chain
      end in
  match fee with
  | inr e => (w1, e)
  | inl _ =>
  match MarshalWiredTransaction msgTx chain with
  | None => (w1, Return (Some "MarshalWiredTransaction"%string))
  | Some raw =>
      let '(w2, spend) := broadcastAndFetch w1 rpc (TxHash msgTx) raw chain in
      match spend with
      | inr e => (w2, e)
      | inl _ => bitcoinProcessTransaction w2 (TxHash msgTx) chain
      end
  end end end.

End node.
End observer_spend.

(** ** package signer (node.go)

    A slice expression that reaches beyond the length of the slice is
    taken to panic, as it does when the slice has no spare capacity. *)
Module signer.

(** The loop of [findMember], counting from [i]. *)
Fixpoint findFrom (i : Z) (members : list string) (m : string) : Z :=
  match members with
  | [] => -1
  | id :: rest => if String.eqb m id then i else findFrom (i + 1) rest m
  end.

Definition findMember (members : list string) (m : string) : Z := findFrom 0 members m.

(** [Index]: the node's own place among the members. *)
Definition Index (members : list string) (id : string) : outcome Z :=
  let index := findMember members id in
  if index <? 0 then Panics id else Returns index.

(** [queueOperation]: the operations started so far, and whether this
    call starts one. *)
Definition queueOperation (operations : gset string) (opId : string) : gset string * bool :=
  if decide (opId ∈ operations) then (operations, false)
  else ({[ opId ]} ∪ operations, true).

(** The operations started by a sequence of [queueOperation] calls, in
    order. *)
Fixpoint startedBy (operations : gset string) (opIds : list string) : list string :=
  match opIds with
  | [] => []
  | opId :: rest =>
      let '(operations', started) := queueOperation operations opId in
      (if started then [opId] else []) ++ startedBy operations' rest
  end.

Section messages.

(** [protocol.Message] with its binary encoding: [common.MarshalPanic]
    ([None] is its panic) and [UnmarshalBinary], which leaves a message
    and an error. *)
Variable Message : Type.
Variable MarshalPanic : Message -> option (list byte).
Variable UnmarshalBinary : list byte -> Message * error.

Definition marshalSessionMessage (sessionId : list byte) (msg : Message)
  : outcome (list byte) :=
  if (32 <? length sessionId)%nat then Panics (hex.EncodeToString sessionId) else
  match MarshalPanic msg with
  | None => Panics "MarshalPanic"
  | Some encoded =>
      Returns ([binary.byteOf (Z.of_nat (length sessionId))] ++ sessionId ++ encoded)
  end.

(** [unmarshalSessionMessage]: session id, message and error.  The
    bound [1+b[0]] is a byte, so it wraps at 256. *)
Definition unmarshalSessionMessage (b : list byte)
  : outcome (option (list byte) * option Message * error) :=
  if (length b <? 16)%nat then Returns (None, None, Some "short"%string) else
  let b0 := Z.of_N (Byte.to_N (nth 0 b x00)) in
  if Z.of_nat (length (slice_from 1 b)) <=? b0
  then Returns (None, None, Some "short"%string) else
  let bound := (1 + b0) mod 256 in
  if bound <? 1 then Panics "slice bounds out of range" else
  let sessionId := slice 1 (Z.to_nat bound) b in
  let '(msg, err) := UnmarshalBinary (slice_from (Z.to_nat bound) b) in
  Returns (Some sessionId, Some msg, err).

End messages.

(** [concatMessageAndSignature]: the length of the message in four
    bytes, the message, the signature. *)
Definition concatMessageAndSignature (msg sig : list byte) : list byte :=
  binary.AppendUint32 [] (Z.of_nat (length msg) mod 2 ^ 32) ++ msg ++ sig.

Section verify.

Variables CurveSecp256k1ECDSABitcoin CurveSecp256k1ECDSAEthereum
  CurveSecp256k1SchnorrBitcoin CurveEdwards25519Default CurveEdwards25519Mixin : Z.
(** [node.deriveByPath]: public key and chain code; [None] is a panic. *)
Variable deriveByPath : Z -> list byte -> list byte -> option (list byte * list byte).
Variable bitcoin_VerifySignatureDER : string -> list byte -> list byte -> error.
Variable ethereum_VerifyHashSignature : string -> list byte -> list byte -> outcome error.
(** The Mixin check of a 64-byte signature once the lengths are right:
    [None] when the scalar or the holder's point does not parse. *)
Variable mixinVerify : string -> list byte -> list byte -> option bool.
Variable CheckTestEnvironment : bool.

(** [verifySessionSignature]: whether the signature verifies, and the
    signature (nil when the extra is malformed). *)
Definition verifySessionSignature (crv : Z) (holder : string) (extra share path : list byte)
  : outcome (bool * option (list byte)) :=
  if (length extra <? 4)%nat then Panics "slice bounds out of range" else
  let el := binary.Uint32 (slice 0 4 extra) in
  if Z.of_nat (length extra) <? el + 32 then Returns (false, None) else
  let bound := (4 + el) mod 2 ^ 32 in
  if bound <? 4 then Panics "slice bounds out of range" else
  let msg := slice 4 (Z.to_nat bound) extra in
  let sig := slice_from (Z.to_nat bound) extra in
  match deriveByPath crv share path with
  | None => Panics "deriveByPath"
  | Some (public, _) =>
      if crv =? CurveSecp256k1ECDSABitcoin then
        Returns (bool_decide (bitcoin_VerifySignatureDER (hex.EncodeToString public) msg sig
                              = None), Some sig)
      else if crv =? CurveSecp256k1ECDSAEthereum then
        match ethereum_VerifyHashSignature (hex.EncodeToString public) msg sig with
        | Panics why => Panics why
        | Returns err => Returns (bool_decide (err = None), Some sig)
        end
      else if crv =? CurveEdwards25519Mixin then
        if (length msg <? 32)%nat || negb (length sig =? 64)%nat then Returns (false, None)
        else
          match mixinVerify holder msg sig with
          | None => Returns (false, None)
          | Some res => Returns (res, Some sig)
          end
      else if (crv =? CurveEdwards25519Default) || (crv =? CurveSecp256k1SchnorrBitcoin)
      then Returns (CheckTestEnvironment, Some sig)
      else Panics "curve"
  end.

End verify.

(** A session as the signer stores it. *)
Record Session : Type := {
  Id : string;
  Operation : Z;
  Curve : Z;
  Public : string;
  Extra : string;
  State : Z;
  PreparedAt : bool;
}.

Section results.

Variables OperationTypeKeygenInput OperationTypeSignInput : Z.
(** [conf.MTG.Genesis.Members], [node.id] and [node.threshold]. *)
Variable Members : list string.
Variable self : string.
Variable threshold : Z.
Variable DecodeHexOrPanic : string -> option (list byte).

(** A member reported the session's public key, which is also what this
    node reported. *)
Definition keygenSigned (session : Session) (sessionSigners : gmap string string)
  (id : string) : bool :=
  match sessionSigners !! id with
  | Some public =>
      String.eqb public (Public session)
      && String.eqb public (default EmptyString (sessionSigners !! self))
  | None => false
  end.

(** One round of the loop over the members of a signing session: the
    number of members counted and the signature of the first member
    that reported one ([None] while it is nil; what [hex.DecodeString]
    returns is not nil, also when it is empty); [None] for the panic of
    [DecodeHexOrPanic]. *)
Definition signStep (sessionSigners : gmap string string) (id : string)
  (st : Z * option (list byte)) : option (Z * option (list byte)) :=
  let '(signed, sig) := st in
  match sessionSigners !! id with
  | None => Some (signed, sig)
  | Some extra =>
      match (match sig with
             | None => DecodeHexOrPanic extra
             | Some s => Some s
             end) with
      | None => None
      | Some s =>
          if negb (String.eqb extra EmptyString)
             && String.eqb (hex.EncodeToString s) extra
          then Some (signed + 1, Some s)
          else Some (signed, Some s)
      end
  end.

Fixpoint signLoop (sessionSigners : gmap string string) (ids : list string)
  (st : Z * option (list byte)) : option (Z * option (list byte)) :=
  match ids with
  | [] => Some st
  | id :: rest =>
      match signStep sessionSigners id st with
      | None => None
      | Some st' => signLoop sessionSigners rest st'
      end
  end.

Definition verifySessionSignerResults (session : Session)
  (sessionSigners : gmap string string) : outcome (bool * option (list byte)) :=
  if Operation session =? OperationTypeKeygenInput then
    let signed := length (List.filter (keygenSigned session sessionSigners) Members) in
    Returns ((length Members <=? signed)%nat, None)
  else if Operation session =? OperationTypeSignInput then
    match signLoop sessionSigners Members (0, None) with
    | None => Panics "DecodeHexOrPanic"
    | Some (signed, sig) => Returns (threshold <? signed, sig)
    end
  else Panics (Id session).

End results.
(** A member reported exactly this signature, and it is not empty. *)
Definition agrees (sessionSigners : gmap string string) (sig : list byte) (id : string)
  : bool :=
  match sessionSigners !! id with
  | Some extra =>
      negb (String.eqb extra EmptyString) && String.eqb (hex.EncodeToString sig) extra
  | None => false
  end.

End signer.

(** ** package sort and apps/ethereum (account.go) *)
Module sort.

(** One pass of the inner loop of the insertion sort: [x] moves left
    past the elements it is less than.  The sorted part is kept with its
    last element first. *)
Fixpoint insertLeft {A : Type} (less : A -> A -> bool) (x : A) (before : list A) : list A :=
  match before with
  | [] => [x]
  | e :: rest => if less x e then e :: insertLeft less x rest else x :: before
  end.

(** [sort.Slice] on fewer than twelve elements, where it is an
    insertion sort. *)
Definition Slice {A : Type} (less : A -> A -> bool) (data : list A) : list A :=
  rev (fold_left (fun before x => insertLeft less x before) data []).

End sort.

Module ethereum_account.
Section owners.

(** An address is the number its twenty bytes spell; [Hex] is
    [addr.Hex()] and [HexToAddress] is [common.HexToAddress]. *)
Variable ParseEthereumCompressedPublicKey : string -> option Z.
Variable Hex : Z -> string.
Variable HexToAddress : string -> Z.

(** [common.HexToAddress(a).Cmp(common.HexToAddress(b)) == -1] *)
Definition lessAddress (a b : string) : bool := HexToAddress a <? HexToAddress b.

(** [addressMap[a] = i] for every owner, in order. *)
Fixpoint indexOwners (i : nat) (owners : list string) (addressMap : gmap string nat)
  : gmap string nat :=
  match owners with
  | [] => addressMap
  | a :: rest => indexOwners (S i) rest (<[a := i]> addressMap)
  end.

(** [pubs[addressMap[addr.Hex()]] = pub] for every key, in order; a key
    that is missing from the map reads as index 0. *)
Fixpoint placeKeys (addressMap : gmap string nat) (keys : list string) (pubs : list string)
  : outcome (list string) :=
  match keys with
  | [] => Returns pubs
  | pub :: rest =>
      match ParseEthereumCompressedPublicKey pub with
      | None => Panics "nil pointer dereference"
      | Some addr =>
          placeKeys addressMap rest
            (<[default 0%nat (addressMap !! Hex addr) := pub]> pubs)
      end
  end.

(** The first loop: the address of every key, or the key that does not
    parse. *)
Fixpoint addressesOf (keys : list string) : list string + string :=
  match keys with
  | [] => inl []
  | pub :: rest =>
      match ParseEthereumCompressedPublicKey pub with
      | None => inr pub
      | Some addr =>
          match addressesOf rest with
          | inl owners => inl (Hex addr :: owners)
          | inr bad => inr bad
          end
      end
  end.

(** [GetSortedSafeOwners]: the owners' addresses in ascending order, and
    the keys in the order of their addresses. *)
Definition GetSortedSafeOwners (holder signer observer : string)
  : outcome (list string * list string) :=
  match addressesOf [holder; signer; observer] with
  | inr bad => Panics bad
  | inl owners =>
      let owners := sort.Slice lessAddress owners in
      let addressMap := indexOwners 0 owners ∅ in
      match placeKeys addressMap [holder; signer; observer] (replicate 3 EmptyString) with
      | Panics why => Panics why
      | Returns pubs => Returns (owners, pubs)
      end
  end.

End owners.
End ethereum_account.

(** ** Fixtures: a Bitcoin tip pushed by the observer *)
Module fixtures.

Definition SafeChainBitcoin : Z := 1.
Definition SafeChainEthereum : Z := 2.
Definition SafeChainLitecoin : Z := 5.
Definition SafeChainPolygon : Z := 6.

(** The extra of [ObserverUpdateNetworkStatus]: chain, fee, height (one
    low byte each here) and a 32-byte block hash. *)
Definition networkExtra (fee height hashByte : byte) : list byte :=
  [x01] ++ [x00; x00; x00; x00; x00; x00; x00; fee]
        ++ [x00; x00; x00; x00; x00; x00; x00; height]
        ++ repeat hashByte 32.

Definition networkRequest (id : string) (fee height hashByte : byte) : common.Request :=
  {| common.Id := id;
     common.Role_ := common.RequestRoleObserver;
     common.Curve := 1;
     common.ExtraBytes := networkExtra fee height hashByte;
     common.CreatedAt := 0 |}.

(** A node whose RPC knows every block hash at height 100, six deep. *)
Definition rpcAt100 : rpc.GetBlock :=
  fun _ _ => (Some {| rpc.Height := 100; rpc.Confirmations := 6 |}, None).

Definition writeNetworkInfo : store.Store -> common.Request ->
  outcome (store.Store * (list mtg.Transaction * string)) :=
  keeper.writeNetworkInfo SafeChainBitcoin SafeChainLitecoin SafeChainEthereum
    SafeChainPolygon (fun _ => 1) "btc" "ltc" "eth" "matic" rpcAt100 rpcAt100.

Definition writeNetworkInfo_v1 : store.Store -> common.Request ->
  outcome (store.Store * error) :=
  keeper_v1.writeNetworkInfo SafeChainBitcoin SafeChainEthereum "btc" rpcAt100.

(** The stored tip: height 100, hash [aa..aa], fee 20. *)
Definition tip100 : store.NetworkInfo :=
  {| store.RequestId := "r0";
     store.Chain := 1;
     store.Fee := 20;
     store.Height := 100;
     store.Hash := hex.EncodeToString (repeat xaa 32);
     store.CreatedAt := 0 |}.

Definition storeAt100 : store.Store :=
  {| store.network_infos := [tip100];
     store.requests := {[ "r0"%string := common.RequestStateDone;
                          "r1"%string := common.RequestStateInitial ]} |}.

(** The record decoded from [networkRequest "r1" fee 100 bb..bb]. *)
Definition pushed (fee : Z) : store.NetworkInfo :=
  {| store.RequestId := "r1";
     store.Chain := 1;
     store.Fee := fee;
     store.Height := 100;
     store.Hash := hex.EncodeToString (repeat xbb 32);
     store.CreatedAt := 0 |}.

(** A keeper that has stored no tip yet. *)
Definition storeFresh : store.Store :=
  {| store.network_infos := [];
     store.requests := {[ "r1"%string := common.RequestStateInitial ]} |}.

(** *** The observer's table *)

Definition utxo (hash : string) (index satoshi state : Z) (spentBy : sql.NullString)
  : Output.t :=
  {| Output.TransactionHash := hash;
     Output.Index := index;
     Output.Address := "bc1qaccountant";
     Output.Satoshi := satoshi;
     Output.Chain := 1;
     Output.State := state;
     Output.SpentBy := spentBy;
     Output.RawTransaction := sql.null;
     Output.CreatedAt := 0;
     Output.UpdatedAt := 0 |}.

Definition approval (hash : string) : Transaction.t :=
  {| Transaction.TransactionHash := hash;
     Transaction.RawTransaction := EmptyString;
     Transaction.Chain := 1;
     Transaction.Holder := "holder";
     Transaction.Signer := "signer";
     Transaction.Accountant := "accountant";
     Transaction.State := common.RequestStatePending |}.

(** Two accountant outputs: one free, one already paying for [tx1]. *)
Definition outputs : observer_store.table :=
  [ utxo "aa" 0 50000 common.RequestStateInitial sql.null;
    utxo "bb" 1 40000 common.RequestStateDone (sql.valid "tx1") ].

(** A fee-splitting transaction with two outputs and no tracked input. *)
Definition feeTx : wire.MsgTx :=
  {| wire.TxIn_ := [];
     wire.TxOut_ := [ {| wire.Value := 1000; wire.PkScript := [] |};
                      {| wire.Value := 500; wire.PkScript := [] |} ] |}.

Definition TxHash : wire.MsgTx -> string := fun _ => "fee"%string.
Definition MarshalWiredTransaction : wire.MsgTx -> Z -> option (list byte) :=
  fun _ _ => Some [xab].

Definition calls : list observer_store.call :=
  [ observer_store.CallAssign 45000 55000 (approval "tx2") 7;
    observer_store.CallAssign 35000 55000 (approval "tx3") 8;
    observer_store.CallWriteIfNotExists
      (utxo "aa" 0 1 common.RequestStateInitial sql.null);
    observer_store.CallWriteFeeOutput feeTx "bc1qaccountant" (approval "tx4") 9 ].

(** *** The observer's world: its approvals table *)

(** Modelled from the spec: [FinishTransactionSignatures] stores the
    combined raw transaction and moves the approval to [Done]; the
    observer's store methods for approvals are not among the sources. *)
Definition FinishTransactionSignatures (w : gmap string Transaction.t) (hash raw : string)
  : gmap string Transaction.t * error :=
  (alter (fun tx =>
            {| Transaction.TransactionHash := Transaction.TransactionHash tx;
               Transaction.RawTransaction := raw;
               Transaction.Chain := Transaction.Chain tx;
               Transaction.Holder := Transaction.Holder tx;
               Transaction.Signer := Transaction.Signer tx;
               Transaction.Accountant := Transaction.Accountant tx;
               Transaction.State := common.RequestStateDone |}) hash w, None).

Definition ReadTransactionApproval (w : gmap string Transaction.t) (hash : string)
  : option Transaction.t * error := (w !! hash, None).

(** A safe without a recovery record: nothing to update. *)
Definition UpdateRecoveryState (w : gmap string Transaction.t) (address raw : string)
  (state : Z) : gmap string Transaction.t * error := (w, None).

Definition safe : Safe.t :=
  {| Safe.Holder := "holder";
     Safe.Chain := 2;
     Safe.Signer := "signer";
     Safe.Observer := "observer";
     Safe.Address := "0xsafe";
     Safe.Path := "00000000" |}.

Definition ReadSafe (w : gmap string Transaction.t) (holder : string)
  : option Safe.t * error := (Some safe, None).

(** An Ethereum safe transaction signed by the holder and the signer. *)
Definition UnmarshalSafeTransaction (extra : list byte) : option ethereum.SafeTransaction :=
  Some {| ethereum.TxHash := "tx1"; ethereum.Payload := extra |}.

Definition CheckTransactionPartiallySignedBy (raw pub : string) : bool :=
  String.eqb pub "holder" || String.eqb pub "signer".

Definition approvals : gmap string Transaction.t := {[ "tx1"%string := approval "tx1" ]}.

(** A node whose chain already holds the transaction, and one that
    answers with another transaction id. *)
Definition rpcAlreadyInChain : gmap string Transaction.t -> string -> string ->
  gmap string Transaction.t * (string * error) :=
  fun w _ _ => (w, (EmptyString, Some "-27: Transaction already in block chain"%string)).

Definition rpcOtherId : gmap string Transaction.t -> string -> string ->
  gmap string Transaction.t * (string * error) :=
  fun w _ _ => (w, ("ffff"%string, None)).

Definition bitcoinParams (chain : Z) : option (string * string) :=
  if chain =? 1 then Some ("btc", "bitcoin-asset")%string
  else if chain =? 5 then Some ("ltc", "litecoin-asset")%string
  else None.

(** *** A one-input Bitcoin spend, holder key 0a, signer key 0b *)

Definition spendHash : string := hex.EncodeToString (repeat x11 32).

Definition spend (holder : string) : Transaction.t :=
  {| Transaction.TransactionHash := spendHash;
     Transaction.RawTransaction := "02";
     Transaction.Chain := 1;
     Transaction.Holder := holder;
     Transaction.Signer := "0b";
     Transaction.Accountant := "0c";
     Transaction.State := common.RequestStatePending |}.

Definition spends (holder : string) : gmap string Transaction.t :=
  {[ spendHash := spend holder ]}.

Definition tin0 : wire.TxIn :=
  {| wire.PreviousOutPoint := {| wire.Hash := "40e2"; wire.Index := 0 |};
     wire.Witness := [];
     wire.Sequence := 4294967295 |}.

Definition unsignedSpend : wire.MsgTx :=
  {| wire.TxIn_ := [tin0]; wire.TxOut_ := [ {| wire.Value := 12300; wire.PkScript := [] |} ] |}.

(** The signer's packet (from the keeper) and the holder's (stored). *)
Definition signerPacket : bitcoin.PartiallySignedTransaction :=
  {| bitcoin.UnsignedTx := unsignedSpend;
     bitcoin.Inputs :=
       [ {| psbt.PartialSigs := [ {| psbt.PubKey := [x0b]; psbt.Signature := [xaa] |} ] |} ] |}.

Definition holderPacket : bitcoin.PartiallySignedTransaction :=
  {| bitcoin.UnsignedTx := unsignedSpend;
     bitcoin.Inputs :=
       [ {| psbt.PartialSigs := [ {| psbt.PubKey := [x0a]; psbt.Signature := [xcc] |} ] |} ] |}.

Definition UnmarshalPartiallySignedTransaction (b : list byte)
  : option bitcoin.PartiallySignedTransaction :=
  match b with
  | [x01] => Some signerPacket
  | [x02] => Some holderPacket
  | _ => None
  end.

Definition DecodeHexOrPanic (h : string) : option (list byte) :=
  if String.eqb h "02" then Some [x02]
  else if String.eqb h "aa" then Some [xaa]
  else if String.eqb h "0c" then Some [x0c]
  else None.

Definition SigHash (p : bitcoin.PartiallySignedTransaction) (idx : nat) : list byte :=
  [x51; x51].

Definition signatureRequests (w : gmap string Transaction.t) (hash : string) (state : Z)
  : list SignatureRequest.t * error :=
  ([ {| SignatureRequest.InputIndex := 0; SignatureRequest.Signature := sql.valid "aa" |} ],
   None).

(** A toy verifier: signature aa is the signer's over every sighash. *)
Definition derVerify (sig hash : list byte) (pub : string) : option bool :=
  Some (bytes.Equal sig [xaa] && String.eqb pub "0b").

Definition VerifySignatureDER (pub : string) (hash sig : list byte) : error :=
  if bytes.Equal sig [xaa] && String.eqb pub "0b" then None else Some "verify"%string.

Definition rpcAccepts : gmap string Transaction.t -> string -> string ->
  gmap string Transaction.t * (string * error) :=
  fun w _ _ => (w, (spendHash, None)).

Definition accountantPath (holder : string) (extra : list byte)
  : gmap string Transaction.t * exit :=
  observer_v1.bitcoinAccountantSignTransaction _ "btc" 1 rpcAccepts
    UnmarshalPartiallySignedTransaction (fun _ => [xdd]) SigHash DecodeHexOrPanic
    ReadTransactionApproval signatureRequests (fun _ _ _ => Some [x51])
    (fun _ _ => true) (fun _ _ _ => inl [xee]) derVerify (fun _ => Some [xee])
    FinishTransactionSignatures (spends holder) extra.

Definition spendExtra : list byte := repeat x11 32 ++ [x01].

(** *** A keeper with one proposed transaction over two UTXOs *)

Definition proposed : keeper_revoke.Store :=
  {| keeper_revoke.transactions :=
       [ {| keeper_revoke.TransactionHash := "18d6";
            keeper_revoke.RequestId := "3e37";
            keeper_revoke.Holder := "holder";
            keeper_revoke.State := common.RequestStateInitial |} ];
     keeper_revoke.utxos :=
       [ {| keeper_revoke.OutputHash := "40e2"; keeper_revoke.OutputIndex := 0;
            keeper_revoke.OutputState := common.RequestStatePending;
            keeper_revoke.SpentBy := sql.valid "18d6" |};
         {| keeper_revoke.OutputHash := "851c"; keeper_revoke.OutputIndex := 0;
            keeper_revoke.OutputState := common.RequestStatePending;
            keeper_revoke.SpentBy := sql.valid "18d6" |} ];
     keeper_revoke.signature_requests :=
       [ {| keeper_revoke.SignedTransaction := "18d6"; keeper_revoke.InputIndex := 0;
            keeper_revoke.RequestState := common.RequestStateInitial |} ] |}.

(** A toy signature scheme over the one revoke message: the holder key
    signs it as 01, the derived observer key as 02. *)
Definition VerifyMessageSignature (pub msg : string) (sig : list byte) : bool :=
  String.eqb msg "REVOKE:3e37:18d6"
  && ((String.eqb pub "holder" && bytes.Equal sig [x01])
      || (String.eqb pub "holder'" && bytes.Equal sig [x02])).

(** *** A keeper that answers every request with one transaction *)

Definition answer (app : Z) (out : replay.Action) (requestId : string)
  : Z * (list mtg.Transaction * string) :=
  (app + 1,
   ([ {| mtg.TraceId := requestId; mtg.OpponentAppId := "observer";
         mtg.AssetId := "asset"; mtg.Amount := "1";
         mtg.Memo := replay.Extra out |} ], EmptyString)).

Definition delivery (id : string) : replay.Action :=
  {| replay.OutputId := id; replay.Extra := id; replay.Sequence := 5000000 |}.

End fixtures.

(** ** Fixtures: requests, safes, fee transactions, signer sessions *)
Module samples.

(** *** The price info of the observer and the keeper that reads it *)

Definition priceAsset : observer_price.Asset :=
  {| observer_price.AssetId := "31d2ea9c-95eb-3355-b65b-ba096853bc18" |}.

(** An observer whose price is 1 unit and whose minimum is 0.0001. *)
Definition sendBitcoinPriceInfo : list (string * list byte) -> Z
  -> list (string * list byte) * exit :=
  observer_price.sendBitcoinPriceInfo (list (string * list byte)) fixtures.bitcoinParams
    (fun w _ => (w, (Some priceAsset, None)))
    "31d2ea9c-95eb-3355-b65b-ba096853bc18"
    (Some (decimal.New 1 0)) (Some (decimal.New 1 (-4))) 1000 "holder"
    (fun a b => (a ++ ":" ++ b)%string) (fun _ => "1"%string)
    (fun _ => Some (repeat x11 16)) 123
    (fun w _ _ _ id extra => ((id, extra) :: w, None)).

(** A network request whose RPC knows no block. *)
Definition rpcDown : rpc.GetBlock := fun _ _ => (None, Some "timeout"%string).

(** *** The keeper's requests *)

Definition request (id : string) (state createdAt : Z) : request_store.Request :=
  {| request_store.Id := id;
     request_store.MixinHash := "hash";
     request_store.MixinIndex := 0;
     request_store.AssetId := "asset";
     request_store.Amount := "1";
     request_store.Role := 2;
     request_store.Action := 1;
     request_store.Curve := 1;
     request_store.Holder := "holder";
     request_store.Extra := "";
     request_store.State := state;
     request_store.CreatedAt := createdAt |}.

(** One request done, one waiting. *)
Definition requests : request_store.table :=
  [ (request "r0" common.RequestStateDone 10, 12);
    (request "r1" common.RequestStateInitial 11, 11) ].

(** *** The keeper's safes *)

Definition safeOf (holder requestId : string) (receivers : list string) : safe_store.Safe :=
  {| safe_store.Holder := holder;
     safe_store.Chain := 1;
     safe_store.Signer := "signer";
     safe_store.Observer := "observer";
     safe_store.Timelock := 3600;
     safe_store.Address := "bc1q" ++ holder;
     safe_store.Extra := [];
     safe_store.Receivers := receivers;
     safe_store.Threshold := 1;
     safe_store.RequestId := requestId;
     safe_store.CreatedAt := 20;
     safe_store.UpdatedAt := 20 |}.

(** [holder] is the primary key of [safes]. *)
Definition sameHolder (a b : safe_store.Row) : bool :=
  String.eqb (safe_store.holder a) (safe_store.holder b).

Definition safeStore : safe_store.Store :=
  {| safe_store.safes := [safe_store.values (safeOf "h0" "r0" ["a"; "b"])];
     safe_store.requests := requests |}.

(** *** The accountant's outputs and the fee transaction built on them *)

Definition richOutputs : observer_store.table :=
  [ fixtures.utxo "aa" 0 50000 common.RequestStateInitial sql.null ].

Definition poorOutputs : observer_store.table :=
  [ fixtures.utxo "aa" 0 500 common.RequestStateInitial sql.null ].

(** A node that pays fees within ten percent of the asked one, with the
    accountant key 0a for every address. *)
Definition bitcoinRetrieveFeeInputsForTransaction :
  observer_store.table -> Z -> Z -> Transaction.t -> Z
  -> outcome (observer_store.table * (option Output.t * error)) :=
  observer_fee.bitcoinRetrieveFeeInputsForTransaction observer_store.firstRow
    fixtures.TxHash fixtures.MarshalWiredTransaction
    (fun fee => (fee * 9 / 10, fee * 11 / 10))
    (fun _ _ => inl [x00; x14])
    Some 4294967295 (fun _ => 1000)
    (fun _ => inl "0a"%string) (fun _ => Some [x0a])
    (fun key _ _ _ => inl [[x30; x01]; key]).

(** A node of the chain that has every transaction already. *)
Definition rpcHasAll : list string -> string -> string -> list string * (string * error) :=
  fun w _ _ => (w, (EmptyString, Some "Transaction already in block chain"%string)).

(** The table after the fee transaction for [tx9]: the input spent, the
    fee output assigned to [tx9], the change free. *)
Definition feeRows : observer_store.table :=
  [ observer_store.markSpent "fee" 9 (fixtures.utxo "aa" 0 50000 common.RequestStateInitial sql.null);
    observer_store.feeOutputRow "fee" "ab" "bc1qaccountant" (fixtures.approval "tx9") 9 0
      {| wire.Value := 1000; wire.PkScript := [x00; x14] |};
    observer_store.feeOutputRow "fee" "ab" "bc1qaccountant" (fixtures.approval "tx9") 9 1
      {| wire.Value := 48702; wire.PkScript := [x00; x14] |} ].

(** *** Signer sessions *)

Definition session (operation : Z) : signer.Session :=
  {| signer.Id := "s1";
     signer.Operation := operation;
     signer.Curve := 1;
     signer.Public := "02aa";
     signer.Extra := "";
     signer.State := 1;
     signer.PreparedAt := true |}.

(** Three members; in the signing session the first has not answered
    and the other two report the signature [30 01]. *)
Definition members : list string := ["m1"; "m2"; "m3"]%string.

Definition keygenSigners : gmap string string :=
  {[ "m1"%string := "02aa"%string; "m2"%string := "02aa"%string;
     "m3"%string := "02aa"%string ]}.

Definition signSigners : gmap string string :=
  {[ "m2"%string := "3001"%string; "m3"%string := "3001"%string ]}.

Definition decodeSignature (h : string) : option (list byte) :=
  if String.eqb h "3001" then Some [x30; x01] else None.

(** *** Three owner keys whose addresses are 3, 1 and 2 *)

Definition ParseEthereumCompressedPublicKey (pub : string) : option Z :=
  if String.eqb pub "holder" then Some 3
  else if String.eqb pub "signer" then Some 1
  else if String.eqb pub "observer" then Some 2
  else None.

Definition addressHex (a : Z) : string :=
  if a =? 1 then "0x01" else if a =? 2 then "0x02" else if a =? 3 then "0x03" else "0x00".

Definition HexToAddress (h : string) : Z :=
  if String.eqb h "0x01" then 1
  else if String.eqb h "0x02" then 2
  else if String.eqb h "0x03" then 3
  else 0.

End samples.

(* ================================================================== *)
(** * Properties *)
(* ================================================================== *)

(** ** hex and slices *)

Lemma EncodeToString_length (src : list byte) :
  String.length (hex.EncodeToString src) = (2 * length src)%nat.
Proof.
  induction src as [|b rest IH]; simpl; [reflexivity|].
  rewrite IH. lia.
Qed.

Lemma list_neq_cons {A : Type} (x : A) (l : list A) : x :: l <> l.
Proof.
  intros H. apply (f_equal (@length A)) in H. simpl in H. lia.
Qed.

(** ** The network-info handler, later revision *)
Module keeper_props.
Section network.

Variables SafeChainBitcoin SafeChainLitecoin SafeChainEthereum SafeChainPolygon : Z.
Variable SafeCurveChain : Z -> Z.
Variables BitcoinRPC LitecoinRPC EthereumRPC PolygonRPC : string.
Variable bitcoin_RPCGetBlock : rpc.GetBlock.
Variable ethereum_RPCGetBlock : rpc.GetBlock.

Abbreviation verifyBitcoinNetworkInfo :=
  (keeper.verifyBitcoinNetworkInfo SafeChainBitcoin SafeChainLitecoin
     BitcoinRPC LitecoinRPC bitcoin_RPCGetBlock).
Abbreviation verifyEthereumNetworkInfo :=
  (keeper.verifyEthereumNetworkInfo SafeChainEthereum SafeChainPolygon
     EthereumRPC PolygonRPC ethereum_RPCGetBlock).
Abbreviation writeNetworkInfo :=
  (keeper.writeNetworkInfo SafeChainBitcoin SafeChainLitecoin SafeChainEthereum
     SafeChainPolygon SafeCurveChain BitcoinRPC LitecoinRPC EthereumRPC PolygonRPC
     bitcoin_RPCGetBlock ethereum_RPCGetBlock).
Abbreviation writeNetworkInfos :=
  (keeper.writeNetworkInfos SafeChainBitcoin SafeChainLitecoin SafeChainEthereum
     SafeChainPolygon SafeCurveChain BitcoinRPC LitecoinRPC EthereumRPC PolygonRPC
     bitcoin_RPCGetBlock ethereum_RPCGetBlock).

Lemma feeCheck_spec (info : store.NetworkInfo) :
  keeper.feeCheck info = (true, None) <-> 1 <= store.Fee info <= 1000.
Proof.
  unfold keeper.feeCheck, keeper.bitcoinMinimumFeeRate, keeper.bitcoinMaximumFeeRate.
  destruct (store.Fee info <? 1) eqn:Hlo; destruct (store.Fee info >? 1000) eqn:Hhi;
    simpl; split; intros H; try discriminate; try reflexivity;
    rewrite ?Z.ltb_lt, ?Z.ltb_ge, ?Z.gtb_ltb in *; lia.
Qed.

Lemma feeCheck_no_error (info : store.NetworkInfo) (b : bool) (e : string) :
  keeper.feeCheck info <> (b, Some e).
Proof.
  unfold keeper.feeCheck. destruct (_ || _); discriminate.
Qed.

(** A Bitcoin-family record that the verifier passes has a fee rate in
    [1, 1000], a hash of 64 hex digits, and either repeats the stored
    hash at the stored height or names a block the RPC reports at the
    claimed height. *)
Lemma verifyBitcoinNetworkInfo_true (info : store.NetworkInfo) (old : option store.NetworkInfo) :
  verifyBitcoinNetworkInfo info old = Returns (true, None) ->
  1 <= store.Fee info <= 1000
  /\ String.length (store.Hash info) = 64%nat
  /\ (keeper.sameHash info old = true -> keeper.oldHeight old = store.Height info).
Proof.
  unfold keeper.verifyBitcoinNetworkInfo.
  destruct (String.length (store.Hash info) =? 64)%nat eqn:Hlen; simpl; [|discriminate].
  apply Nat.eqb_eq in Hlen.
  destruct (keeper.sameHash info old) eqn:Hsame.
  - destruct (keeper.oldHeight old =? store.Height info) eqn:Hh; simpl; [|discriminate].
    intros H. injection H as H. apply feeCheck_spec in H.
    apply Z.eqb_eq in Hh. auto.
  - destruct (keeper.bitcoinParams _ _ _ _ _) as [url|]; [|discriminate].
    destruct (bitcoin_RPCGetBlock url (store.Hash info)) as [[block|] [e|]]; try discriminate.
    destruct (rpc.Height block =? store.Height info); simpl; [|discriminate].
    destruct (rpc.Confirmations block =? -1); [discriminate|].
    intros H. injection H as H. apply feeCheck_spec in H.
    split; [exact H|]. split; [exact Hlen|]. discriminate.
Qed.

Lemma verifyEthereumNetworkInfo_true (info : store.NetworkInfo) (old : option store.NetworkInfo) :
  verifyEthereumNetworkInfo info old = Returns (true, None) ->
  keeper.sameHash info old = true -> keeper.oldHeight old = store.Height info.
Proof.
  unfold keeper.verifyEthereumNetworkInfo.
  destruct (String.length (store.Hash info) =? 66)%nat; simpl; [|discriminate].
  destruct (keeper.sameHash info old) eqn:Hsame; [|discriminate].
  destruct (keeper.oldHeight old =? store.Height info) eqn:Hh; simpl; [|discriminate].
  intros _ _. apply Z.eqb_eq in Hh. exact Hh.
Qed.

(** The handler either panics, fails the request, or stores the decoded
    record after a verifier said yes. *)
Inductive handled (s : store.Store) (req : common.Request)
  : outcome (store.Store * (list mtg.Transaction * string)) -> Prop :=
| handled_panic why : handled s req (Panics why)
| handled_failed : handled s req (keeper.failRequest s req "")
| handled_stored info :
    store.RequestId info = common.Id req ->
    store.Chain info = store.Chain (keeper_v1.decodeInfo req) ->
    store.Fee info = store.Fee (keeper_v1.decodeInfo req) ->
    store.Height info = store.Height (keeper_v1.decodeInfo req) ->
    (forall o, store.ReadLatestNetworkInfo s (store.Chain info) = Some o ->
       store.Height o <= store.Height info
       /\ store.RequestId o <> common.Id req
       /\ (store.Hash o = store.Hash info -> store.Height o = store.Height info)) ->
    (verifyBitcoinNetworkInfo info (store.ReadLatestNetworkInfo s (store.Chain info))
       = Returns (true, None)
     \/ ((store.Chain info =? SafeChainBitcoin) || (store.Chain info =? SafeChainLitecoin) = false
         /\ verifyEthereumNetworkInfo info (store.ReadLatestNetworkInfo s (store.Chain info))
            = Returns (true, None))) ->
    handled s req (Returns (store.WriteNetworkInfoFromRequest s info, ([], EmptyString))).

Lemma sameHash_height (info : store.NetworkInfo) (old : option store.NetworkInfo) :
  (keeper.sameHash info old = true -> keeper.oldHeight old = store.Height info) ->
  forall o, old = Some o -> store.Hash o = store.Hash info -> store.Height o = store.Height info.
Proof.
  intros H o -> Heq. simpl in H. apply H. apply String.eqb_eq. exact Heq.
Qed.

Lemma writeNetworkInfo_handled (s : store.Store) (req : common.Request) :
  handled s req (writeNetworkInfo s req).
Proof.
  unfold keeper.writeNetworkInfo.
  destruct (negb (common.Role_eqb _ _)); [constructor|].
  destruct (_ <? 17)%nat; [constructor|].
  set (info := keeper_v1.decodeInfo req).
  set (old := store.ReadLatestNetworkInfo s (store.Chain info)).
  assert (Hold : forall o, old = Some o ->
            (String.eqb (store.RequestId o) (common.Id req)
             || (store.Height o >? store.Height info)) = false ->
            store.Height o <= store.Height info /\ store.RequestId o <> common.Id req).
  { intros o _ H. apply orb_false_elim in H as [Hid Hh].
    apply String.eqb_neq in Hid. rewrite Z.gtb_ltb in Hh. apply Z.ltb_ge in Hh. auto. }
  destruct (match old with Some o => _ | None => false end) eqn:Hstale; [constructor|].
  assert (Hle : forall o, old = Some o ->
            store.Height o <= store.Height info /\ store.RequestId o <> common.Id req).
  { intros o Ho. apply Hold; [exact Ho|]. rewrite Ho in Hstale. exact Hstale. }
  clear Hold Hstale.
  destruct (negb (store.Chain info =? _)); [constructor|].
  destruct (_ || _) eqn:Hfamily.
  - set (info' := keeper_v1.withHash info _).
    destruct (verifyBitcoinNetworkInfo info' old) as [[[|] [e|]]|] eqn:Hv;
      cbn [keeper.afterVerify];
      try (first [apply handled_panic | apply handled_failed]).
    apply (handled_stored s req info'); try reflexivity.
    + intros o Ho. destruct (Hle o Ho) as [H1 H2]. split; [exact H1|]. split; [exact H2|].
      apply verifyBitcoinNetworkInfo_true in Hv as (_ & _ & Hs).
      apply (sameHash_height _ _ Hs). exact Ho.
    + left. exact Hv.
  - destruct ((store.Chain info =? SafeChainEthereum) || _); [|constructor].
    set (info' := keeper_v1.withHash info _).
    destruct (verifyEthereumNetworkInfo info' old) as [[[|] [e|]]|] eqn:Hv;
      cbn [keeper.afterVerify];
      try (first [apply handled_panic | apply handled_failed]).
    apply (handled_stored s req info'); try reflexivity.
    + intros o Ho. destruct (Hle o Ho) as [H1 H2]. split; [exact H1|]. split; [exact H2|].
      apply (sameHash_height _ _ (verifyEthereumNetworkInfo_true _ _ Hv)). exact Ho.
    + right. split; [exact Hfamily | exact Hv].
Qed.

Lemma ReadLatest_FailRequest (s : store.Store) (id : string) (chain : Z) :
  store.ReadLatestNetworkInfo (store.FailRequest s id) chain
  = store.ReadLatestNetworkInfo s chain.
Proof. reflexivity. Qed.

Lemma handled_Returns_inv (s : store.Store) (req : common.Request) s' out :
  handled s req (Returns (s', out)) ->
  (s' = store.FailRequest s (common.Id req) /\ out = ([], EmptyString))
  \/ (exists info,
        s' = store.WriteNetworkInfoFromRequest s info /\ out = ([], EmptyString)
        /\ store.RequestId info = common.Id req
        /\ store.Chain info = store.Chain (keeper_v1.decodeInfo req)
        /\ store.Fee info = store.Fee (keeper_v1.decodeInfo req)
        /\ store.Height info = store.Height (keeper_v1.decodeInfo req)
        /\ (forall o, store.ReadLatestNetworkInfo s (store.Chain info) = Some o ->
             store.Height o <= store.Height info
             /\ store.RequestId o <> common.Id req
             /\ (store.Hash o = store.Hash info -> store.Height o = store.Height info))
        /\ (verifyBitcoinNetworkInfo info (store.ReadLatestNetworkInfo s (store.Chain info))
              = Returns (true, None)
            \/ ((store.Chain info =? SafeChainBitcoin)
                  || (store.Chain info =? SafeChainLitecoin) = false))).
Proof.
  intros H.
  remember (Returns (s', out)) as r eqn:Hr.
  destruct H as [why| |info Hid Hc Hfee Hh Hle Hv].
  - discriminate.
  - unfold keeper.failRequest in Hr. injection Hr as <- <-. left. auto.
  - injection Hr as <- <-. right. exists info.
    repeat (split; [first [reflexivity | assumption]|]).
    destruct Hv as [Hv|[Hno _]]; [left; exact Hv | right; exact Hno].
Qed.

(** One handled request never lowers the latest height of any chain. *)
Lemma handled_monotone (s : store.Store) (req : common.Request) s' out chain old :
  handled s req (Returns (s', out)) ->
  store.ReadLatestNetworkInfo s chain = Some old ->
  exists new, store.ReadLatestNetworkInfo s' chain = Some new
              /\ store.Height old <= store.Height new.
Proof.
  intros H Hold.
  destruct (handled_Returns_inv _ _ _ _ H)
    as [[-> _]|(info & -> & _ & Hid & Hc & Hfee & Hh & Hle & Hv)].
  - exists old. rewrite ReadLatest_FailRequest. split; [exact Hold | lia].
  - unfold store.ReadLatestNetworkInfo, store.WriteNetworkInfoFromRequest. cbn [store.network_infos List.find].
    destruct (store.Chain info =? chain) eqn:Hchain.
    + apply Z.eqb_eq in Hchain. subst chain.
      exists info. split; [reflexivity|]. apply (Hle old Hold).
    + exists old. split; [exact Hold | lia].
Qed.

(** C5 (amended): the handler stores a pushed record only if its height
    is not below the last stored height of its chain, and a record that
    repeats the last stored hash has the stored height.  (Equal height
    with another hash is stored when the verifier passes it.) *)
Theorem writeNetworkInfo_accepts_only (s : store.Store) (req : common.Request)
  (s' : store.Store) (out : list mtg.Transaction * string) :
  writeNetworkInfo s req = Returns (s', out) ->
  store.network_infos s' <> store.network_infos s ->
  exists info,
    store.network_infos s' = info :: store.network_infos s
    /\ store.RequestId info = common.Id req
    /\ store.Height info = store.Height (keeper_v1.decodeInfo req)
    /\ forall old, store.ReadLatestNetworkInfo s (store.Chain info) = Some old ->
         store.Height old <= store.Height info
         /\ (store.Hash old = store.Hash info -> store.Height old = store.Height info).
Proof.
  intros Hrun Hchanged.
  pose proof (writeNetworkInfo_handled s req) as H. rewrite Hrun in H.
  destruct (handled_Returns_inv _ _ _ _ H)
    as [[-> _]|(info & -> & _ & Hid & Hc & Hfee & Hh & Hle & Hv)].
  - exfalso. apply Hchanged. reflexivity.
  - exists info. split; [reflexivity|]. split; [exact Hid|]. split; [exact Hh|].
    intros old Hold. destruct (Hle old Hold) as (H1 & _ & H3). auto.
Qed.

(** A request whose height is below the stored one is failed and the
    stored record stays. *)
Lemma writeNetworkInfo_lower_height (s : store.Store) (req : common.Request) old :
  common.Role_ req = common.RequestRoleObserver ->
  (17 <= length (common.ExtraBytes req))%nat ->
  store.ReadLatestNetworkInfo s (store.Chain (keeper_v1.decodeInfo req)) = Some old ->
  store.Height (keeper_v1.decodeInfo req) < store.Height old ->
  writeNetworkInfo s req = keeper.failRequest s req "".
Proof.
  intros Hrole Hlen Hold Hlt. unfold keeper.writeNetworkInfo.
  rewrite Hrole. cbn [common.Role_eqb negb].
  destruct (_ <? 17)%nat eqn:Hshort; [apply Nat.ltb_lt in Hshort; lia|].
  rewrite Hold.
  replace (store.Height old >? store.Height (keeper_v1.decodeInfo req)) with true.
  - rewrite orb_true_r. reflexivity.
  - symmetry. rewrite Z.gtb_ltb. apply Z.ltb_lt. exact Hlt.
Qed.

Lemma writeNetworkInfos_monotone (reqs : list common.Request) :
  forall s chain old,
    store.ReadLatestNetworkInfo s chain = Some old ->
    exists new, store.ReadLatestNetworkInfo (writeNetworkInfos s reqs) chain = Some new
                /\ store.Height old <= store.Height new.
Proof.
  induction reqs as [|req rest IH]; intros s chain old Hold; cbn [keeper.writeNetworkInfos].
  - exists old. split; [exact Hold | lia].
  - pose proof (writeNetworkInfo_handled s req) as H.
    destruct (writeNetworkInfo s req) as [[s1 out]|why].
    + destruct (handled_monotone _ _ _ _ _ _ H Hold) as (mid & Hmid & Hle).
      destruct (IH s1 chain mid Hmid) as (new & Hnew & Hle').
      exists new. split; [exact Hnew | lia].
    + exists old. split; [exact Hold | lia].
Qed.

(** C6: over any sequence of network-info requests the latest stored
    height of a chain never decreases, and a request carrying a lower
    height than the stored one is failed with the stored record kept. *)
Theorem stored_height_never_decreases (s : store.Store) (chain : Z)
  (old : store.NetworkInfo) (reqs : list common.Request) :
  store.ReadLatestNetworkInfo s chain = Some old ->
  (exists new, store.ReadLatestNetworkInfo (writeNetworkInfos s reqs) chain = Some new
               /\ store.Height old <= store.Height new)
  /\ (forall req,
        common.Role_ req = common.RequestRoleObserver ->
        (17 <= length (common.ExtraBytes req))%nat ->
        store.Chain (keeper_v1.decodeInfo req) = chain ->
        store.Height (keeper_v1.decodeInfo req) < store.Height old ->
        writeNetworkInfo s req
          = Returns (store.FailRequest s (common.Id req), ([], EmptyString))
        /\ store.ReadLatestNetworkInfo (store.FailRequest s (common.Id req)) chain
           = Some old).
Proof.
  intros Hold. split.
  - apply writeNetworkInfos_monotone. exact Hold.
  - intros req Hrole Hlen Hchain Hlt. subst chain. split.
    + apply (writeNetworkInfo_lower_height s req old); assumption.
    + rewrite ReadLatest_FailRequest. exact Hold.
Qed.

(** The fee bound of the later revision: a Bitcoin-family record is
    stored only with a fee rate in [1, 1000]; outside it the request is
    failed or the node stops, and nothing is stored. *)
Theorem bitcoin_fee_rate_bounds (s : store.Store) (req : common.Request)
  (s' : store.Store) (out : list mtg.Transaction * string) :
  (store.Chain (keeper_v1.decodeInfo req) =? SafeChainBitcoin)
    || (store.Chain (keeper_v1.decodeInfo req) =? SafeChainLitecoin) = true ->
  writeNetworkInfo s req = Returns (s', out) ->
  (store.network_infos s' <> store.network_infos s ->
     1 <= store.Fee (keeper_v1.decodeInfo req) <= 1000)
  /\ (~ 1 <= store.Fee (keeper_v1.decodeInfo req) <= 1000 ->
      s' = store.FailRequest s (common.Id req) /\ out = ([], EmptyString)).
Proof.
  intros Hfamily Hrun.
  pose proof (writeNetworkInfo_handled s req) as H. rewrite Hrun in H.
  destruct (handled_Returns_inv _ _ _ _ H)
    as [[-> ->]|(info & -> & -> & Hid & Hc & Hfee & Hh & Hle & Hv)].
  - split; [intros Hne; exfalso; apply Hne; reflexivity | auto].
  - assert (Hin : 1 <= store.Fee (keeper_v1.decodeInfo req) <= 1000).
    { rewrite <- Hfee. destruct Hv as [Hv|Hno].
      - apply verifyBitcoinNetworkInfo_true in Hv. tauto.
      - rewrite Hc in Hno. rewrite Hno in Hfamily. discriminate. }
    split; [intros _; exact Hin | intros Hout; contradiction].
Qed.

End network.
End keeper_props.

(** ** The network-info handler, earlier revision (src/keeper/network.go) *)
Module keeper_v1_props.
Section network.

Variables SafeChainBitcoin SafeChainEthereum : Z.
Variable BitcoinRPC : string.
Variable RPCGetBlock : rpc.GetBlock.

Abbreviation verifyBitcoinNetworkInfo :=
  (keeper_v1.verifyBitcoinNetworkInfo BitcoinRPC RPCGetBlock).
Abbreviation writeNetworkInfo :=
  (keeper_v1.writeNetworkInfo SafeChainBitcoin SafeChainEthereum BitcoinRPC RPCGetBlock).
Abbreviation writeNetworkInfos :=
  (keeper_v1.writeNetworkInfos SafeChainBitcoin SafeChainEthereum BitcoinRPC RPCGetBlock).

(** The earlier verifier passes a record only with a fee rate in
    [10, 1000]. *)
Lemma verifyBitcoinNetworkInfo_v1_true (info : store.NetworkInfo) :
  verifyBitcoinNetworkInfo info = (true, None) -> 10 <= store.Fee info <= 1000.
Proof.
  unfold keeper_v1.verifyBitcoinNetworkInfo,
    keeper_v1.bitcoinMinimumFeeRate, keeper_v1.bitcoinMaximumFeeRate.
  destruct (negb _); [discriminate|].
  destruct (RPCGetBlock BitcoinRPC (store.Hash info)) as [[block|] [e|]]; try discriminate.
  destruct (negb _); [discriminate|].
  destruct (store.Fee info <? 10) eqn:Hlo; destruct (store.Fee info >? 1000) eqn:Hhi;
    cbn [orb]; try discriminate.
  intros _. rewrite Z.gtb_ltb in Hhi. apply Z.ltb_ge in Hlo, Hhi. lia.
Qed.

Lemma FinishRequest_network_infos (s : store.Store) (id : string) :
  store.network_infos (fst (store.FinishRequest s id)) = store.network_infos s.
Proof.
  unfold store.FinishRequest. destruct (store.requests s !! id) as [st|]; [|reflexivity].
  destruct (st =? common.RequestStateInitial); reflexivity.
Qed.

(** One request of the earlier handler never lowers a latest height. *)
Lemma writeNetworkInfo_v1_monotone (s : store.Store) (req : common.Request) s' err chain old :
  writeNetworkInfo s req = Returns (s', err) ->
  store.ReadLatestNetworkInfo s chain = Some old ->
  exists new, store.ReadLatestNetworkInfo s' chain = Some new
              /\ store.Height old <= store.Height new.
Proof.
  intros Hrun Hold.
  assert (Hfin : forall id, Returns (store.FinishRequest s id) = Returns (s', err) ->
            exists new, store.ReadLatestNetworkInfo s' chain = Some new
                        /\ store.Height old <= store.Height new).
  { intros id H. injection H as H. exists old. split; [|lia].
    unfold store.ReadLatestNetworkInfo.
    replace s' with (fst (store.FinishRequest s id)) by (rewrite H; reflexivity).
    rewrite FinishRequest_network_infos. exact Hold. }
  unfold keeper_v1.writeNetworkInfo in Hrun.
  destruct (negb (common.Role_eqb _ _)); [discriminate|].
  destruct (_ <? 17)%nat; [eauto|].
  set (info := keeper_v1.decodeInfo req) in *.
  destruct (match store.ReadLatestNetworkInfo s (store.Chain info) with
            | Some o => _ | None => false end) eqn:Hstale; [eauto|].
  destruct (store.Chain info =? SafeChainBitcoin).
  - set (info' := keeper_v1.withHash info _) in *.
    destruct (verifyBitcoinNetworkInfo info') as [[|] [e|]] eqn:Hv.
    + injection Hrun as <- _. eauto with lia.
    + injection Hrun as <- _.
      unfold store.ReadLatestNetworkInfo, store.WriteNetworkInfoFromRequest.
      cbn [store.network_infos List.find].
      destruct (store.Chain info' =? chain) eqn:Hchain.
      * exists info'. split; [reflexivity|].
        apply Z.eqb_eq in Hchain. change (store.Chain info') with (store.Chain info) in Hchain.
        rewrite Hchain, Hold in Hstale. apply orb_false_elim in Hstale as [_ Hh].
        rewrite Z.gtb_ltb in Hh. apply Z.ltb_ge in Hh. exact Hh.
      * exists old. split; [exact Hold | lia].
    + injection Hrun as <- _. eauto with lia.
    + eauto.
  - destruct (store.Chain info =? SafeChainEthereum); [discriminate | eauto].
Qed.

Lemma writeNetworkInfos_v1_monotone (reqs : list common.Request) :
  forall s chain old,
    store.ReadLatestNetworkInfo s chain = Some old ->
    exists new, store.ReadLatestNetworkInfo (writeNetworkInfos s reqs) chain = Some new
                /\ store.Height old <= store.Height new.
Proof.
  induction reqs as [|req rest IH]; intros s chain old Hold; cbn [keeper_v1.writeNetworkInfos].
  - exists old. split; [exact Hold | lia].
  - destruct (writeNetworkInfo s req) as [[s1 err]|why] eqn:Hrun.
    + destruct (writeNetworkInfo_v1_monotone _ _ _ _ _ _ Hrun Hold) as (mid & Hmid & Hle).
      destruct (IH s1 chain mid Hmid) as (new & Hnew & Hle').
      exists new. split; [exact Hnew | lia].
    + exists old. split; [exact Hold | lia].
Qed.

End network.
End keeper_v1_props.

(** ** The handlers on the fixtures *)
Module network_examples.

(** C5, as stated, fails: with tip (100, aa..aa) stored, a pushed record
    (100, bb..bb) that the RPC confirms is stored, not rejected. *)
Lemma equal_height_other_hash_is_stored :
  fixtures.writeNetworkInfo fixtures.storeAt100 (fixtures.networkRequest "r1" x05 x64 xbb)
  = Returns (store.WriteNetworkInfoFromRequest fixtures.storeAt100 (fixtures.pushed 5),
             ([], EmptyString))
  /\ store.ReadLatestNetworkInfo fixtures.storeAt100 1 = Some fixtures.tip100
  /\ store.Height (fixtures.pushed 5) = store.Height fixtures.tip100
  /\ store.Hash (fixtures.pushed 5) <> store.Hash fixtures.tip100.
Proof.
  split; [vm_compute; reflexivity|].
  split; [reflexivity|].
  split; [reflexivity|].
  vm_compute. discriminate.
Qed.

Lemma writeNetworkInfo_accepts_only_witness :
  exists info,
    store.network_infos
      (store.WriteNetworkInfoFromRequest fixtures.storeAt100 (fixtures.pushed 5))
    = info :: store.network_infos fixtures.storeAt100
    /\ store.RequestId info = "r1"%string
    /\ store.Height info
       = store.Height (keeper_v1.decodeInfo (fixtures.networkRequest "r1" x05 x64 xbb))
    /\ forall old,
         store.ReadLatestNetworkInfo fixtures.storeAt100 (store.Chain info) = Some old ->
         store.Height old <= store.Height info
         /\ (store.Hash old = store.Hash info -> store.Height old = store.Height info).
Proof.
  apply (keeper_props.writeNetworkInfo_accepts_only
           fixtures.SafeChainBitcoin fixtures.SafeChainLitecoin
           fixtures.SafeChainEthereum fixtures.SafeChainPolygon (fun _ => 1)
           "btc" "ltc" "eth" "matic" fixtures.rpcAt100 fixtures.rpcAt100
           fixtures.storeAt100 (fixtures.networkRequest "r1" x05 x64 xbb)
           (store.WriteNetworkInfoFromRequest fixtures.storeAt100 (fixtures.pushed 5))
           ([], EmptyString)).
  - vm_compute. reflexivity.
  - apply list_neq_cons.
Defined.

Lemma stored_height_never_decreases_witness :
  (exists new,
     store.ReadLatestNetworkInfo
       (keeper.writeNetworkInfos
          fixtures.SafeChainBitcoin fixtures.SafeChainLitecoin
          fixtures.SafeChainEthereum fixtures.SafeChainPolygon (fun _ => 1)
          "btc" "ltc" "eth" "matic" fixtures.rpcAt100 fixtures.rpcAt100
          fixtures.storeAt100 [fixtures.networkRequest "r1" x05 x64 xbb]) 1 = Some new
     /\ store.Height fixtures.tip100 <= store.Height new)
  /\ (forall req,
        common.Role_ req = common.RequestRoleObserver ->
        (17 <= length (common.ExtraBytes req))%nat ->
        store.Chain (keeper_v1.decodeInfo req) = 1 ->
        store.Height (keeper_v1.decodeInfo req) < store.Height fixtures.tip100 ->
        fixtures.writeNetworkInfo fixtures.storeAt100 req
          = Returns (store.FailRequest fixtures.storeAt100 (common.Id req), ([], EmptyString))
        /\ store.ReadLatestNetworkInfo
             (store.FailRequest fixtures.storeAt100 (common.Id req)) 1
           = Some fixtures.tip100).
Proof.
  apply (keeper_props.stored_height_never_decreases
           fixtures.SafeChainBitcoin fixtures.SafeChainLitecoin
           fixtures.SafeChainEthereum fixtures.SafeChainPolygon (fun _ => 1)
           "btc" "ltc" "eth" "matic" fixtures.rpcAt100 fixtures.rpcAt100
           fixtures.storeAt100 1 fixtures.tip100).
  reflexivity.
Defined.

(** A pushed height of 99 against the stored 100: failed, tip kept. *)
Example lower_height_is_failed :
  fixtures.writeNetworkInfo fixtures.storeAt100 (fixtures.networkRequest "r1" x05 x63 xbb)
  = Returns (store.FailRequest fixtures.storeAt100 "r1", ([], EmptyString)).
Proof. vm_compute. reflexivity. Qed.

Lemma bitcoin_fee_rate_bounds_witness :
  (store.network_infos
     (store.WriteNetworkInfoFromRequest fixtures.storeFresh (fixtures.pushed 1))
   <> store.network_infos fixtures.storeFresh ->
   1 <= store.Fee (keeper_v1.decodeInfo (fixtures.networkRequest "r1" x01 x64 xbb)) <= 1000)
  /\ (~ 1 <= store.Fee (keeper_v1.decodeInfo (fixtures.networkRequest "r1" x01 x64 xbb)) <= 1000 ->
      store.WriteNetworkInfoFromRequest fixtures.storeFresh (fixtures.pushed 1)
      = store.FailRequest fixtures.storeFresh "r1"
      /\ (@nil mtg.Transaction, EmptyString) = ([], EmptyString)).
Proof.
  apply (keeper_props.bitcoin_fee_rate_bounds
           fixtures.SafeChainBitcoin fixtures.SafeChainLitecoin
           fixtures.SafeChainEthereum fixtures.SafeChainPolygon (fun _ => 1)
           "btc" "ltc" "eth" "matic" fixtures.rpcAt100 fixtures.rpcAt100
           fixtures.storeFresh (fixtures.networkRequest "r1" x01 x64 xbb)).
  - reflexivity.
  - vm_compute. reflexivity.
Defined.


End network_examples.

(** ** The observer's [bitcoin_outputs] table *)
Module observer_store_props.
Import observer_store.

Lemma rowStep_refl (r : Output.t) : rowStep r r.
Proof. left. reflexivity. Qed.

Lemma rowStep_trans (a b c : Output.t) : rowStep a b -> rowStep b c -> rowStep a c.
Proof.
  intros [->|(Hst & Hnull & sb & now & ->)] Hbc; [exact Hbc|].
  destruct Hbc as [->|(_ & Hvalid & _)].
  - right. eauto.
  - discriminate Hvalid.
Qed.

(** A row whose [spent_by] is set is out of the UPDATE's reach. *)
Lemma rowStep_spent (r r' : Output.t) :
  sql.Valid (Output.SpentBy r) = true -> rowStep r r' -> r' = r.
Proof.
  intros Hv [->|(_ & Hnull & _)]; [reflexivity|]. rewrite Hv in Hnull. discriminate.
Qed.

Lemma spendable_guard (hash : string) (index : Z) (o : Output.t) :
  spendable hash index o = true ->
  Output.State o = common.RequestStateInitial /\ sql.Valid (Output.SpentBy o) = false.
Proof.
  unfold spendable. intros H.
  apply andb_prop in H as [H Hnull]. apply andb_prop in H as [_ Hst].
  apply Z.eqb_eq in Hst. apply negb_true_iff in Hnull. auto.
Qed.

Lemma Forall2_rowStep_refl (rows : table) : Forall2 rowStep rows rows.
Proof. induction rows; constructor; auto using rowStep_refl. Qed.

Lemma Forall2_rowStep_trans (a : table) :
  forall b c, Forall2 rowStep a b -> Forall2 rowStep b c -> Forall2 rowStep a c.
Proof.
  induction a as [|x a IH]; intros b c Hab Hbc.
  - inversion Hab; subst. inversion Hbc; subst. constructor.
  - inversion Hab as [|? y ? b' Hxy Hab']; subst.
    inversion Hbc as [|? z ? c' Hyz Hbc']; subst.
    constructor; [eapply rowStep_trans; eauto | eapply IH; eauto].
Qed.

Lemma updateSpent_rowStep (hash : string) (index : Z) (spentBy : string) (now : Z)
  (rows rows' : table) :
  updateSpent hash index spentBy now rows = Some rows' -> Forall2 rowStep rows rows'.
Proof.
  unfold updateSpent. destruct (_ =? 1)%nat; [|discriminate].
  intros H. injection H as <-. clear.
  induction rows as [|o rows IH]; cbn [List.map]; constructor; [|exact IH].
  destruct (spendable hash index o) eqn:Hs; [|apply rowStep_refl].
  right. destruct (spendable_guard _ _ _ Hs) as [Hst Hnull]. eauto.
Qed.

Lemma spendInputs_rowStep (hash : string) (now : Z) (ins : list wire.TxIn) :
  forall rows rows', spendInputs hash now ins rows = Some rows' -> Forall2 rowStep rows rows'.
Proof.
  induction ins as [|i rest IH]; intros rows rows'; cbn [spendInputs].
  - intros H. injection H as <-. apply Forall2_rowStep_refl.
  - destruct (updateSpent _ _ hash now rows) as [rows1|] eqn:Hu; [|discriminate].
    intros H. eapply Forall2_rowStep_trans; [eapply updateSpent_rowStep; eauto | eauto].
Qed.

Lemma insertRow_app (o : Output.t) (rows rows' : table) :
  insertRow o rows = Some rows' -> rows' = rows ++ [o].
Proof.
  unfold insertRow. destruct (existsb _ rows); [discriminate|].
  intros H. injection H as <-. reflexivity.
Qed.

Lemma insertOutputs_app (hash raw receiver : string) (tx : Transaction.t) (now : Z)
  (outs : list wire.TxOut) :
  forall i rows rows',
    insertOutputs hash raw receiver tx now i outs rows = Some rows' ->
    rows' = rows ++ feeOutputRows hash raw receiver tx now i outs.
Proof.
  induction outs as [|out rest IH]; intros i rows rows'; cbn [insertOutputs feeOutputRows].
  - intros H. injection H as <-. rewrite app_nil_r. reflexivity.
  - destruct (insertRow _ rows) as [rows1|] eqn:Hi; [|discriminate].
    intros H. apply IH in H. apply insertRow_app in Hi. subst.
    rewrite <- app_assoc. reflexivity.
Qed.

Lemma extends_refl (rows : table) : extends rows rows.
Proof.
  exists rows, []. split; [rewrite app_nil_r; reflexivity | apply Forall2_rowStep_refl].
Qed.

Lemma extends_updated (rows rows' : table) : Forall2 rowStep rows rows' -> extends rows rows'.
Proof. intros H. exists rows', []. split; [rewrite app_nil_r; reflexivity | exact H]. Qed.

Lemma extends_trans (a b c : table) : extends a b -> extends b c -> extends a c.
Proof.
  intros (upd & ins & -> & Hab) (upd' & ins' & -> & Hbc).
  apply Forall2_app_inv_l in Hbc as (u1 & u2 & H1 & H2 & ->).
  exists u1, (u2 ++ ins'). split; [rewrite app_assoc; reflexivity|].
  eapply Forall2_rowStep_trans; eauto.
Qed.

Lemma extends_lookup (rows rows' : table) (i : nat) (r : Output.t) :
  extends rows rows' -> rows !! i = Some r ->
  exists r', rows' !! i = Some r' /\ rowStep r r'.
Proof.
  intros (upd & ins & -> & H) Hi.
  destruct (Forall2_lookup_l _ _ _ _ _ H Hi) as (r' & Hr' & Hstep).
  exists r'. split; [|exact Hstep].
  apply lookup_app_l_Some. exact Hr'.
Qed.

Section methods.

Variable queryRow : QueryRow.
Variable TxHash : wire.MsgTx -> string.
Variable MarshalWiredTransaction : wire.MsgTx -> Z -> option (list byte).

Abbreviation AssignBitcoinUTXOByRangeForTransaction :=
  (observer_store.AssignBitcoinUTXOByRangeForTransaction queryRow).
Abbreviation WriteBitcoinFeeOutput :=
  (observer_store.WriteBitcoinFeeOutput TxHash MarshalWiredTransaction).
Abbreviation after := (observer_store.after queryRow TxHash MarshalWiredTransaction).
Abbreviation afterAll := (observer_store.afterAll queryRow TxHash MarshalWiredTransaction).

Lemma Assign_extends (rows : table) (min max : Z) (tx : Transaction.t) (now : Z) :
  extends rows (fst (AssignBitcoinUTXOByRangeForTransaction rows min max tx now)).
Proof.
  unfold observer_store.AssignBitcoinUTXOByRangeForTransaction.
  destruct (queryRow _ rows) as [o|]; [|apply extends_refl].
  destruct (String.eqb _ _); [apply extends_refl|].
  destruct (updateSpent _ _ _ now rows) as [rows'|] eqn:Hu; [|apply extends_refl].
  apply extends_updated. eapply updateSpent_rowStep; eauto.
Qed.

Lemma WriteIfNotExists_extends (rows : table) (utxo : Output.t) rows' err :
  WriteBitcoinUTXOIfNotExists rows utxo = Returns (rows', err) -> extends rows rows'.
Proof.
  unfold WriteBitcoinUTXOIfNotExists.
  destruct (negb _); [discriminate|].
  destruct (existsb _ rows).
  - intros H. injection H as <- _. apply extends_refl.
  - destruct (insertRow utxo rows) as [rows1|] eqn:Hi.
    + intros H. injection H as <- _. apply insertRow_app in Hi. subst.
      exists rows, [utxo]. split; [reflexivity | apply Forall2_rowStep_refl].
    + intros H. injection H as <- _. apply extends_refl.
Qed.

(** What a committed [WriteBitcoinFeeOutput] leaves: the old rows, each
    kept or assigned to the fee transaction, then one new row per output. *)
Lemma WriteBitcoinFeeOutput_committed (rows : table) (msgTx : wire.MsgTx)
  (receiver : string) (tx : Transaction.t) (now : Z) (rows' : table) :
  WriteBitcoinFeeOutput rows msgTx receiver tx now = (rows', None) ->
  exists upd raw,
    Forall2 rowStep rows upd
    /\ rows' = upd ++ feeOutputRows (TxHash msgTx) raw receiver tx now 0 (wire.TxOut_ msgTx).
Proof.
  unfold observer_store.WriteBitcoinFeeOutput.
  destruct (MarshalWiredTransaction msgTx _) as [buf|]; [|discriminate].
  destruct (spendInputs _ now _ rows) as [rows1|] eqn:Hs; [|discriminate].
  destruct (insertOutputs _ _ receiver tx now 0 _ rows1) as [rows2|] eqn:Hi; [|discriminate].
  intros H. injection H as <-.
  exists rows1, (hex.EncodeToString buf). split.
  - eapply spendInputs_rowStep; eauto.
  - eapply insertOutputs_app; eauto.
Qed.

Lemma WriteBitcoinFeeOutput_extends (rows : table) (msgTx : wire.MsgTx)
  (receiver : string) (tx : Transaction.t) (now : Z) :
  extends rows (fst (WriteBitcoinFeeOutput rows msgTx receiver tx now)).
Proof.
  destruct (WriteBitcoinFeeOutput rows msgTx receiver tx now) as [rows' [e|]] eqn:H.
  - assert (rows' = rows) as ->; [|apply extends_refl].
    revert H. unfold observer_store.WriteBitcoinFeeOutput.
    destruct (MarshalWiredTransaction msgTx _); [|congruence].
    destruct (spendInputs _ now _ rows); [|congruence].
    destruct (insertOutputs _ _ receiver tx now 0 _ _); congruence.
  - apply WriteBitcoinFeeOutput_committed in H as (upd & raw & Hstep & ->).
    cbn [fst]. eexists _, _. split; [reflexivity | exact Hstep].
Qed.

Lemma after_extends (rows : table) (c : call) : extends rows (after rows c).
Proof.
  destruct c as [min max tx now|utxo|msgTx receiver tx now]; cbn [observer_store.after].
  - apply Assign_extends.
  - destruct (WriteBitcoinUTXOIfNotExists rows utxo) as [[rows' err]|why] eqn:H.
    + eapply WriteIfNotExists_extends; eauto.
    + apply extends_refl.
  - apply WriteBitcoinFeeOutput_extends.
Qed.

Lemma afterAll_extends (cs : list call) : forall rows, extends rows (afterAll rows cs).
Proof.
  unfold observer_store.afterAll.
  induction cs as [|c cs IH]; intros rows; cbn [fold_left].
  - apply extends_refl.
  - eapply extends_trans; [apply after_extends | apply IH].
Qed.

(** C2 (amended): over any sequence of store calls a row of
    [bitcoin_outputs] is either kept or assigned once by the guarded
    UPDATE, which finds it Initial with SpentBy NULL and leaves it Done
    with SpentBy set; and a row whose SpentBy is set never changes
    again, so no second transaction can take it. *)
Theorem utxo_assignment_is_final (rows : table) (cs : list call) (i : nat) (r : Output.t) :
  rows !! i = Some r ->
  exists r',
    afterAll rows cs !! i = Some r'
    /\ (r' = r
        \/ (Output.State r = common.RequestStateInitial
            /\ sql.Valid (Output.SpentBy r) = false
            /\ Output.State r' = common.RequestStateDone
            /\ sql.Valid (Output.SpentBy r') = true))
    /\ (sql.Valid (Output.SpentBy r) = true -> r' = r).
Proof.
  intros Hi.
  destruct (extends_lookup _ _ _ _ (afterAll_extends cs rows) Hi) as (r' & Hr' & Hstep).
  exists r'. split; [exact Hr'|]. split.
  - destruct Hstep as [->|(Hst & Hnull & sb & now & ->)]; [left; reflexivity|].
    right. auto.
  - intros Hv. eapply rowStep_spent; eauto.
Qed.

(** C10: [WriteBitcoinUTXOIfNotExists] panics on a UTXO that is not
    Initial; given an Initial one it returns nil, and either a row with
    its key existed and the table is untouched, whatever the other
    columns of the new UTXO, or the table gained exactly that UTXO. *)
Theorem WriteBitcoinUTXOIfNotExists_first_write_wins (rows : table) (utxo : Output.t) :
  (Output.State utxo <> common.RequestStateInitial ->
     exists why, WriteBitcoinUTXOIfNotExists rows utxo = Panics why)
  /\ (Output.State utxo = common.RequestStateInitial ->
      existsb (Output.hasKey (Output.TransactionHash utxo) (Output.Index utxo)) rows = true ->
      WriteBitcoinUTXOIfNotExists rows utxo = Returns (rows, None))
  /\ (Output.State utxo = common.RequestStateInitial ->
      existsb (Output.hasKey (Output.TransactionHash utxo) (Output.Index utxo)) rows = false ->
      WriteBitcoinUTXOIfNotExists rows utxo = Returns (rows ++ [utxo], None))
  /\ (forall rows' err,
        WriteBitcoinUTXOIfNotExists rows utxo = Returns (rows', err) ->
        err = None /\ (rows' = rows \/ rows' = rows ++ [utxo])
        /\ Output.State utxo = common.RequestStateInitial).
Proof.
  unfold WriteBitcoinUTXOIfNotExists, insertRow. split; [|split; [|split]].
  - intros Hst. apply Z.eqb_neq in Hst. rewrite Hst. cbn [negb]. eauto.
  - intros Hst Hex. rewrite Hst, Hex. reflexivity.
  - intros Hst Hex. rewrite Hst, Hex. reflexivity.
  - intros rows' err.
    destruct (Output.State utxo =? common.RequestStateInitial) eqn:Hst;
      cbn [negb]; [|discriminate].
    apply Z.eqb_eq in Hst.
    destruct (existsb _ rows); intros H; injection H as <- <-; auto.
Qed.

End methods.
End observer_store_props.

(** ** The observer's table on the fixtures *)
Module observer_store_examples.
Import observer_store.

(** Output ("aa", 0) goes to [tx2]; [tx3], whose range also covers it,
    finds nothing free; a second write of ("aa", 0) changes nothing; the
    fee transaction adds its two outputs, the first born spent. *)
Example calls_on_outputs :
  afterAll firstRow fixtures.TxHash fixtures.MarshalWiredTransaction
    fixtures.outputs fixtures.calls
  = [ markSpent "tx2" 7 (fixtures.utxo "aa" 0 50000 common.RequestStateInitial sql.null);
      fixtures.utxo "bb" 1 40000 common.RequestStateDone (sql.valid "tx1");
      feeOutputRow "fee" "ab" "bc1qaccountant" (fixtures.approval "tx4") 9 0
        {| wire.Value := 1000; wire.PkScript := [] |};
      feeOutputRow "fee" "ab" "bc1qaccountant" (fixtures.approval "tx4") 9 1
        {| wire.Value := 500; wire.PkScript := [] |} ].
Proof. vm_compute. reflexivity. Qed.

(** C2, as stated, fails: output 0 of a fee transaction has SpentBy set
    by its INSERT, with state Done; no row moved from Initial to Done
    (the table was empty). *)
Lemma fee_output_is_born_spent :
  exists row0 row1,
    WriteBitcoinFeeOutput fixtures.TxHash fixtures.MarshalWiredTransaction
      [] fixtures.feeTx "bc1qaccountant" (fixtures.approval "tx4") 9
    = ([row0; row1], None)
    /\ Output.SpentBy row0 = sql.valid "tx4"
    /\ Output.State row0 = common.RequestStateDone
    /\ Output.State row1 = common.RequestStateInitial
    /\ (@nil Output.t) !! 0%nat = None.
Proof.
  eexists _, _. split; [vm_compute; reflexivity|]. repeat split.
Qed.

Lemma utxo_assignment_is_final_witness :
  exists r',
    afterAll firstRow fixtures.TxHash fixtures.MarshalWiredTransaction
      fixtures.outputs fixtures.calls !! 0%nat = Some r'
    /\ (r' = fixtures.utxo "aa" 0 50000 common.RequestStateInitial sql.null
        \/ (Output.State (fixtures.utxo "aa" 0 50000 common.RequestStateInitial sql.null)
              = common.RequestStateInitial
            /\ sql.Valid (Output.SpentBy
                            (fixtures.utxo "aa" 0 50000 common.RequestStateInitial sql.null))
               = false
            /\ Output.State r' = common.RequestStateDone
            /\ sql.Valid (Output.SpentBy r') = true))
    /\ (sql.Valid (Output.SpentBy
                     (fixtures.utxo "aa" 0 50000 common.RequestStateInitial sql.null)) = true ->
        r' = fixtures.utxo "aa" 0 50000 common.RequestStateInitial sql.null).
Proof.
  apply (observer_store_props.utxo_assignment_is_final
           firstRow fixtures.TxHash fixtures.MarshalWiredTransaction
           fixtures.outputs fixtures.calls 0%nat).
  reflexivity.
Defined.

Lemma WriteBitcoinUTXOIfNotExists_first_write_wins_witness :
  WriteBitcoinUTXOIfNotExists fixtures.outputs
    (fixtures.utxo "aa" 0 1 common.RequestStateInitial sql.null)
  = Returns (fixtures.outputs, None).
Proof.
  apply (proj1 (proj2 (observer_store_props.WriteBitcoinUTXOIfNotExists_first_write_wins
                         fixtures.outputs
                         (fixtures.utxo "aa" 0 1 common.RequestStateInitial sql.null))));
    reflexivity.
Defined.

Example WriteBitcoinUTXOIfNotExists_panics_on_done :
  WriteBitcoinUTXOIfNotExists fixtures.outputs
    (fixtures.utxo "cc" 0 1 common.RequestStateDone sql.null)
  = Panics "state".
Proof. reflexivity. Qed.

End observer_store_examples.

(** ** Broadcast *)
Module broadcast_props.
Section node.

Variable W : Type.
Variable bitcoinParams : Z -> option (string * string).
Variable RPCSendRawTransaction : W -> string -> string -> W * (string * error).

(** The chain-aware [bitcoinBroadcastTransaction]: "already in block
    chain" from the RPC is success, and a transaction id other than the
    computed hash is the malformed-transaction error. *)
Theorem bitcoinBroadcastTransaction_idempotent (w : W) (hash : string) (raw : list byte)
  (chain : Z) (url asset : string) (w1 : W) (id : string) (err : error) :
  bitcoinParams chain = Some (url, asset) ->
  RPCSendRawTransaction w url (hex.EncodeToString raw) = (w1, (id, err)) ->
  (forall e, err = Some e ->
     strings.Contains e "Transaction already in block chain" = true ->
     observer.bitcoinBroadcastTransaction W bitcoinParams RPCSendRawTransaction
       w hash raw chain = (w1, Return None))
  /\ (err = None -> id <> hash ->
      observer.bitcoinBroadcastTransaction W bitcoinParams RPCSendRawTransaction
        w hash raw chain
      = (w1, Return (Some ("malformed bitcoin transaction " ++ hash ++ " " ++ id)%string))).
Proof.
  intros Hparams Hrpc. unfold observer.bitcoinBroadcastTransaction.
  rewrite Hparams, Hrpc. split.
  - intros e -> Hin. rewrite Hin. reflexivity.
  - intros -> Hne. apply String.eqb_neq in Hne. rewrite Hne. reflexivity.
Qed.

End node.

Lemma bitcoinBroadcastTransaction_idempotent_witness :
  (forall e, Some "-27: Transaction already in block chain"%string = Some e ->
     strings.Contains e "Transaction already in block chain" = true ->
     observer.bitcoinBroadcastTransaction _ fixtures.bitcoinParams fixtures.rpcAlreadyInChain
       fixtures.approvals "tx1" [xab] 1 = (fixtures.approvals, Return None))
  /\ (Some "-27: Transaction already in block chain"%string = None ->
      EmptyString <> "tx1"%string ->
      observer.bitcoinBroadcastTransaction _ fixtures.bitcoinParams fixtures.rpcAlreadyInChain
        fixtures.approvals "tx1" [xab] 1
      = (fixtures.approvals,
         Return (Some ("malformed bitcoin transaction " ++ "tx1" ++ " " ++ "")%string))).
Proof.
  apply (bitcoinBroadcastTransaction_idempotent _ fixtures.bitcoinParams
           fixtures.rpcAlreadyInChain fixtures.approvals "tx1" [xab] 1 "btc" "bitcoin-asset");
    reflexivity.
Defined.


End broadcast_props.

(** ** Ethereum approvals in the observer *)
Module ethereum_props.
Section node.

Variable W : Type.
Variables SafeChainEthereum SafeChainPolygon : Z.
Variable ReadTransactionApproval : W -> string -> option Transaction.t * error.
Variable ReadSafe : W -> string -> option Safe.t * error.
Variable UpdateRecoveryState : W -> string -> string -> Z -> W * error.
Variable FinishTransactionSignatures : W -> string -> string -> W * error.
Variable UnmarshalSafeTransaction : list byte -> option ethereum.SafeTransaction.
Variable MarshalSafeTransaction : ethereum.SafeTransaction -> list byte.
Variable CheckTransactionPartiallySignedBy : string -> string -> bool.

Abbreviation countSigned := (observer.countSigned CheckTransactionPartiallySignedBy).
Abbreviation keeperVerifyEthereumTransactionSignatures :=
  (observer.keeperVerifyEthereumTransactionSignatures W SafeChainEthereum SafeChainPolygon
     ReadTransactionApproval ReadSafe UpdateRecoveryState FinishTransactionSignatures
     UnmarshalSafeTransaction MarshalSafeTransaction CheckTransactionPartiallySignedBy).

Abbreviation signaturesOf :=
  (observer.signaturesOf MarshalSafeTransaction CheckTransactionPartiallySignedBy).


(** Whatever the input, a changed world means two signatures were
    counted on a pending approval. *)
Lemma ethereum_write_needs_two_signatures (w : W) (extra : list byte) (w' : W) (e : exit) :
  keeperVerifyEthereumTransactionSignatures w extra = (w', e) ->
  w' <> w ->
  exists st tx safe,
    UnmarshalSafeTransaction extra = Some st
    /\ ReadTransactionApproval w (ethereum.TxHash st) = (Some tx, None)
    /\ Transaction.State tx < common.RequestStateDone
    /\ ReadSafe w (Transaction.Holder tx) = (Some safe, None)
    /\ 2 <= signaturesOf st safe.
Proof.
  unfold observer.keeperVerifyEthereumTransactionSignatures, observer.signaturesOf.
  intros Hrun Hne.
  destruct (UnmarshalSafeTransaction extra) as [st|]; [|congruence].
  destruct (ReadTransactionApproval w (ethereum.TxHash st)) as [[tx|] [err|]] eqn:Htx;
    try congruence.
  destruct (Transaction.State tx >=? common.RequestStateDone) eqn:Hdone; [congruence|].
  destruct (ReadSafe w (Transaction.Holder tx)) as [[safe|] [err|]] eqn:Hsafe; try congruence.
  destruct (negb _); [congruence|].
  destruct (_ <? 2) eqn:Hsigs; [congruence|].
  exists st, tx, safe.
  split; [reflexivity|]. split; [exact Htx|]. split; [|split; [exact Hsafe|]].
  - rewrite Z.geb_leb in Hdone. apply Z.leb_gt in Hdone. exact Hdone.
  - apply Z.ltb_ge in Hsigs. exact Hsigs.
Qed.

End node.

Abbreviation verifyOnFixtures :=
  (observer.keeperVerifyEthereumTransactionSignatures _ 2 6
     fixtures.ReadTransactionApproval fixtures.ReadSafe fixtures.UpdateRecoveryState
     fixtures.FinishTransactionSignatures fixtures.UnmarshalSafeTransaction
     (fun st => ethereum.Payload st) fixtures.CheckTransactionPartiallySignedBy).



End ethereum_props.

(** ** Signature combination *)
Module combine_props.

Lemma bytes_Equal_eq (a : list byte) : forall b, bytes.Equal a b = true <-> a = b.
Proof.
  induction a as [|x a IH]; intros [|y b]; cbn [bytes.Equal]; split; intros H;
    try discriminate; try reflexivity.
  - apply andb_prop in H as [Hxy Hab]. apply byte_dec_bl in Hxy. apply IH in Hab. congruence.
  - injection H as -> ->. rewrite (byte_dec_lb eq_refl). apply IH. reflexivity.
Qed.

Section accountant.

Variable W : Type.
Variable BitcoinRPC : string.
Variable SafeChainBitcoin : Z.
Variable RPCSendRawTransaction : W -> string -> string -> W * (string * error).
Variable UnmarshalPartiallySignedTransaction :
  list byte -> option bitcoin.PartiallySignedTransaction.
Variable Marshal : bitcoin.PartiallySignedTransaction -> list byte.
Variable SigHash : bitcoin.PartiallySignedTransaction -> nat -> list byte.
Variable DecodeHexOrPanic : string -> option (list byte).
Variable ReadTransactionApproval : W -> string -> option Transaction.t * error.
Variable ListAllSignaturesForTransaction :
  W -> string -> Z -> list SignatureRequest.t * error.
Variable ReadBitcoinUTXO : W -> string -> Z -> option (list byte).
Variable checkBitcoinUTXOSignatureRequired : W -> wire.OutPoint -> bool.
Variable accountantSign : W -> string -> list byte -> list byte + string.
Variable derVerify : list byte -> list byte -> string -> option bool.
Variable BtcEncode : wire.MsgTx -> option (list byte).
Variable FinishTransactionSignatures : W -> string -> string -> W * error.

Abbreviation signInput :=
  (observer_v1.signInput W SigHash DecodeHexOrPanic ReadBitcoinUTXO
     checkBitcoinUTXOSignatureRequired accountantSign derVerify).
Abbreviation signInputs :=
  (observer_v1.signInputs W SigHash DecodeHexOrPanic ReadBitcoinUTXO
     checkBitcoinUTXOSignatureRequired accountantSign derVerify).
Abbreviation multisigInputSigned :=
  (observer_v1.multisigInputSigned W SigHash ReadBitcoinUTXO derVerify).
Abbreviation bitcoinAccountantSignTransaction :=
  (observer_v1.bitcoinAccountantSignTransaction W BitcoinRPC SafeChainBitcoin
     RPCSendRawTransaction UnmarshalPartiallySignedTransaction Marshal SigHash
     DecodeHexOrPanic ReadTransactionApproval ListAllSignaturesForTransaction
     ReadBitcoinUTXO checkBitcoinUTXOSignatureRequired accountantSign derVerify
     BtcEncode FinishTransactionSignatures).

(** An iteration touches input [idx] only. *)
Lemma signInput_frame (w : W) tx spsbt signed (idx : nat) (st st' : observer_v1.packets) :
  signInput w tx spsbt signed idx st = Next st' ->
  forall j, j <> idx ->
    st'.1 !! j = st.1 !! j
    /\ observer_v1.holderInput st'.2 j = observer_v1.holderInput st.2 j.
Proof.
  destruct st as [ins hpsbt]. unfold observer_v1.signInput.
  intros H j Hj. repeat case_match; simplify_eq; cbn [fst snd];
    (split; [apply list_lookup_insert_ne; congruence
            | cbn [observer_v1.holderInput observer_v1.setPartialSigs bitcoin.Inputs];
              apply list_lookup_insert_ne; congruence]).
Qed.

Lemma signInput_required (w : W) tx spsbt signed (idx : nat) (st st' : observer_v1.packets)
  (tin : wire.TxIn) :
  signInput w tx spsbt signed idx st = Next st' ->
  st.1 !! idx = Some tin ->
  checkBitcoinUTXOSignatureRequired w (wire.PreviousOutPoint tin) = true ->
  multisigInputSigned w tx spsbt signed st.2 idx tin (st'.1 !! idx).
Proof.
  destruct st as [ins hpsbt]. unfold observer_v1.signInput. cbn [fst snd].
  intros H Htin Hreq. rewrite Htin, Hreq in H.
  repeat case_match; simplify_eq.
  repeat match goal with
         | Hn : negb _ = false |- _ => apply negb_false_iff in Hn
         end.
  eexists _, _, _, _, _. cbn [observer_v1.holderInput fst snd].
  repeat (split; [eassumption || (apply String.eqb_eq; eassumption)
                  || (apply bytes_Equal_eq; eassumption)|]).
  apply list_lookup_insert_eq. apply lookup_lt_Some in Htin. exact Htin.
Qed.

Lemma signInputs_frame (w : W) tx spsbt signed (idxs : list nat) :
  forall st st',
    signInputs w tx spsbt signed idxs st = Next st' ->
    forall j, j ∉ idxs ->
      st'.1 !! j = st.1 !! j
      /\ observer_v1.holderInput st'.2 j = observer_v1.holderInput st.2 j.
Proof.
  induction idxs as [|idx rest IH]; intros st st'; cbn [observer_v1.signInputs].
  - intros H. injection H as <-. auto.
  - destruct (signInput w tx spsbt signed idx st) as [st1|e] eqn:Hstep; [|discriminate].
    intros Hrest j Hj. apply not_elem_of_cons in Hj as [Hne Hnin].
    destruct (IH _ _ Hrest j Hnin) as [H1 H2].
    destruct (signInput_frame _ _ _ _ _ _ _ Hstep j Hne) as [H3 H4].
    split; congruence.
Qed.

Lemma signInputs_required (w : W) tx spsbt signed (idxs : list nat) :
  NoDup idxs ->
  forall st st',
    signInputs w tx spsbt signed idxs st = Next st' ->
    forall idx tin,
      idx ∈ idxs ->
      st.1 !! idx = Some tin ->
      checkBitcoinUTXOSignatureRequired w (wire.PreviousOutPoint tin) = true ->
      multisigInputSigned w tx spsbt signed st.2 idx tin (st'.1 !! idx).
Proof.
  induction 1 as [|i rest Hnotin Hnodup IH]; intros st st'; cbn [observer_v1.signInputs].
  - intros _ idx tin Hin. apply elem_of_nil in Hin. contradiction.
  - destruct (signInput w tx spsbt signed i st) as [st1|e] eqn:Hstep; [|discriminate].
    intros Hrest idx tin Hin Htin Hreq.
    apply elem_of_cons in Hin as [->|Hin].
    + destruct (signInputs_frame _ _ _ _ _ _ _ Hrest i Hnotin) as [Hsame _].
      rewrite Hsame. eapply signInput_required; eauto.
    + assert (Hne : idx <> i) by (intros ->; contradiction).
      destruct (signInput_frame _ _ _ _ _ _ _ Hstep idx Hne) as [H1 H2].
      assert (Htin1 : st1.1 !! idx = Some tin) by congruence.
      pose proof (IH _ _ Hrest idx tin Hin Htin1 Hreq) as Hok.
      unfold observer_v1.multisigInputSigned in *. rewrite H2 in Hok. exact Hok.
Qed.

(** The accountant path, from the point where its reads have succeeded:
    if the loop leaves the function, the function ends there with the
    world untouched (nothing finished, nothing broadcast); if the loop
    completes, every input that required the safe's signatures carries
    the multisig witness over verified signatures. *)
Lemma accountant_multisig_witness (w : W) (extra : list byte) (tx : Transaction.t)
  (sp : bitcoin.PartiallySignedTransaction) (b : list byte)
  (requests : list SignatureRequest.t) (signed : gmap nat (list byte)) :
  (32 <= length extra)%nat ->
  UnmarshalPartiallySignedTransaction (slice_from 32 extra) = Some sp ->
  ReadTransactionApproval w (hex.EncodeToString (slice 0 32 extra)) = (Some tx, None) ->
  Transaction.State tx <> common.RequestStateDone ->
  Transaction.Chain tx = SafeChainBitcoin ->
  DecodeHexOrPanic (Transaction.RawTransaction tx) = Some b ->
  ListAllSignaturesForTransaction w (hex.EncodeToString (slice 0 32 extra))
    common.RequestStateDone = (requests, None) ->
  observer_v1.signedMap DecodeHexOrPanic requests ∅ = Some signed ->
  match signInputs w tx sp signed (seq 0 (length (wire.TxIn_ (bitcoin.UnsignedTx sp))))
          (wire.TxIn_ (bitcoin.UnsignedTx sp), UnmarshalPartiallySignedTransaction b) with
  | Exit e => bitcoinAccountantSignTransaction w extra = (w, e)
  | Next (ins, _) =>
      forall idx tin,
        wire.TxIn_ (bitcoin.UnsignedTx sp) !! idx = Some tin ->
        checkBitcoinUTXOSignatureRequired w (wire.PreviousOutPoint tin) = true ->
        multisigInputSigned w tx sp signed (UnmarshalPartiallySignedTransaction b)
          idx tin (ins !! idx)
  end.
Proof.
  intros Hlen Hsp Htx Hstate Hchain Hb Hreqs Hsigned.
  destruct (signInputs _ _ _ _ _ _) as [[ins hp']|e] eqn:Hloop.
  - intros idx tin Htin Hreq.
    apply (signInputs_required _ _ _ _ _ (NoDup_seq 0 _) _ _ Hloop idx tin);
      [|exact Htin|exact Hreq].
    apply elem_of_seq. apply lookup_lt_Some in Htin. lia.
  - unfold observer_v1.bitcoinAccountantSignTransaction.
    destruct (_ <? 32)%nat eqn:Hshort; [apply Nat.ltb_lt in Hshort; lia|].
    rewrite Htx.
    apply Z.eqb_neq in Hstate. rewrite Hstate.
    apply Z.eqb_eq in Hchain. rewrite Hchain. cbn [negb].
    rewrite Hb, Hreqs, Hsigned, Hsp, Hloop. reflexivity.
Qed.

(** *** The later combine path *)

Variables SafeChainLitecoin MaxTransactionSequence : Z.
Variable Hash : bitcoin.PartiallySignedTransaction -> string.
Variable ReadSafe : W -> string -> option Safe.t * error.
Variable deriveBIP32WithKeeperPath : W -> string -> string -> string + string.
Variable VerifySignatureDER : string -> list byte -> list byte -> error.
Variable UpdateRecoveryState : W -> string -> string -> Z -> W * error.

Abbreviation combineInput :=
  (observer.combineInput W MaxTransactionSequence Hash SigHash
     checkBitcoinUTXOSignatureRequired VerifySignatureDER).
Abbreviation combineInputs :=
  (observer.combineInputs W MaxTransactionSequence Hash SigHash
     checkBitcoinUTXOSignatureRequired VerifySignatureDER).
Abbreviation normalInputCombined := (observer.normalInputCombined SigHash VerifySignatureDER).
Abbreviation keeperCombineBitcoinTransactionSignatures :=
  (observer.keeperCombineBitcoinTransactionSignatures W SafeChainBitcoin SafeChainLitecoin
     MaxTransactionSequence UnmarshalPartiallySignedTransaction Marshal Hash SigHash
     DecodeHexOrPanic ReadTransactionApproval ReadSafe deriveBIP32WithKeeperPath
     ListAllSignaturesForTransaction checkBitcoinUTXOSignatureRequired VerifySignatureDER
     UpdateRecoveryState FinishTransactionSignatures).

Lemma combineInput_frame (w : W) tx spk opk spsbt signed (idx : nat) (tin : wire.TxIn)
  (hpsbt hpsbt' : option bitcoin.PartiallySignedTransaction) :
  combineInput w tx spk opk spsbt signed idx tin hpsbt = Next hpsbt' ->
  forall j, j <> idx ->
    observer_v1.holderInput hpsbt' j = observer_v1.holderInput hpsbt j.
Proof.
  unfold observer.combineInput. intros H j Hj.
  repeat case_match; simplify_eq; try reflexivity.
  cbn [observer_v1.holderInput observer_v1.setPartialSigs bitcoin.Inputs].
  apply list_lookup_insert_ne. congruence.
Qed.

Lemma combineInput_normal (w : W) tx spk opk spsbt signed (idx : nat) (tin : wire.TxIn)
  (hpsbt hpsbt' : option bitcoin.PartiallySignedTransaction) :
  combineInput w tx spk opk spsbt signed idx tin hpsbt = Next hpsbt' ->
  checkBitcoinUTXOSignatureRequired w (wire.PreviousOutPoint tin) = true ->
  wire.Sequence tin = MaxTransactionSequence ->
  normalInputCombined tx spk spsbt signed hpsbt idx (observer_v1.holderInput hpsbt' idx).
Proof.
  unfold observer.combineInput, observer.checkHolderSide. intros H Hreq Hseq.
  rewrite Hreq, Hseq, Z.eqb_refl in H. cbn [negb] in H.
  repeat case_match; simplify_eq.
  repeat match goal with
         | Hn : negb _ = false |- _ => apply negb_false_iff in Hn
         end.
  eexists _, _, _, _. cbn [observer_v1.holderInput].
  repeat (split; [eassumption || (apply String.eqb_eq; eassumption)
                  || (apply bytes_Equal_eq; eassumption)|]).
  cbn [observer_v1.setPartialSigs bitcoin.Inputs].
  apply list_lookup_insert_eq. eapply lookup_lt_Some. eassumption.
Qed.

Lemma combineInputs_frame (w : W) tx spk opk spsbt signed (ins : list wire.TxIn) :
  forall k hpsbt hpsbt',
    combineInputs w tx spk opk spsbt signed k ins hpsbt = Next hpsbt' ->
    forall j, (j < k)%nat ->
      observer_v1.holderInput hpsbt' j = observer_v1.holderInput hpsbt j.
Proof.
  induction ins as [|tin rest IH]; intros k hpsbt hpsbt'; cbn [observer.combineInputs].
  - intros H. injection H as <-. reflexivity.
  - destruct (combineInput w tx spk opk spsbt signed k tin hpsbt) as [h1|e] eqn:Hstep;
      [|discriminate].
    intros Hrest j Hj.
    rewrite (IH _ _ _ Hrest j) by lia.
    apply (combineInput_frame _ _ _ _ _ _ _ _ _ _ Hstep). lia.
Qed.

Lemma combineInputs_normal (w : W) tx spk opk spsbt signed (ins : list wire.TxIn) :
  forall k hpsbt hpsbt',
    combineInputs w tx spk opk spsbt signed k ins hpsbt = Next hpsbt' ->
    forall i tin,
      ins !! i = Some tin ->
      checkBitcoinUTXOSignatureRequired w (wire.PreviousOutPoint tin) = true ->
      wire.Sequence tin = MaxTransactionSequence ->
      normalInputCombined tx spk spsbt signed hpsbt (k + i)
        (observer_v1.holderInput hpsbt' (k + i)).
Proof.
  induction ins as [|tin0 rest IH]; intros k hpsbt hpsbt'; cbn [observer.combineInputs].
  - intros _ i tin Hi. rewrite lookup_nil in Hi. discriminate.
  - destruct (combineInput w tx spk opk spsbt signed k tin0 hpsbt) as [h1|e] eqn:Hstep;
      [|discriminate].
    intros Hrest [|i] tin Hi Hreq Hseq.
    + cbn in Hi. injection Hi as ->. rewrite Nat.add_0_r.
      rewrite (combineInputs_frame _ _ _ _ _ _ _ _ _ _ Hrest k) by lia.
      eapply combineInput_normal; eauto.
    + cbn in Hi.
      pose proof (IH _ _ _ Hrest i tin Hi Hreq Hseq) as Hok.
      replace (k + S i)%nat with (S k + i)%nat by lia.
      unfold observer.normalInputCombined in *.
      rewrite (combineInput_frame _ _ _ _ _ _ _ _ _ _ Hstep (S k + i)%nat) in Hok by lia.
      exact Hok.
Qed.


End accountant.
End combine_props.

(** ** Signature combination on the fixtures *)
Module combine_examples.

(** The accountant path on the one-input spend: finished and broadcast. *)
Example accountant_path_finishes :
  exists w',
    fixtures.accountantPath "0a" fixtures.spendExtra = (w', Return None)
    /\ Transaction.State <$> (w' !! fixtures.spendHash) = Some common.RequestStateDone.
Proof. eexists. split; vm_compute; reflexivity. Qed.

(** A holder key other than the recorded one: panic, world untouched. *)
Example accountant_path_aborts_on_holder_mismatch :
  fixtures.accountantPath "ff" fixtures.spendExtra
  = (fixtures.spends "ff", Panicked fixtures.spendHash).
Proof. vm_compute. reflexivity. Qed.


End combine_examples.

(** ** Replay of MTG outputs *)
Module replay_props.
Import replay.

Lemma Transaction_eqb_refl (a : mtg.Transaction) : Transaction_eqb a a = true.
Proof. unfold Transaction_eqb. rewrite !String.eqb_refl. reflexivity. Qed.

Lemma Transactions_eqb_refl (a : list mtg.Transaction) : Transactions_eqb a a = true.
Proof.
  induction a as [|x a IH]; cbn [Transactions_eqb]; [reflexivity|].
  rewrite Transaction_eqb_refl, IH. reflexivity.
Qed.

Lemma ReplayCheck_refl (txs : list mtg.Transaction) (asset : string) :
  ReplayCheck txs txs asset asset = true.
Proof. unfold ReplayCheck. rewrite Transactions_eqb_refl, String.eqb_refl. reflexivity. Qed.

Section keeper.

Variable App : Type.
Variable parseRequest : Action -> option string.
Variable handle : App -> Action -> string -> App * (list mtg.Transaction * string).

Abbreviation Keeper := (replay.Keeper App).
Abbreviation processAction := (replay.processAction App parseRequest handle).
Abbreviation ProcessOutput := (replay.ProcessOutput Keeper processAction).
Abbreviation deliver := (replay.deliver App parseRequest handle).
Abbreviation stored := (replay.stored App parseRequest).

Lemma processAction_stored (st : Keeper) (out : Action) r :
  stored st out = Some r -> processAction st out = (st, r).
Proof.
  unfold replay.stored, replay.processAction.
  destruct (parseRequest out) as [requestId|].
  - destruct (action_results App st !! (OutputId out, requestId)) as [ar|]; [|discriminate].
    cbn. intros H. injection H as <-. reflexivity.
  - intros H. injection H as <-. reflexivity.
Qed.

(** Processing any action stores its result and keeps what was stored. *)
Lemma processAction_stores (st : Keeper) (out : Action) :
  stored (processAction st out).1 out = Some (processAction st out).2.
Proof.
  unfold replay.stored, replay.processAction.
  destruct (parseRequest out) as [requestId|]; [|reflexivity].
  destruct (action_results App st !! (OutputId out, requestId)) as [ar|] eqn:Hhit.
  - cbn. rewrite Hhit. reflexivity.
  - destruct (handle (app App st) out requestId) as [app' [txs asset]].
    cbn. rewrite lookup_insert_eq. reflexivity.
Qed.

Lemma processAction_keeps (st : Keeper) (out other : Action) r :
  stored st out = Some r -> stored (processAction st other).1 out = Some r.
Proof.
  unfold replay.stored, replay.processAction.
  destruct (parseRequest other) as [otherId|]; [|auto].
  destruct (action_results App st !! (OutputId other, otherId)) as [ar|] eqn:Hhit; [auto|].
  destruct (handle (app App st) other otherId) as [app' [txs asset]]. cbn.
  destruct (parseRequest out) as [requestId|]; [|auto].
  destruct (decide ((OutputId other, otherId) = (OutputId out, requestId))) as [Heq|Hne].
  - rewrite <- Heq, Hhit. discriminate.
  - rewrite lookup_insert_ne by exact Hne. auto.
Qed.

(** The second run inside [ProcessOutput] finds the first one's result:
    the replay check passes and the call returns the first result. *)
Lemma ProcessOutput_returns (st : Keeper) (out : Action) :
  ProcessOutput st out = Returns (processAction st out).
Proof.
  unfold replay.ProcessOutput.
  pose proof (processAction_stores st out) as Hs.
  destruct (processAction st out) as [st1 [txs1 asset1]]. cbn [fst snd] in Hs.
  rewrite (processAction_stored _ _ _ Hs), ReplayCheck_refl. reflexivity.
Qed.

Lemma deliver_keeps (between : list Action) :
  forall (st : Keeper) (out : Action) r,
    stored st out = Some r -> stored (deliver st between) out = Some r.
Proof.
  induction between as [|other rest IH]; intros st out r Hs; cbn [replay.deliver]; [exact Hs|].
  rewrite ProcessOutput_returns.
  destruct (processAction st other) as [st1 r1] eqn:Hrun.
  apply IH. replace st1 with (processAction st other).1 by (rewrite Hrun; reflexivity).
  apply processAction_keeps. exact Hs.
Qed.


End keeper.

(** Two deliveries of "a" around one of "b": the handler ran twice in
    all, and "a" got the same transaction both times. *)
Example redelivery_on_fixtures :
  let st0 := {| app := 0; action_results := ∅ |} in
  let run :=
    replay.ProcessOutput _
      (replay.processAction Z (fun out => Some (Extra out)) fixtures.answer) in
  exists st1 st2 r,
    run st0 (fixtures.delivery "a") = Returns (st1, r)
    /\ run st1 (fixtures.delivery "b") = Returns (st2, (fixtures.answer 1 (fixtures.delivery "b") "b").2)
    /\ run st2 (fixtures.delivery "a") = Returns (st2, r)
    /\ app Z st2 = 2.
Proof.
  eexists _, _, _. split; [vm_compute; reflexivity|].
  split; [vm_compute; reflexivity|].
  split; vm_compute; reflexivity.
Qed.

End replay_props.

(** ** Revoking a proposed transaction *)
Module revoke_props.
Import keeper_revoke.

Section handler.

Variable VerifyMessageSignature : string -> string -> list byte -> bool.
Variable observerKey : string -> string.

Abbreviation processSafeRevokeTransaction :=
  (keeper_revoke.processSafeRevokeTransaction VerifyMessageSignature observerKey).

Lemma failTransaction_failed (hash : string) (t : Transaction) :
  TransactionHash (failTransaction hash t) = hash ->
  State (failTransaction hash t) = common.RequestStateFailed.
Proof.
  unfold failTransaction. destruct (String.eqb (TransactionHash t) hash) eqn:H; cbn.
  - reflexivity.
  - intros Heq. apply String.eqb_neq in H. contradiction.
Qed.

Lemma failSignatureRequest_not_initial (hash : string) (r : SignatureRequest) :
  SignedTransaction (failSignatureRequest hash r) = hash ->
  RequestState (failSignatureRequest hash r) <> common.RequestStateInitial.
Proof.
  unfold failSignatureRequest. destruct (String.eqb (SignedTransaction r) hash) eqn:H; cbn.
  - discriminate.
  - intros Heq. apply String.eqb_neq in H. contradiction.
Qed.

Lemma releaseUTXO_released (hash : string) (u : UTXO) :
  sql.equals (SpentBy u) hash = true ->
  releaseUTXO hash u
  = {| OutputHash := OutputHash u; OutputIndex := OutputIndex u;
       OutputState := common.RequestStateInitial; SpentBy := sql.null |}.
Proof. unfold releaseUTXO. intros ->. reflexivity. Qed.

Lemma releaseUTXO_unassigned (hash : string) (u : UTXO) :
  sql.equals (SpentBy (releaseUTXO hash u)) hash = false.
Proof.
  unfold releaseUTXO. destruct (sql.equals (SpentBy u) hash) eqn:H; [reflexivity | exact H].
Qed.

(** C7: a revocation whose signature over REVOKE:<requestId>:<txHash>
    verifies against the holder key or the derived observer key is
    accepted; afterwards the transaction is Failed, none of its
    signature requests is Initial, every UTXO that was assigned to it is
    Initial and unassigned, and no UTXO is left assigned to it. *)
Theorem revoke_fails_transaction_and_releases_utxos (s : Store) (holder requestId : string)
  (sig : list byte) (tx : Transaction) :
  List.find (fun t => String.eqb (RequestId t) requestId) (transactions s) = Some tx ->
  Holder tx = holder ->
  VerifyMessageSignature holder (revokeMessage (RequestId tx) (TransactionHash tx)) sig
  || VerifyMessageSignature (observerKey holder)
       (revokeMessage (RequestId tx) (TransactionHash tx)) sig = true ->
  exists s',
    processSafeRevokeTransaction s holder requestId sig = (s', true)
    /\ (forall t, t ∈ transactions s' -> TransactionHash t = TransactionHash tx ->
          State t = common.RequestStateFailed)
    /\ (exists t, t ∈ transactions s' /\ TransactionHash t = TransactionHash tx)
    /\ (forall r, r ∈ signature_requests s' -> SignedTransaction r = TransactionHash tx ->
          RequestState r <> common.RequestStateInitial)
    /\ (forall i u, utxos s !! i = Some u ->
          sql.equals (SpentBy u) (TransactionHash tx) = true ->
          utxos s' !! i
          = Some {| OutputHash := OutputHash u; OutputIndex := OutputIndex u;
                    OutputState := common.RequestStateInitial; SpentBy := sql.null |})
    /\ (forall u, u ∈ utxos s' -> sql.equals (SpentBy u) (TransactionHash tx) = false).
Proof.
  intros Hfind Hholder Hsig. unfold keeper_revoke.processSafeRevokeTransaction.
  rewrite Hfind, Hholder, String.eqb_refl, Hsig. cbn [negb].
  eexists. split; [reflexivity|]. cbn [transactions utxos signature_requests].
  split; [|split; [|split; [|split]]].
  - intros t Ht Hhash. apply list_elem_of_fmap in Ht as (t0 & -> & _).
    apply failTransaction_failed. exact Hhash.
  - exists (failTransaction (TransactionHash tx) tx). split.
    + apply list_elem_of_fmap. exists tx. split; [reflexivity|].
      apply list_elem_of_In. apply (find_some _ _ Hfind).
    + unfold failTransaction. rewrite String.eqb_refl. reflexivity.
  - intros r Hr Hhash. apply list_elem_of_fmap in Hr as (r0 & -> & _).
    apply failSignatureRequest_not_initial. exact Hhash.
  - intros i u Hi Hspent.
    change (List.map ?f ?l) with (f <$> l). rewrite list_lookup_fmap, Hi. cbn.
    rewrite releaseUTXO_released by exact Hspent. reflexivity.
  - intros u Hu. apply list_elem_of_fmap in Hu as (u0 & -> & _).
    apply releaseUTXO_unassigned.
Qed.

End handler.

Lemma revoke_fails_transaction_and_releases_utxos_witness :
  exists s',
    keeper_revoke.processSafeRevokeTransaction fixtures.VerifyMessageSignature
      (fun h => (h ++ "'")%string) fixtures.proposed "holder" "3e37" [x02] = (s', true)
    /\ (forall t, t ∈ transactions s' -> TransactionHash t = "18d6"%string ->
          State t = common.RequestStateFailed)
    /\ (exists t, t ∈ transactions s' /\ TransactionHash t = "18d6"%string)
    /\ (forall r, r ∈ signature_requests s' -> SignedTransaction r = "18d6"%string ->
          RequestState r <> common.RequestStateInitial)
    /\ (forall i u, utxos fixtures.proposed !! i = Some u ->
          sql.equals (SpentBy u) "18d6" = true ->
          utxos s' !! i
          = Some {| OutputHash := OutputHash u; OutputIndex := OutputIndex u;
                    OutputState := common.RequestStateInitial; SpentBy := sql.null |})
    /\ (forall u, u ∈ utxos s' -> sql.equals (SpentBy u) "18d6" = false).
Proof.
  apply (revoke_fails_transaction_and_releases_utxos fixtures.VerifyMessageSignature
           (fun h => (h ++ "'")%string) fixtures.proposed "holder" "3e37" [x02]
           {| TransactionHash := "18d6"; RequestId := "3e37"; Holder := "holder";
              State := common.RequestStateInitial |});
    reflexivity.
Defined.

(** The revoke scenario of the keeper test: both UTXOs back to Initial,
    the transaction Failed, no signature request left Initial. *)
Example revoke_on_fixtures :
  keeper_revoke.processSafeRevokeTransaction fixtures.VerifyMessageSignature
    (fun h => (h ++ "'")%string) fixtures.proposed "holder" "3e37" [x01]
  = ({| transactions :=
          [ {| TransactionHash := "18d6"; RequestId := "3e37"; Holder := "holder";
               State := common.RequestStateFailed |} ];
        utxos :=
          [ {| OutputHash := "40e2"; OutputIndex := 0;
               OutputState := common.RequestStateInitial; SpentBy := sql.null |};
            {| OutputHash := "851c"; OutputIndex := 0;
               OutputState := common.RequestStateInitial; SpentBy := sql.null |} ];
        signature_requests :=
          [ {| SignedTransaction := "18d6"; InputIndex := 0;
               RequestState := common.RequestStateFailed |} ] |}, true).
Proof. vm_compute. reflexivity. Qed.

(** A signature by neither key: nothing changes. *)
Example revoke_rejected_on_fixtures :
  keeper_revoke.processSafeRevokeTransaction fixtures.VerifyMessageSignature
    (fun h => (h ++ "'")%string) fixtures.proposed "holder" "3e37" [x03]
  = (fixtures.proposed, false).
Proof. vm_compute. reflexivity. Qed.

End revoke_props.

(** ** The price info from the observer to the keeper *)
Module wire_props.

Lemma to_N_byteOf (v : Z) : Z.of_N (Byte.to_N (binary.byteOf v)) = v mod 256.
Proof.
  unfold binary.byteOf.
  assert (Hb : 0 <= v mod 256 < 256) by (apply Z.mod_pos_bound; lia).
  destruct (Byte.of_N (Z.to_N (v mod 256))) as [b|] eqn:Hof.
  - apply Byte.to_of_N in Hof. simpl. rewrite Hof. lia.
  - exfalso. pose proof (Byte.to_of_N_option_map (Z.to_N (v mod 256))) as H.
    rewrite Hof in H. cbn in H.
    destruct (N.leb_spec (Z.to_N (v mod 256)) 255); [discriminate | lia].
Qed.

Lemma Uint64_snoc (l : list byte) (b : byte) :
  binary.Uint64 (l ++ [b]) = binary.Uint64 l * 256 + Z.of_N (Byte.to_N b).
Proof. unfold binary.Uint64. rewrite fold_left_app. reflexivity. Qed.

Lemma Uint64_bigEndian (n : nat) :
  forall v, binary.Uint64 (binary.bigEndian n v) = v mod 256 ^ Z.of_nat n.
Proof.
  induction n as [|n IH]; intros v.
  - cbn. rewrite Z.mod_1_r. reflexivity.
  - cbn [binary.bigEndian]. rewrite Uint64_snoc, IH, to_N_byteOf.
    rewrite Nat2Z.inj_succ, Z.pow_succ_r by lia.
    rewrite Z.rem_mul_r by lia. ring.
Qed.

Lemma bigEndian_length (n : nat) : forall v, length (binary.bigEndian n v) = n.
Proof.
  induction n as [|n IH]; intros v; cbn [binary.bigEndian]; [reflexivity|].
  rewrite length_app, IH. cbn. lia.
Qed.


Lemma slice_app_mid {A : Type} (lo hi : nat) (a b c : list A) :
  length a = lo -> length b = (hi - lo)%nat -> slice lo hi (a ++ b ++ c) = b.
Proof.
  intros <- Hb. unfold slice.
  change (@skipn A) with (@drop A). change (@firstn A) with (@take A).
  rewrite drop_app_length, <- Hb, take_app_length. reflexivity.
Qed.

Lemma slice_app_end {A : Type} (lo hi : nat) (a b : list A) :
  length a = lo -> length b = (hi - lo)%nat -> slice lo hi (a ++ b) = b.
Proof.
  intros Ha Hb. rewrite <- (app_nil_r b) at 1. apply slice_app_mid; assumption.
Qed.

(** The four fields of a price extra are where the keeper reads them. *)
Lemma priceExtra_fields (chain : Z) (u : list byte) (amount minimum : decimal.t) :
  length u = 16%nat ->
  let extra := observer_price.priceExtra chain u amount minimum in
  length extra = 33%nat
  /\ Z.of_N (Byte.to_N (nth 0 extra x00)) = chain mod 256
  /\ slice 1 17 extra = u
  /\ binary.Uint64 (slice 17 25 extra) = decimal.IntPart amount mod 2 ^ 64
  /\ binary.Uint64 (slice 25 33 extra) = decimal.IntPart minimum mod 2 ^ 64.
Proof.
  intros Hu extra. subst extra.
  unfold observer_price.priceExtra, binary.AppendUint64.
  set (a := binary.bigEndian 8 _). set (m := binary.bigEndian 8 _).
  assert (Ha : length a = 8%nat) by apply bigEndian_length.
  assert (Hm : length m = 8%nat) by apply bigEndian_length.
  assert (Hav : binary.Uint64 a = decimal.IntPart amount mod 2 ^ 64).
  { subst a. rewrite Uint64_bigEndian. apply Z.mod_mod. lia. }
  assert (Hmv : binary.Uint64 m = decimal.IntPart minimum mod 2 ^ 64).
  { subst m. rewrite Uint64_bigEndian. apply Z.mod_mod. lia. }
  clearbody a m.
  split; [rewrite !length_app, Ha, Hm, Hu; reflexivity|].
  split; [cbn [app nth]; apply to_N_byteOf|].
  split.
  - rewrite <- !app_assoc. apply (slice_app_mid 1 17 [_] u); [reflexivity | exact Hu].
  - split.
    + rewrite <- Hav. f_equal. rewrite <- app_assoc.
      apply slice_app_mid; [rewrite length_app, Hu; reflexivity | exact Ha].
    + rewrite <- Hmv. f_equal.
      apply slice_app_end; [rewrite !length_app, Hu, Ha; reflexivity | exact Hm].
Qed.

(** A price that passed the observer's checks reads back, scaled by
    [10 ^ -8], as the configured decimal. *)
Lemma scaled_amount_reads_back (d : decimal.t) :
  observer_price.badAmount (decimal.Mul d (decimal.New 1 8)) = false ->
  let n := decimal.IntPart (decimal.Mul d (decimal.New 1 8)) mod 2 ^ 64 in
  0 < n < 2 ^ 63 /\ decimal.Equal (decimal.NewFromBigInt n (-8)) d = true.
Proof.
  unfold observer_price.badAmount. intros H.
  apply orb_false_elim in H as [H Hint64]. apply orb_false_elim in H as [Hsign Hint].
  apply negb_false_iff in Hint64, Hint.
  unfold decimal.IsInt64 in Hint64. apply andb_true_iff in Hint64 as [Hlo Hhi].
  apply Z.leb_le in Hlo. apply Z.ltb_lt in Hhi. apply Z.leb_gt in Hsign.
  set (s := decimal.Mul d (decimal.New 1 8)) in *.
  assert (Hpos : 0 < decimal.BigInt s).
  { unfold decimal.Sign in Hsign. unfold decimal.BigInt.
    assert (Hv : 0 < decimal.value s) by (destruct (decimal.value s); cbn in Hsign; lia).
    destruct (0 <=? decimal.exp s) eqn:He.
    - apply Z.leb_le in He. apply Z.mul_pos_pos; [exact Hv | apply Z.pow_pos_nonneg; lia].
    - unfold decimal.IsInteger in Hint. rewrite He in Hint.
      cbn [orb] in Hint. apply Z.eqb_eq in Hint. apply Z.leb_gt in He.
      assert (Hp : 0 < 10 ^ (- decimal.exp s)) by (apply Z.pow_pos_nonneg; lia).
      pose proof (Z.quot_rem' (decimal.value s) (10 ^ (- decimal.exp s))) as Hqr.
      rewrite Hint in Hqr. nia. }
  cbn zeta.
  assert (Hn : decimal.IntPart s mod 2 ^ 64 = decimal.BigInt s).
  { unfold decimal.IntPart.
    rewrite (Z.mod_small (decimal.BigInt s + 2 ^ 63)) by lia.
    replace (decimal.BigInt s + 2 ^ 63 - 2 ^ 63) with (decimal.BigInt s) by lia.
    apply Z.mod_small. lia. }
  rewrite Hn. split; [lia|].
  unfold decimal.Equal, decimal.NewFromBigInt. cbn [decimal.value decimal.exp].
  apply Z.eqb_eq. unfold decimal.BigInt, decimal.IsInteger in *.
  subst s. unfold decimal.Mul, decimal.New in *. cbn [decimal.value decimal.exp] in *.
  rewrite Z.mul_1_r in *.
  destruct (0 <=? decimal.exp d + 8) eqn:He.
  - apply Z.leb_le in He. rewrite Z.min_l by lia.
    replace (-8 - -8) with 0 by lia. replace (decimal.exp d - -8) with (decimal.exp d + 8) by lia.
    rewrite Z.pow_0_r. ring.
  - cbn [orb] in Hint. apply Z.eqb_eq in Hint. apply Z.leb_gt in He.
    rewrite Z.min_r by lia.
    replace (decimal.exp d - decimal.exp d) with 0 by lia.
    replace (-8 - decimal.exp d) with (- (decimal.exp d + 8)) by lia.
    rewrite Z.pow_0_r.
    pose proof (Z.quot_rem' (decimal.value d) (10 ^ (- (decimal.exp d + 8)))) as Hqr.
    rewrite Hint in Hqr. lia.
Qed.


Section price_info.

Variable W : Type.
Variable bitcoinParams : Z -> option (string * string).
Variable fetchAssetMeta : W -> string -> W * (option observer_price.Asset * error).
Variable PriceAssetId : string.
Variables PriceAmount TransactionMinimum : option decimal.t.
Variable ValueDust : Z.
Variable bitcoinDummyHolder : string.
Variable UniqueConversationID : string -> string -> string.
Variable decimal_String : decimal.t -> string.
Variable uuid_FromString : string -> option (list byte).
Variable ActionObserverSetAccountPlan : Z.
Variable sendBitcoinKeeperResponse :
  W -> string -> Z -> Z -> string -> list byte -> W * error.

(** The keeper that receives the response. *)
Variable K : Type.
Variables SafeChainBitcoin SafeChainLitecoin SafeChainEthereum SafeChainPolygon : Z.
Variable SafeCurveChain : Z -> Z.
Variable failRequest :
  K -> common.Request -> string -> outcome (K * (list mtg.Transaction * string)).
Variable WriteOperationParamsFromRequest :
  K -> OperationParams.t -> common.Request -> K * error.
Variable WriteAccountPlanFromRequest :
  store.Store -> Z -> string -> decimal.t -> decimal.t -> common.Request -> store.Store * error.

Abbreviation sendBitcoinPriceInfo :=
  (observer_price.sendBitcoinPriceInfo W bitcoinParams fetchAssetMeta PriceAssetId
     PriceAmount TransactionMinimum ValueDust bitcoinDummyHolder UniqueConversationID
     decimal_String uuid_FromString ActionObserverSetAccountPlan sendBitcoinKeeperResponse).
Abbreviation writeOperationParams :=
  (keeper_params.writeOperationParams K SafeChainBitcoin SafeChainLitecoin
     SafeChainEthereum SafeChainPolygon SafeCurveChain failRequest
     WriteOperationParamsFromRequest).
Abbreviation writeAccountPlan :=
  (keeper_params.writeAccountPlan SafeChainBitcoin SafeChainEthereum
     WriteAccountPlanFromRequest).

(** The price info the observer sends at boot reaches the keeper whole:
    when the configured price and minimum pass the observer's checks,
    the response carries an extra of 33 bytes whose price and minimum
    are positive int64 numbers, and a keeper handling a request with
    that extra hands its store the chain, the asset id and decimals
    equal to the configured ones. *)
Theorem price_info_reaches_the_keeper (w w1 : W) (chain : Z) (url assetId : string)
  (asset : observer_price.Asset) (amount minimum : decimal.t) (u : list byte) :
  bitcoinParams chain = Some (url, assetId) ->
  fetchAssetMeta w PriceAssetId = (w1, (Some asset, None)) ->
  PriceAmount = Some amount ->
  TransactionMinimum = Some minimum ->
  observer_price.badAmount (decimal.Mul amount (decimal.New 1 8)) = false ->
  observer_price.badAmount (decimal.Mul minimum (decimal.New 1 8)) = false ->
  ValueDust <= decimal.IntPart (decimal.Mul minimum (decimal.New 1 8)) ->
  uuid_FromString (observer_price.AssetId asset) = Some u ->
  length u = 16%nat ->
  0 <= chain < 256 ->
  exists id extra,
    sendBitcoinPriceInfo w chain
    = (let '(w2, err) :=
         sendBitcoinKeeperResponse w1 bitcoinDummyHolder ActionObserverSetAccountPlan
           chain id extra in
       (w2, Return err))
    /\ length extra = 33%nat
    /\ forall req,
         common.Role_ req = common.RequestRoleObserver ->
         common.ExtraBytes req = extra ->
         let params := keeper_params.decodeParams req in
         OperationParams.Chain params = chain
         /\ OperationParams.OperationPriceAsset params = uuid.String_ u
         /\ 0 < decimal.value (OperationParams.OperationPriceAmount params) < 2 ^ 63
         /\ decimal.Equal (OperationParams.OperationPriceAmount params) amount = true
         /\ decimal.Equal (OperationParams.TransactionMinimum params) minimum = true
         /\ (forall k,
               SafeCurveChain (common.Curve req) = chain ->
               (chain =? SafeChainBitcoin) || (chain =? SafeChainLitecoin)
                 || (chain =? SafeChainEthereum) || (chain =? SafeChainPolygon) = true ->
               writeOperationParams k req
               = match WriteOperationParamsFromRequest k params req with
                 | (_, Some err) => Panics err
                 | (k', None) => Returns (k', ([], EmptyString))
                 end)
         /\ (forall s,
               (chain =? SafeChainBitcoin) || (chain =? SafeChainEthereum) = true ->
               writeAccountPlan s req
               = Returns (WriteAccountPlanFromRequest s chain
                            (OperationParams.OperationPriceAsset params)
                            (OperationParams.OperationPriceAmount params)
                            (OperationParams.TransactionMinimum params) req)).
Proof.
  intros Hparams Hfetch Hamount Hminimum Hbad1 Hbad2 Hdust Huuid Hu Hchain.
  eexists _, _. split; [|split].
  - unfold observer_price.sendBitcoinPriceInfo.
    rewrite Hparams, Hfetch, Hamount, Hminimum, Hbad1, Hbad2, Huuid.
    destruct (Z.ltb_spec (decimal.IntPart (decimal.Mul minimum (decimal.New 1 8))) ValueDust);
      [lia | reflexivity].
  - apply (priceExtra_fields chain u _ _ Hu).
  - intros req Hrole Hextra params.
    destruct (priceExtra_fields chain u (decimal.Mul amount (decimal.New 1 8))
                (decimal.Mul minimum (decimal.New 1 8)) Hu)
      as (Hlen & Hc & Hasset & Ha & Hm).
    rewrite <- Hextra in Hlen, Hc, Hasset, Ha, Hm.
    rewrite Z.mod_small in Hc by exact Hchain.
    destruct (scaled_amount_reads_back amount Hbad1) as [Hrange Heq1].
    destruct (scaled_amount_reads_back minimum Hbad2) as [_ Heq2].
    subst params. unfold keeper_params.decodeParams.
    cbn [OperationParams.Chain OperationParams.OperationPriceAsset
         OperationParams.OperationPriceAmount OperationParams.TransactionMinimum].
    rewrite Hc, Hasset, Ha, Hm.
    split; [reflexivity|]. split; [reflexivity|].
    split; [exact Hrange|]. split; [exact Heq1|]. split; [exact Heq2|]. split.
    + intros k Hcurve Hfour. unfold keeper_params.writeOperationParams.
      rewrite Hrole, Hlen, Hc, Hcurve, Z.eqb_refl, Hfour. cbn [common.Role_eqb negb Nat.eqb].
      unfold keeper_params.decodeParams. rewrite Hc, Hasset, Ha, Hm. reflexivity.
    + intros s Htwo. unfold keeper_params.writeAccountPlan.
      rewrite Hrole, Hlen, Hc, Htwo, Hasset, Ha, Hm. reflexivity.
Qed.

End price_info.

End wire_props.

(** ** The network-info handler: what is stored, and when *)
Module keeper_record_props.
Section network.

Variables SafeChainBitcoin SafeChainLitecoin SafeChainEthereum SafeChainPolygon : Z.
Variable SafeCurveChain : Z -> Z.
Variables BitcoinRPC LitecoinRPC EthereumRPC PolygonRPC : string.
Variable bitcoin_RPCGetBlock : rpc.GetBlock.
Variable ethereum_RPCGetBlock : rpc.GetBlock.

Abbreviation verifyBitcoinNetworkInfo :=
  (keeper.verifyBitcoinNetworkInfo SafeChainBitcoin SafeChainLitecoin
     BitcoinRPC LitecoinRPC bitcoin_RPCGetBlock).
Abbreviation verifyEthereumNetworkInfo :=
  (keeper.verifyEthereumNetworkInfo SafeChainEthereum SafeChainPolygon
     EthereumRPC PolygonRPC ethereum_RPCGetBlock).
Abbreviation writeNetworkInfo :=
  (keeper.writeNetworkInfo SafeChainBitcoin SafeChainLitecoin SafeChainEthereum
     SafeChainPolygon SafeCurveChain BitcoinRPC LitecoinRPC EthereumRPC PolygonRPC
     bitcoin_RPCGetBlock ethereum_RPCGetBlock).

(** The record a Bitcoin-family request carries. *)
Abbreviation bitcoinRecord req :=
  (keeper_v1.withHash (keeper_v1.decodeInfo req)
     (hex.EncodeToString (slice_from 17 (common.ExtraBytes req)))).

(** A fresh Bitcoin-family request from the observer goes to the
    Bitcoin verifier, and the verifier's answer decides. *)
Lemma writeNetworkInfo_bitcoin_family (s : store.Store) (req : common.Request) :
  common.Role_ req = common.RequestRoleObserver ->
  (17 <= length (common.ExtraBytes req))%nat ->
  keeper_record.fresh s req ->
  store.Chain (keeper_v1.decodeInfo req) = SafeCurveChain (common.Curve req) ->
  (store.Chain (keeper_v1.decodeInfo req) =? SafeChainBitcoin)
    || (store.Chain (keeper_v1.decodeInfo req) =? SafeChainLitecoin) = true ->
  writeNetworkInfo s req
  = keeper.afterVerify s req (bitcoinRecord req)
      (verifyBitcoinNetworkInfo (bitcoinRecord req)
         (store.ReadLatestNetworkInfo s (store.Chain (keeper_v1.decodeInfo req)))).
Proof.
  intros Hrole Hlen Hfresh Hcurve Hfamily. unfold keeper.writeNetworkInfo.
  rewrite Hrole. cbn [common.Role_eqb negb].
  destruct (Nat.ltb_spec (length (common.ExtraBytes req)) 17) as [Hshort|_]; [lia|].
  assert (Hstale :
    match store.ReadLatestNetworkInfo s (store.Chain (keeper_v1.decodeInfo req)) with
    | Some o => String.eqb (store.RequestId o) (common.Id req)
                || (store.Height o >? store.Height (keeper_v1.decodeInfo req))
    | None => false
    end = false).
  { destruct (store.ReadLatestNetworkInfo s _) as [o|] eqn:Hold; [|reflexivity].
    destruct (Hfresh o Hold) as [Hid Hle].
    apply orb_false_intro; [apply String.eqb_neq; exact Hid|].
    rewrite Z.gtb_ltb. apply Z.ltb_ge. exact Hle. }
  rewrite Hstale, <- Hcurve, Z.eqb_refl, Hfamily. reflexivity.
Qed.

Lemma string_length_app (a b : string) :
  String.length (a ++ b) = (String.length a + String.length b)%nat.
Proof. induction a as [|c a IH]; simpl; [reflexivity | f_equal; exact IH]. Qed.

Lemma bitcoinRecord_hash_length (req : common.Request) :
  String.length (store.Hash (bitcoinRecord req)) = 64%nat
  <-> length (common.ExtraBytes req) = 49%nat.
Proof.
  cbn [keeper_v1.withHash store.Hash]. rewrite EncodeToString_length.
  unfold slice_from. rewrite length_skipn. lia.
Qed.

Lemma bitcoinParams_family (chain : Z) :
  (chain =? SafeChainBitcoin) || (chain =? SafeChainLitecoin) = true ->
  keeper.bitcoinParams SafeChainBitcoin SafeChainLitecoin BitcoinRPC LitecoinRPC chain
  = Returns (if chain =? SafeChainBitcoin then BitcoinRPC else LitecoinRPC).
Proof.
  unfold keeper.bitcoinParams. intros H.
  destruct (chain =? SafeChainBitcoin); [reflexivity|].
  cbn [orb] in H. rewrite H. reflexivity.
Qed.

(** A new Bitcoin or Litecoin block is stored: a fresh request from the
    observer with a 32-byte hash other than the stored one, which the
    chain's RPC reports at the pushed height and not orphaned, and a fee
    rate from 1 to 1000, is written as the latest record, and no
    transaction is emitted. *)
Theorem writeNetworkInfo_stores_new_block (s : store.Store) (req : common.Request)
  (block : rpc.Block) :
  common.Role_ req = common.RequestRoleObserver ->
  length (common.ExtraBytes req) = 49%nat ->
  keeper_record.fresh s req ->
  store.Chain (keeper_v1.decodeInfo req) = SafeCurveChain (common.Curve req) ->
  (store.Chain (keeper_v1.decodeInfo req) =? SafeChainBitcoin)
    || (store.Chain (keeper_v1.decodeInfo req) =? SafeChainLitecoin) = true ->
  keeper.sameHash (bitcoinRecord req)
    (store.ReadLatestNetworkInfo s (store.Chain (keeper_v1.decodeInfo req))) = false ->
  bitcoin_RPCGetBlock
    (if store.Chain (keeper_v1.decodeInfo req) =? SafeChainBitcoin
     then BitcoinRPC else LitecoinRPC)
    (store.Hash (bitcoinRecord req)) = (Some block, None) ->
  rpc.Height block = store.Height (keeper_v1.decodeInfo req) ->
  rpc.Confirmations block <> -1 ->
  1 <= store.Fee (keeper_v1.decodeInfo req) <= 1000 ->
  writeNetworkInfo s req
  = Returns (store.WriteNetworkInfoFromRequest s (bitcoinRecord req), ([], EmptyString))
  /\ store.ReadLatestNetworkInfo
       (store.WriteNetworkInfoFromRequest s (bitcoinRecord req))
       (store.Chain (keeper_v1.decodeInfo req)) = Some (bitcoinRecord req).
Proof.
  intros Hrole Hlen Hfresh Hcurve Hfamily Hother Hrpc Hheight Hconf Hfee.
  split.
  - rewrite writeNetworkInfo_bitcoin_family by (first [assumption | lia]).
    unfold keeper.verifyBitcoinNetworkInfo.
    rewrite (proj2 (bitcoinRecord_hash_length req) Hlen), Hother.
    cbn [Nat.eqb negb].
    change (store.Chain (bitcoinRecord req)) with (store.Chain (keeper_v1.decodeInfo req)).
    rewrite (bitcoinParams_family _ Hfamily), Hrpc.
    change (store.Height (bitcoinRecord req)) with (store.Height (keeper_v1.decodeInfo req)).
    rewrite Hheight, Z.eqb_refl. cbn [negb].
    destruct (Z.eqb_spec (rpc.Confirmations block) (-1)) as [|_]; [contradiction|].
    replace (keeper.feeCheck (bitcoinRecord req)) with (true, @None string); [reflexivity|].
    symmetry. apply keeper_props.feeCheck_spec. exact Hfee.
  - unfold store.ReadLatestNetworkInfo, store.WriteNetworkInfoFromRequest.
    cbn [store.network_infos List.find keeper_v1.withHash store.Chain].
    rewrite Z.eqb_refl. reflexivity.
Qed.

(** Re-affirmation needs no RPC: a fresh request that repeats the stored
    hash at the stored height, with a fee rate from 1 to 1000, is stored
    whatever the RPC would answer. *)
Theorem writeNetworkInfo_reaffirms_without_rpc (s : store.Store) (req : common.Request)
  (old : store.NetworkInfo) :
  common.Role_ req = common.RequestRoleObserver ->
  length (common.ExtraBytes req) = 49%nat ->
  store.Chain (keeper_v1.decodeInfo req) = SafeCurveChain (common.Curve req) ->
  (store.Chain (keeper_v1.decodeInfo req) =? SafeChainBitcoin)
    || (store.Chain (keeper_v1.decodeInfo req) =? SafeChainLitecoin) = true ->
  store.ReadLatestNetworkInfo s (store.Chain (keeper_v1.decodeInfo req)) = Some old ->
  store.RequestId old <> common.Id req ->
  store.Hash old = store.Hash (bitcoinRecord req) ->
  store.Height old = store.Height (keeper_v1.decodeInfo req) ->
  1 <= store.Fee (keeper_v1.decodeInfo req) <= 1000 ->
  writeNetworkInfo s req
  = Returns (store.WriteNetworkInfoFromRequest s (bitcoinRecord req), ([], EmptyString)).
Proof.
  intros Hrole Hlen Hcurve Hfamily Hold Hid Hhash Hheight Hfee.
  rewrite writeNetworkInfo_bitcoin_family; try assumption; try lia.
  - unfold keeper.verifyBitcoinNetworkInfo.
    rewrite (proj2 (bitcoinRecord_hash_length req) Hlen), Hold.
    cbn [Nat.eqb negb keeper.sameHash keeper.oldHeight].
    rewrite Hhash, String.eqb_refl.
    change (store.Height (bitcoinRecord req)) with (store.Height (keeper_v1.decodeInfo req)).
    rewrite Hheight, Z.eqb_refl. cbn [negb].
    replace (keeper.feeCheck (bitcoinRecord req)) with (true, @None string); [reflexivity|].
    symmetry. apply keeper_props.feeCheck_spec. exact Hfee.
  - intros o Ho. rewrite Hold in Ho. injection Ho as <-. split; [exact Hid | lia].
Qed.

(** The keeper stops on a block it cannot confirm: for a fresh Bitcoin
    or Litecoin request with a 32-byte hash other than the stored one,
    an RPC that fails, knows no such block, reports it at another
    height or reports it orphaned makes the handler panic. *)
Theorem writeNetworkInfo_panics_on_unconfirmed_block (s : store.Store)
  (req : common.Request) :
  common.Role_ req = common.RequestRoleObserver ->
  length (common.ExtraBytes req) = 49%nat ->
  keeper_record.fresh s req ->
  store.Chain (keeper_v1.decodeInfo req) = SafeCurveChain (common.Curve req) ->
  (store.Chain (keeper_v1.decodeInfo req) =? SafeChainBitcoin)
    || (store.Chain (keeper_v1.decodeInfo req) =? SafeChainLitecoin) = true ->
  keeper.sameHash (bitcoinRecord req)
    (store.ReadLatestNetworkInfo s (store.Chain (keeper_v1.decodeInfo req))) = false ->
  match bitcoin_RPCGetBlock
          (if store.Chain (keeper_v1.decodeInfo req) =? SafeChainBitcoin
           then BitcoinRPC else LitecoinRPC)
          (store.Hash (bitcoinRecord req)) with
  | (Some block, None) =>
      rpc.Height block <> store.Height (keeper_v1.decodeInfo req)
      \/ rpc.Confirmations block = -1
  | _ => True
  end ->
  exists why, writeNetworkInfo s req = Panics why.
Proof.
  intros Hrole Hlen Hfresh Hcurve Hfamily Hother Hrpc.
  rewrite writeNetworkInfo_bitcoin_family by (first [assumption | lia]).
  unfold keeper.verifyBitcoinNetworkInfo.
  rewrite (proj2 (bitcoinRecord_hash_length req) Hlen), Hother.
  cbn [Nat.eqb negb].
  change (store.Chain (bitcoinRecord req)) with (store.Chain (keeper_v1.decodeInfo req)).
  rewrite (bitcoinParams_family _ Hfamily).
  change (store.Height (bitcoinRecord req)) with (store.Height (keeper_v1.decodeInfo req)).
  destruct (bitcoin_RPCGetBlock _ _) as [[block|] [e|]]; cbn [keeper.afterVerify];
    try (eexists; reflexivity).
  destruct (Z.eqb_spec (rpc.Height block) (store.Height (keeper_v1.decodeInfo req)))
    as [Heq|Hne]; cbn [negb keeper.afterVerify]; [|eexists; reflexivity].
  destruct Hrpc as [Hne|Horphan]; [contradiction|].
  rewrite Horphan. cbn. eexists; reflexivity.
Qed.

(** Whatever is stored is the request's own record with a 32-byte block
    hash: the extra has 49 bytes, chain, fee and height are the ones at
    its fixed offsets, the hash is the hex of its last 32 bytes (with 0x
    in front on Ethereum and Polygon), and the chain is the one of the
    request's curve. *)
Theorem writeNetworkInfo_stored_record (s : store.Store) (req : common.Request)
  (s' : store.Store) (out : list mtg.Transaction * string) :
  writeNetworkInfo s req = Returns (s', out) ->
  store.network_infos s' <> store.network_infos s ->
  length (common.ExtraBytes req) = 49%nat
  /\ store.Chain (keeper_v1.decodeInfo req) = SafeCurveChain (common.Curve req)
  /\ out = ([], EmptyString)
  /\ exists prefix,
       s' = store.WriteNetworkInfoFromRequest s
              (keeper_v1.withHash (keeper_v1.decodeInfo req)
                 (prefix ++ hex.EncodeToString (slice_from 17 (common.ExtraBytes req))))
       /\ ((prefix = EmptyString
            /\ (store.Chain (keeper_v1.decodeInfo req) =? SafeChainBitcoin)
                 || (store.Chain (keeper_v1.decodeInfo req) =? SafeChainLitecoin) = true)
           \/ (prefix = "0x"%string
               /\ (store.Chain (keeper_v1.decodeInfo req) =? SafeChainEthereum)
                    || (store.Chain (keeper_v1.decodeInfo req) =? SafeChainPolygon) = true)).
Proof.
  unfold keeper.writeNetworkInfo, keeper.failRequest.
  destruct (negb (common.Role_eqb _ _)); [discriminate|].
  assert (Hfail : forall asset,
            Returns (store.FailRequest s (common.Id req), (@nil mtg.Transaction, asset))
            = Returns (s', out) ->
            store.network_infos s' <> store.network_infos s -> False).
  { intros asset H Hne. injection H as <- _. apply Hne. reflexivity. }
  destruct (_ <? 17)%nat; [intros H Hne; destruct (Hfail _ H Hne)|].
  destruct (match store.ReadLatestNetworkInfo s _ with Some _ => _ | None => false end);
    [intros H Hne; destruct (Hfail _ H Hne)|].
  destruct (Z.eqb_spec (store.Chain (keeper_v1.decodeInfo req))
              (SafeCurveChain (common.Curve req))) as [Hcurve|]; [|discriminate].
  cbn [negb].
  destruct ((store.Chain (keeper_v1.decodeInfo req) =? SafeChainBitcoin) || _) eqn:Hfamily.
  - destruct (verifyBitcoinNetworkInfo _ _) as [[[|] [e|]]|] eqn:Hv;
      cbn [keeper.afterVerify keeper.failRequest]; try discriminate;
      [|intros H Hne; destruct (Hfail _ H Hne)].
    intros H _. injection H as <- <-.
    apply keeper_props.verifyBitcoinNetworkInfo_true in Hv as (_ & Hlen & _).
    apply bitcoinRecord_hash_length in Hlen.
    split; [exact Hlen|]. split; [exact Hcurve|]. split; [reflexivity|].
    exists EmptyString. split; [reflexivity|]. left. split; reflexivity.
  - destruct ((store.Chain (keeper_v1.decodeInfo req) =? SafeChainEthereum) || _) eqn:Heth;
      [|intros H Hne; destruct (Hfail _ H Hne)].
    destruct (verifyEthereumNetworkInfo _ _) as [[[|] [e|]]|] eqn:Hv;
      cbn [keeper.afterVerify keeper.failRequest]; try discriminate;
      [|intros H Hne; destruct (Hfail _ H Hne)].
    intros H _. injection H as <- <-.
    assert (Hlen : length (common.ExtraBytes req) = 49%nat).
    { unfold keeper.verifyEthereumNetworkInfo in Hv.
      destruct (Nat.eqb_spec (String.length (store.Hash (keeper_v1.withHash
                  (keeper_v1.decodeInfo req)
                  ("0x" ++ hex.EncodeToString (slice_from 17 (common.ExtraBytes req)))))) 66)
        as [Hlen|]; [|discriminate].
      cbn [keeper_v1.withHash store.Hash] in Hlen.
      rewrite string_length_app, EncodeToString_length in Hlen. cbn [String.length] in Hlen. unfold slice_from in Hlen.
      rewrite length_skipn in Hlen. lia. }
    split; [exact Hlen|]. split; [exact Hcurve|]. split; [reflexivity|].
    exists "0x"%string. split; [reflexivity|]. right. split; reflexivity.
Qed.

End network.
End keeper_record_props.

(** ** The keeper's [requests] table *)
Module request_store_props.
Import request_store.

Lemma find_app_l {A : Type} (p : A -> bool) (l l' : list A) (x : A) :
  List.find p l = Some x -> List.find p (l ++ l') = Some x.
Proof.
  induction l as [|y l IH]; cbn [List.find app]; [discriminate|].
  destruct (p y); [tauto | exact IH].
Qed.

Lemma find_app_r {A : Type} (p : A -> bool) (l l' : list A) :
  List.find p l = None -> List.find p (l ++ l') = List.find p l'.
Proof.
  induction l as [|y l IH]; cbn [List.find app]; [reflexivity|].
  destruct (p y); [discriminate | exact IH].
Qed.

Lemma find_existsb {A : Type} (p : A -> bool) (l : list A) :
  existsb p l = false <-> List.find p l = None.
Proof.
  induction l as [|y l IH]; cbn [List.find existsb]; [tauto|].
  destruct (p y); cbn [orb]; [split; discriminate | exact IH].
Qed.

Lemma filter_none {A : Type} (p : A -> bool) (l : list A) :
  (forall x, In x l -> p x = false) -> List.filter p l = [].
Proof.
  induction l as [|y l IH]; intros H; cbn [List.filter]; [reflexivity|].
  rewrite (H y (or_introl eq_refl)). apply IH. intros x Hx. apply H. right. exact Hx.
Qed.

Lemma hasId_eq (id : string) (r : Row) : hasId id r = true <-> Id (fst r) = id.
Proof. unfold hasId. apply String.eqb_eq. Qed.

(** [WriteRequestIfNotExist] is first-write-wins, and what it wrote
    reads back: a call that returns has a request with a state and a
    role, returns nil, leaves the table as it is when the id is there,
    and afterwards [ReadRequest] of the id gives the request stored
    first (this one, if the id was new); other ids read as before. *)
Theorem WriteRequestIfNotExist_then_ReadRequest (rows rows' : table) (req : Request)
  (err : error) :
  WriteRequestIfNotExist rows req = Returns (rows', err) ->
  err = None
  /\ State req <> 0 /\ Role req <> 0
  /\ fst (ReadRequest rows' (Id req))
     = Some (default req (fst (ReadRequest rows (Id req))))
  /\ (is_Some (fst (ReadRequest rows (Id req))) -> rows' = rows)
  /\ (forall id, id <> Id req -> ReadRequest rows' id = ReadRequest rows id).
Proof.
  unfold WriteRequestIfNotExist, ReadRequest. cbn [fst].
  destruct (Z.eqb_spec (State req) 0) as [|Hstate]; [discriminate|].
  destruct (Z.eqb_spec (Role req) 0) as [|Hrole]; [discriminate|]. cbn [orb].
  destruct (existsb (hasId (Id req)) rows) eqn:Hex; intros H; injection H as <- <-.
  - split; [reflexivity|]. split; [exact Hstate|]. split; [exact Hrole|].
    destruct (List.find (hasId (Id req)) rows) as [r|] eqn:Hfind.
    + cbn. auto.
    + apply find_existsb in Hfind. congruence.
  - apply find_existsb in Hex.
    split; [reflexivity|]. split; [exact Hstate|]. split; [exact Hrole|].
    rewrite (find_app_r _ _ _ Hex), Hex. cbn [List.find].
    unfold hasId at 1. cbn [fst]. rewrite String.eqb_refl. cbn.
    split; [reflexivity|]. split.
    + intros [x Hx]. discriminate.
    + intros id Hne. f_equal. f_equal.
      destruct (List.find (hasId id) rows) as [r|] eqn:Hfind.
      * apply (find_app_l _ _ _ _ Hfind).
      * rewrite (find_app_r _ _ _ Hfind). cbn [List.find]. unfold hasId. cbn [fst].
        destruct (String.eqb_spec (Id req) id); [congruence | reflexivity].
Qed.

(** *** One row per id *)

Lemma filter_hasId_NoDup (rows : table) (id : string) :
  NoDup (ids rows) ->
  List.filter (hasId id) rows
  = match List.find (hasId id) rows with Some r => [r] | None => [] end.
Proof.
  induction rows as [|r rows IH]; intros Hnd; cbn [List.filter List.find]; [reflexivity|].
  unfold ids in Hnd. cbn [List.map] in Hnd. apply NoDup_cons in Hnd as [Hnotin Hnd].
  destruct (hasId id r) eqn:Hr.
  - f_equal. apply hasId_eq in Hr.
    assert (Hnone : List.filter (hasId id) rows = []).
    { apply filter_none. intros x Hx.
      destruct (hasId id x) eqn:Hhas; [|reflexivity].
      apply hasId_eq in Hhas. exfalso. apply Hnotin. rewrite Hr, <- Hhas.
      apply list_elem_of_In. apply (in_map (fun r : Row => Id (fst r)) rows x Hx). }
    exact Hnone.
  - apply IH. exact Hnd.
Qed.

Lemma ids_map_keep (rows : table) (f : Row -> Row) :
  (forall r, Id (fst (f r)) = Id (fst r)) -> ids (List.map f rows) = ids rows.
Proof.
  intros Hf. unfold ids. rewrite List.map_map. apply List.map_ext. exact Hf.
Qed.

Lemma FinishRequest_ids (rows : table) (id : string) (now : Z) :
  ids (fst (FinishRequest rows id now)) = ids rows.
Proof.
  unfold FinishRequest. destruct (_ =? 1)%nat; cbn [fst]; [|reflexivity].
  apply ids_map_keep. intros r. destruct (hasId id r && isInitial r); reflexivity.
Qed.

Lemma WriteRequestIfNotExist_ids (rows rows' : table) (req : Request) (err : error) :
  NoDup (ids rows) ->
  WriteRequestIfNotExist rows req = Returns (rows', err) ->
  NoDup (ids rows').
Proof.
  unfold WriteRequestIfNotExist. intros Hnd.
  destruct ((State req =? 0) || (Role req =? 0)); [discriminate|].
  destruct (existsb (hasId (Id req)) rows) eqn:Hex; intros H; injection H as <- <-;
    [exact Hnd|].
  unfold ids. rewrite List.map_app. cbn [List.map fst].
  apply NoDup_app. split; [exact Hnd|]. split; [|apply NoDup_singleton].
  intros x Hx Hin. apply list_elem_of_singleton in Hin. subst x.
  apply list_elem_of_In, in_map_iff in Hx as (r & Hr & Hin).
  assert (Hhas : existsb (hasId (Id req)) rows = true).
  { apply existsb_exists. exists r. split; [exact Hin | apply hasId_eq; exact Hr]. }
  congruence.
Qed.

Lemma after_ids_NoDup (rows : table) (c : call) :
  NoDup (ids rows) -> NoDup (ids (after rows c)).
Proof.
  intros Hnd. destruct c as [req|id now]; cbn [after].
  - destruct (WriteRequestIfNotExist rows req) as [[rows' err]|why] eqn:Hw; [|exact Hnd].
    apply (WriteRequestIfNotExist_ids _ _ _ _ Hnd Hw).
  - rewrite FinishRequest_ids. exact Hnd.
Qed.

Lemma find_map_keep (rows : table) (f : Row -> Row) (id : string) :
  (forall r, Id (fst (f r)) = Id (fst r)) ->
  List.find (hasId id) (List.map f rows) = f <$> List.find (hasId id) rows.
Proof.
  intros Hf. induction rows as [|r rows IH]; cbn [List.map List.find]; [reflexivity|].
  unfold hasId at 1 3. rewrite Hf.
  destruct (String.eqb (Id (fst r)) id); [reflexivity | exact IH].
Qed.

(** A request is finished once: on a table with one row per id, a
    [FinishRequest] that returns nil found the request [Initial] and
    leaves it [Done] with every other request as it was; finishing it
    again is an error that changes nothing, and it is never again the
    pending request. *)
Theorem FinishRequest_finishes_once (rows rows' : table) (id : string) (now : Z) :
  NoDup (ids rows) ->
  FinishRequest rows id now = (rows', None) ->
  exists r,
    fst (ReadRequest rows id) = Some r
    /\ State r = common.RequestStateInitial
    /\ fst (ReadRequest rows' id) = Some (withState common.RequestStateDone r)
    /\ (forall id', id' <> id -> ReadRequest rows' id' = ReadRequest rows id')
    /\ (forall now', FinishRequest rows' id now' = (rows', Some "UPDATE requests"%string))
    /\ (forall r', fst (ReadPendingRequest rows') = Some r' -> Id r' <> id).
Proof.
  intros Hnd. unfold FinishRequest.
  destruct (Nat.eqb_spec (length (List.filter (fun r => hasId id r && isInitial r) rows)) 1)
    as [Hone|]; [|discriminate].
  intros H. injection H as <-.
  set (f := fun r : Row => if hasId id r && isInitial r
                           then (withState common.RequestStateDone (fst r), now) else r).
  assert (Hf : forall r, Id (fst (f r)) = Id (fst r)).
  { intros r. unfold f. destruct (hasId id r && isInitial r); reflexivity. }
  assert (Hnone : forall x, In x (List.map f rows) -> hasId id x && isInitial x = false).
  { intros x Hx. apply in_map_iff in Hx as (r & <- & _). unfold f.
    destruct (hasId id r && isInitial r) eqn:Hr; [|exact Hr].
    unfold isInitial. cbn. apply andb_false_r. }
  assert (Hfilter : List.filter (fun r => hasId id r && isInitial r) (List.map f rows) = []).
  { apply filter_none. exact Hnone. }
  assert (Hsplit : List.filter (fun r => hasId id r && isInitial r) rows
                   = List.filter isInitial (List.filter (hasId id) rows)).
  { clear. induction rows as [|r rows IH]; cbn [List.filter]; [reflexivity|].
    destruct (hasId id r); cbn [andb List.filter]; [|exact IH].
    destruct (isInitial r); [f_equal|]; exact IH. }
  rewrite Hsplit, (filter_hasId_NoDup _ _ Hnd) in Hone.
  destruct (List.find (hasId id) rows) as [[r u]|] eqn:Hfind; [|discriminate].
  cbn [List.filter] in Hone.
  destruct (isInitial (r, u)) eqn:Hinit; [|discriminate].
  exists r. unfold ReadRequest. cbn [fst].
  split; [rewrite Hfind; reflexivity|].
  split; [apply Z.eqb_eq; exact Hinit|].
  split.
  { rewrite (find_map_keep _ _ _ Hf), Hfind. cbn. unfold f.
    apply List.find_some in Hfind as [_ Hhas]. rewrite Hhas, Hinit. reflexivity. }
  split.
  { intros id' Hne. f_equal. rewrite (find_map_keep _ _ _ Hf).
    destruct (List.find (hasId id') rows) as [[r1 u1]|] eqn:Hfind'; [|reflexivity].
    cbn. f_equal. unfold f.
    apply List.find_some in Hfind' as [_ Hhas']. apply hasId_eq in Hhas'. cbn [fst] in Hhas'.
    destruct (hasId id (r1, u1)) eqn:Hh; [|reflexivity].
    apply hasId_eq in Hh. cbn [fst] in Hh. congruence. }
  split.
  { intros now'. fold f. rewrite Hfilter. reflexivity. }
  intros r' Hpending Hid.
  unfold ReadPendingRequest in Hpending. cbn [fst] in Hpending.
  destruct (oldest (List.filter isInitial (List.map f rows))) as [[r2 u2]|] eqn:Hold;
    [|discriminate].
  cbn in Hpending. injection Hpending as ->.
  assert (Hin : In (r', u2) (List.filter isInitial (List.map f rows))).
  { clear -Hold. revert Hold. generalize (List.filter isInitial (List.map f rows)).
    intros l. revert r' u2. induction l as [|x l IH]; intros r' u2; cbn [oldest]; [discriminate|].
    destruct (oldest l) as [y|] eqn:Hy.
    - destruct (_ <? _); intros H; injection H as <-.
      + right. destruct y. apply IH. reflexivity.
      + left. reflexivity.
    - intros H. injection H as <-. left. reflexivity. }
  apply List.filter_In in Hin as [Hin Hinit'].
  pose proof (Hnone _ Hin) as Hno. rewrite Hinit', andb_true_r in Hno.
  apply (f_equal negb) in Hno. cbn in Hno.
  apply negb_true_iff in Hno. unfold hasId in Hno. cbn [fst] in Hno.
  apply String.eqb_neq in Hno. contradiction.
Qed.

(** *** The pending request *)

Lemma oldest_spec (l : table) :
  match oldest l with
  | Some r => In r l /\ forall r', In r' l -> CreatedAt (fst r) <= CreatedAt (fst r')
  | None => l = []
  end.
Proof.
  induction l as [|x l IH]; cbn [oldest]; [reflexivity|].
  destruct (oldest l) as [y|].
  - destruct IH as [Hin Hmin].
    destruct (Z.ltb_spec (CreatedAt (fst y)) (CreatedAt (fst x))) as [Hlt|Hge].
    + split; [right; exact Hin|]. intros r' [<-|Hr']; [lia | apply Hmin; exact Hr'].
    + split; [left; reflexivity|]. intros r' [<-|Hr']; [lia|].
      specialize (Hmin r' Hr'). lia.
  - subst l. split; [left; reflexivity|]. intros r' [<-|[]]. lia.
Qed.

(** The pending request is the oldest [Initial] one: [ReadPendingRequest]
    returns a stored request in state [Initial] that no other [Initial]
    request precedes in [created_at], and nil exactly when no request
    is [Initial]. *)
Theorem ReadPendingRequest_oldest_initial (rows : table) :
  match fst (ReadPendingRequest rows) with
  | Some r =>
      State r = common.RequestStateInitial
      /\ (exists u, In (r, u) rows)
      /\ forall r' u', In (r', u') rows -> State r' = common.RequestStateInitial ->
           CreatedAt r <= CreatedAt r'
  | None => forall r' u', In (r', u') rows -> State r' <> common.RequestStateInitial
  end.
Proof.
  unfold ReadPendingRequest. cbn [fst].
  pose proof (oldest_spec (List.filter isInitial rows)) as H.
  destruct (oldest (List.filter isInitial rows)) as [[r u]|]; cbn.
  - destruct H as [Hin Hmin]. apply List.filter_In in Hin as [Hin Hinit].
    split; [apply Z.eqb_eq; exact Hinit|]. split; [exists u; exact Hin|].
    intros r' u' Hin' Hinit'.
    apply (Hmin (r', u')). apply List.filter_In. split; [exact Hin'|].
    apply Z.eqb_eq. exact Hinit'.
  - intros r' u' Hin' Hinit'.
    assert (Hx : In (r', u') (List.filter isInitial rows)).
    { apply List.filter_In. split; [exact Hin' | apply Z.eqb_eq; exact Hinit']. }
    rewrite H in Hx. destruct Hx.
Qed.

(** *** Over any sequence of calls *)

Lemma requestStep_trans (a b c : Request) :
  requestStep a b -> requestStep b c -> requestStep a c.
Proof.
  intros [->|[Ha ->]] [->|[Hb ->]]; unfold requestStep; auto.
Qed.

Lemma after_request (rows : table) (c : call) (id : string) (r : Request) :
  fst (ReadRequest rows id) = Some r ->
  exists r', fst (ReadRequest (after rows c) id) = Some r' /\ requestStep r r'.
Proof.
  unfold ReadRequest. cbn [fst]. intros Hread.
  destruct (List.find (hasId id) rows) as [[r0 u]|] eqn:Hfind; [|discriminate].
  cbn in Hread. injection Hread as ->.
  destruct c as [req|id' now]; cbn [after].
  - unfold WriteRequestIfNotExist.
    destruct ((State req =? 0) || (Role req =? 0));
      [exists r; rewrite Hfind; split; [reflexivity | left; reflexivity]|].
    destruct (existsb (hasId (Id req)) rows);
      [exists r; rewrite Hfind; split; [reflexivity | left; reflexivity]|].
    exists r. rewrite (find_app_l _ _ _ _ Hfind). split; [reflexivity | left; reflexivity].
  - unfold FinishRequest.
    destruct (_ =? 1)%nat; cbn [fst];
      [|exists r; rewrite Hfind; split; [reflexivity | left; reflexivity]].
    rewrite find_map_keep by (intros x; destruct (hasId id' x && isInitial x); reflexivity).
    rewrite Hfind. cbn.
    destruct (hasId id' (r, u) && isInitial (r, u)) eqn:Hhit; cbn [fst].
    + eexists. split; [reflexivity|]. right. split; [|reflexivity].
      apply andb_true_iff in Hhit as [_ Hinit]. apply Z.eqb_eq. exact Hinit.
    + exists r. split; [reflexivity | left; reflexivity].
Qed.

(** A stored request stays: over any sequence of [WriteRequestIfNotExist]
    and [FinishRequest] calls a request that reads back under its id
    still does afterwards, unchanged except that it may have gone from
    [Initial] to [Done]; and a table with one row per id keeps one row
    per id. *)
Theorem stored_request_is_kept (cs : list call) :
  forall (rows : table) (id : string) (r : Request),
    fst (ReadRequest rows id) = Some r ->
    (exists r', fst (ReadRequest (afterAll rows cs) id) = Some r' /\ requestStep r r')
    /\ (NoDup (ids rows) -> NoDup (ids (afterAll rows cs))).
Proof.
  induction cs as [|c cs IH]; intros rows id r Hread; cbn [afterAll fold_left].
  - split; [exists r; split; [exact Hread | left; reflexivity] | auto].
  - destruct (after_request rows c id r Hread) as (r1 & Hr1 & Hstep1).
    destruct (IH (after rows c) id r1 Hr1) as [(r2 & Hr2 & Hstep2) Hnd].
    split.
    + exists r2. split; [exact Hr2 | apply (requestStep_trans _ _ _ Hstep1 Hstep2)].
    + intros H. apply Hnd. apply after_ids_NoDup. exact H.
Qed.

End request_store_props.

(** ** The keeper's [safes] table *)
Module safe_store_props.
Import safe_store.

Lemma Contains_byte (c h : ascii) (t : string) :
  strings.Contains (String h t) (String c EmptyString)
  = Ascii.eqb h c || strings.Contains t (String c EmptyString).
Proof.
  destruct (Ascii.eqb_spec h c) as [Heq|Hne]; cbn [strings.Contains String.prefix orb];
    destruct (ascii_dec c h) as [Heq'|Hne']; try congruence; try reflexivity.
  destruct t; reflexivity.
Qed.

Lemma Split_not_nil (s : string) (c : ascii) : strings.Split s c <> [].
Proof.
  destruct s as [|h t]; cbn [strings.Split]; [discriminate|].
  destruct (Ascii.eqb h c); [discriminate|].
  destruct (strings.Split t c); discriminate.
Qed.

(** A piece without the separator, followed by a separator, is the
    first piece. *)
Lemma Split_piece (c : ascii) (e rest : string) :
  strings.Contains e (String c EmptyString) = false ->
  strings.Split (e ++ String c rest) c = e :: strings.Split rest c.
Proof.
  induction e as [|h t IH]; intros Hno.
  - change (strings.Split (String c rest) c = [EmptyString] ++ strings.Split rest c).
    cbn [strings.Split]. rewrite Ascii.eqb_refl. reflexivity.
  - rewrite Contains_byte in Hno. apply orb_false_elim in Hno as [Hh Ht].
    change (strings.Split (String h (t ++ String c rest)) c
            = String h t :: strings.Split rest c).
    cbn [strings.Split]. rewrite Hh, (IH Ht). reflexivity.
Qed.

Lemma Split_last (c : ascii) (e : string) :
  strings.Contains e (String c EmptyString) = false -> strings.Split e c = [e].
Proof.
  induction e as [|h t IH]; intros Hno; [reflexivity|].
  rewrite Contains_byte in Hno. apply orb_false_elim in Hno as [Hh Ht].
  cbn [strings.Split]. rewrite Hh, (IH Ht). reflexivity.
Qed.

Lemma Split_Join (c : ascii) (elems : list string) :
  elems <> [] ->
  Forall (fun e => strings.Contains e (String c EmptyString) = false) elems ->
  strings.Split (strings.Join elems (String c EmptyString)) c = elems.
Proof.
  induction elems as [|e rest IH]; intros Hne Hno; [contradiction|].
  apply Forall_cons in Hno as [He Hrest].
  destruct rest as [|e' rest'].
  - cbn [strings.Join]. apply Split_last. exact He.
  - change (strings.Join (e :: e' :: rest') (String c EmptyString))
      with (e ++ String c (strings.Join (e' :: rest') (String c EmptyString)))%string.
    rewrite (Split_piece _ _ _ He), IH; [reflexivity | discriminate | exact Hrest].
Qed.

Lemma Join_Split (c : ascii) (s : string) :
  strings.Join (strings.Split s c) (String c EmptyString) = s.
Proof.
  induction s as [|h t IH]; [reflexivity|].
  cbn [strings.Split]. destruct (Ascii.eqb_spec h c) as [->|_].
  - pose proof (Split_not_nil t c) as Hne.
    destruct (strings.Split t c) as [|p ps] eqn:Hs; [contradiction|].
    change (strings.Join (EmptyString :: p :: ps) (String c EmptyString))
      with (String c (strings.Join (p :: ps) (String c EmptyString))).
    rewrite IH. reflexivity.
  - pose proof (Split_not_nil t c) as Hne.
    destruct (strings.Split t c) as [|p ps] eqn:Hs; [contradiction|].
    destruct ps as [|q qs].
    + cbn [strings.Join] in *. rewrite IH. reflexivity.
    + change (strings.Join (String h p :: q :: qs) (String c EmptyString))
        with (String h (strings.Join (p :: q :: qs) (String c EmptyString))).
      rewrite IH. reflexivity.
Qed.

(** A safe and its row: a row read and written again is the same row;
    a safe written and read again is the same safe when it has at least
    one receiver and no receiver contains a semicolon; and a safe
    without receivers reads back with one empty receiver. *)
Theorem safe_row_round_trip (s : Safe) :
  (forall row, values (safeFromRow row) = row)
  /\ (Receivers s <> [] ->
      Forall (fun e => strings.Contains e ";" = false) (Receivers s) ->
      safeFromRow (values s) = s)
  /\ (Receivers s = [] -> Receivers (safeFromRow (values s)) = [EmptyString]).
Proof.
  split; [|split].
  - intros [h c sg o t a e r th rid ca ua]. unfold values, safeFromRow.
    cbn. rewrite (Join_Split ";"%char). reflexivity.
  - intros Hne Hno. destruct s as [h c sg o t a e r th rid ca ua].
    unfold values, safeFromRow. cbn in *.
    rewrite (Split_Join ";"%char) by assumption. reflexivity.
  - intros Hnil. unfold values, safeFromRow. cbn. rewrite Hnil. reflexivity.
Qed.

Section methods.

Variable clashes : Row -> Row -> bool.

Abbreviation WriteSafeWithRequest := (safe_store.WriteSafeWithRequest clashes).

Lemma find_holder_app (rows : list Row) (row : Row) (h : string) :
  (forall r, In r rows -> holder r <> h) ->
  holder row = h ->
  List.find (fun r => String.eqb (holder r) h) (rows ++ [row]) = Some row.
Proof.
  intros Hnone Hrow. induction rows as [|r rows IH]; cbn [app List.find].
  - rewrite Hrow, String.eqb_refl. reflexivity.
  - destruct (String.eqb_spec (holder r) h) as [Heq|_].
    + destruct (Hnone r (or_introl eq_refl) Heq).
    + apply IH. intros x Hx. apply Hnone. right. exact Hx.
Qed.

(** A safe written is the safe read: when [WriteSafeWithRequest] returns
    nil for a holder that had no safe, [ReadSafe] of the holder gives the
    safe as its row reads back, and the safe's request, which was the
    only row with its id, is [Done]; when it returns an error the store
    is as it was. *)
Theorem WriteSafeWithRequest_then_ReadSafe (s s' : Store) (safe : Safe) (now : Z)
  (err : error) :
  WriteSafeWithRequest s safe now = (s', err) ->
  (forall row, In row (safes s) -> holder row <> Holder safe) ->
  match err with
  | Some _ => s' = s
  | None =>
      fst (ReadSafe s' (Holder safe)) = Some (safeFromRow (values safe))
      /\ exists r,
           fst (request_store.ReadRequest (requests s) (RequestId safe)) = Some r
           /\ fst (request_store.ReadRequest (requests s') (RequestId safe))
              = Some (request_store.withState common.RequestStateDone r)
  end.
Proof.
  unfold safe_store.WriteSafeWithRequest. intros Hrun Hnew.
  destruct (existsb (clashes (values safe)) (safes s)); [injection Hrun as <- <-; reflexivity|].
  unfold finishRequestOf in Hrun.
  destruct (Nat.eqb_spec
              (length (List.filter (request_store.hasId (RequestId safe)) (requests s))) 1)
    as [Hone|_]; [|injection Hrun as <- <-; reflexivity].
  injection Hrun as <- <-. unfold ReadSafe, request_store.ReadRequest. cbn [fst safes requests].
  split.
  - rewrite (find_holder_app _ (values safe) _ Hnew eq_refl). reflexivity.
  - assert (Hfind : exists x, List.find (request_store.hasId (RequestId safe)) (requests s)
                              = Some x).
    { destruct (List.find _ (requests s)) as [x|] eqn:Hf; [eauto|].
      exfalso. rewrite (request_store_props.filter_none _ (requests s)) in Hone;
        [discriminate|].
      intros x Hx. destruct (request_store.hasId (RequestId safe) x) eqn:Hh; [|reflexivity].
      pose proof (List.find_none _ _ Hf x Hx). congruence. }
    destruct Hfind as [[r u] Hfind]. exists r. rewrite Hfind. split; [reflexivity|].
    rewrite request_store_props.find_map_keep
      by (intros x; destruct (request_store.hasId (RequestId safe) x); reflexivity).
    rewrite Hfind. cbn.
    apply List.find_some in Hfind as [_ Hh]. rewrite Hh. reflexivity.
Qed.

End methods.
End safe_store_props.

(** ** Reading the observer's [bitcoin_outputs] table *)
Module observer_read_props.
Import observer_store.

Lemma hasKey_eq (hash : string) (index : Z) (o : Output.t) :
  Output.hasKey hash index o = true
  <-> (Output.TransactionHash o, Output.Index o) = (hash, index).
Proof.
  unfold Output.hasKey. rewrite andb_true_iff, String.eqb_eq, Z.eqb_eq.
  split; [intros [-> ->]; reflexivity | intros H; injection H; auto].
Qed.

Lemma existsb_hasKey (hash : string) (index : Z) (rows : table) :
  existsb (Output.hasKey hash index) rows = true <-> In (hash, index) (keys rows).
Proof.
  rewrite existsb_exists. unfold keys. rewrite in_map_iff.
  split; intros (o & H1 & H2); exists o.
  - split; [apply hasKey_eq; exact H2 | exact H1].
  - split; [exact H2 | apply hasKey_eq; exact H1].
Qed.

Lemma rowStep_key (r r' : Output.t) :
  rowStep r r' ->
  Output.TransactionHash r' = Output.TransactionHash r
  /\ Output.Index r' = Output.Index r
  /\ Output.Address r' = Output.Address r
  /\ Output.Satoshi r' = Output.Satoshi r
  /\ Output.Chain r' = Output.Chain r.
Proof.
  intros [->|(_ & _ & spentBy & now & ->)]; cbn; auto.
Qed.

Lemma Forall2_rowStep_keys (rows upd : table) :
  Forall2 rowStep rows upd -> keys upd = keys rows.
Proof.
  induction 1 as [|r r' rows upd Hstep _ IH]; [reflexivity|].
  unfold keys in *. cbn [List.map]. rewrite IH.
  destruct (rowStep_key _ _ Hstep) as (-> & -> & _). reflexivity.
Qed.

Lemma insertRow_keys (o : Output.t) (rows rows' : table) :
  insertRow o rows = Some rows' -> NoDup (keys rows) -> NoDup (keys rows').
Proof.
  unfold insertRow.
  destruct (existsb _ rows) eqn:Hex; [discriminate|]. intros H Hnd. injection H as <-.
  unfold keys. rewrite List.map_app. cbn [List.map].
  apply NoDup_app. split; [exact Hnd|]. split; [|apply NoDup_singleton].
  intros k Hk Hin. apply list_elem_of_singleton in Hin. subst k.
  apply list_elem_of_In, existsb_hasKey in Hk. congruence.
Qed.

Lemma insertOutputs_keys (hash raw receiver : string) (tx : Transaction.t) (now : Z)
  (outs : list wire.TxOut) :
  forall i rows rows',
    insertOutputs hash raw receiver tx now i outs rows = Some rows' ->
    NoDup (keys rows) -> NoDup (keys rows').
Proof.
  induction outs as [|out outs IH]; intros i rows rows'; cbn [insertOutputs].
  - intros H. injection H as <-. auto.
  - destruct (insertRow _ rows) as [rows1|] eqn:Hins; [|discriminate].
    intros H Hnd. apply (IH _ _ _ H). apply (insertRow_keys _ _ _ Hins Hnd).
Qed.

Section methods.

Variable queryRow : QueryRow.
Variable TxHash : wire.MsgTx -> string.
Variable MarshalWiredTransaction : wire.MsgTx -> Z -> option (list byte).

Abbreviation after := (observer_store.after queryRow TxHash MarshalWiredTransaction).
Abbreviation afterAll := (observer_store.afterAll queryRow TxHash MarshalWiredTransaction).

Lemma after_keys (rows : table) (c : call) :
  NoDup (keys rows) -> NoDup (keys (after rows c)).
Proof.
  intros Hnd. destruct c as [min max tx now|utxo|msgTx receiver tx now]; cbn [observer_store.after].
  - unfold AssignBitcoinUTXOByRangeForTransaction.
    destruct (queryRow _ rows) as [o|]; [|exact Hnd].
    destruct (String.eqb _ _); [exact Hnd|].
    destruct (updateSpent _ _ _ _ rows) as [rows'|] eqn:Hupd; cbn [fst]; [|exact Hnd].
    rewrite (Forall2_rowStep_keys _ _ (observer_store_props.updateSpent_rowStep _ _ _ _ _ _ Hupd)).
    exact Hnd.
  - unfold WriteBitcoinUTXOIfNotExists.
    destruct (negb _); [exact Hnd|]. destruct (existsb _ rows); [exact Hnd|].
    destruct (insertRow utxo rows) as [rows'|] eqn:Hins; [|exact Hnd].
    apply (insertRow_keys _ _ _ Hins Hnd).
  - unfold WriteBitcoinFeeOutput.
    destruct (MarshalWiredTransaction _ _) as [buf|]; [|exact Hnd].
    destruct (spendInputs _ _ _ rows) as [rows1|] eqn:Hsp; [|exact Hnd].
    destruct (insertOutputs _ _ _ _ _ _ _ rows1) as [rows2|] eqn:Hins; cbn [fst]; [|exact Hnd].
    apply (insertOutputs_keys _ _ _ _ _ _ _ _ _ Hins).
    rewrite (Forall2_rowStep_keys _ _ (observer_store_props.spendInputs_rowStep _ _ _ _ _ Hsp)).
    exact Hnd.
Qed.

Lemma afterAll_keys (cs : list call) :
  forall rows, NoDup (keys rows) -> NoDup (keys (afterAll rows cs)).
Proof.
  induction cs as [|c cs IH]; intros rows Hnd; cbn [observer_store.afterAll fold_left];
    [exact Hnd|].
  apply IH. apply after_keys. exact Hnd.
Qed.

(** In a table with one row per key, the row at a position is the row
    found by its key. *)
Lemma find_by_key (rows : table) (i : nat) (o : Output.t) :
  NoDup (keys rows) -> rows !! i = Some o ->
  List.find (Output.hasKey (Output.TransactionHash o) (Output.Index o)) rows = Some o.
Proof.
  revert i. induction rows as [|r rows IH]; intros i Hnd Hi; [discriminate|].
  unfold keys in Hnd. cbn [List.map] in Hnd. apply NoDup_cons in Hnd as [Hnotin Hnd].
  cbn [List.find].
  destruct i as [|i]; cbn in Hi.
  - injection Hi as ->. rewrite (proj2 (hasKey_eq _ _ o) eq_refl). reflexivity.
  - destruct (Output.hasKey _ _ r) eqn:Hr; [|apply (IH i Hnd Hi)].
    exfalso. apply hasKey_eq in Hr. apply Hnotin. rewrite Hr.
    apply list_elem_of_In.
    apply (in_map (fun o => (Output.TransactionHash o, Output.Index o)) rows o).
    apply list_elem_of_In. apply (list_elem_of_lookup_2 _ _ _ Hi).
Qed.

Lemma find_lookup {A : Type} (p : A -> bool) (l : list A) (x : A) :
  List.find p l = Some x -> exists i, l !! i = Some x.
Proof.
  induction l as [|y l IH]; cbn [List.find]; [discriminate|].
  destruct (p y).
  - intros H. injection H as ->. exists 0%nat. reflexivity.
  - intros H. destruct (IH H) as [i Hi]. exists (S i). exact Hi.
Qed.

Lemma ReadBitcoinUTXO_unique (rows : table) (hash : string) (index chain : Z) :
  NoDup (keys rows) ->
  fst (ReadBitcoinUTXO rows hash index chain)
  = match List.find (Output.hasKey hash index) rows with
    | Some o => if Output.Chain o =? chain then Some o else None
    | None => None
    end.
Proof.
  unfold ReadBitcoinUTXO. cbn [fst].
  induction rows as [|r rows IH]; intros Hnd; cbn [List.find]; [reflexivity|].
  unfold keys in Hnd. cbn [List.map] in Hnd. apply NoDup_cons in Hnd as [Hnotin Hnd].
  destruct (Output.hasKey hash index r) eqn:Hr; [|rewrite andb_false_r; apply IH; exact Hnd].
  rewrite andb_true_r. destruct (Output.Chain r =? chain); [reflexivity|].
  destruct (List.find _ rows) as [x|] eqn:Hfind; [|reflexivity].
  exfalso. apply List.find_some in Hfind as [Hin Hx].
  apply andb_true_iff in Hx as [_ Hx]. apply hasKey_eq in Hx, Hr.
  apply Hnotin. rewrite Hr, <- Hx. apply list_elem_of_In.
  apply (in_map (fun o => (Output.TransactionHash o, Output.Index o)) rows x Hin).
Qed.

(** Primary keys stay unique: a table with one row per
    (transaction_hash, output_index) has one row per key after any
    sequence of store calls. *)
Theorem bitcoin_outputs_keys_stay_unique (rows : table) (cs : list call) :
  NoDup (keys rows) -> NoDup (keys (afterAll rows cs)).
Proof. apply afterAll_keys. Qed.

(** A written UTXO reads back, now and later: after
    [WriteBitcoinUTXOIfNotExists] returns, [ReadBitcoinUTXO] under the
    UTXO's key and the chain of the stored row (the row stored first, if
    the key was there) finds that row after any further store calls,
    with address, amount and chain as stored and at most assigned in
    between; under another chain it finds nothing. *)
Theorem ReadBitcoinUTXO_after_write (rows rows' : table) (utxo : Output.t) (err : error)
  (cs : list call) :
  NoDup (keys rows) ->
  WriteBitcoinUTXOIfNotExists rows utxo = Returns (rows', err) ->
  let hash := Output.TransactionHash utxo in
  let index := Output.Index utxo in
  let stored := default utxo (List.find (Output.hasKey hash index) rows) in
  exists o,
    ReadBitcoinUTXO (afterAll rows' cs) hash index (Output.Chain stored) = (Some o, None)
    /\ rowStep stored o
    /\ Output.Address o = Output.Address stored
    /\ Output.Satoshi o = Output.Satoshi stored
    /\ forall chain, chain <> Output.Chain stored ->
         ReadBitcoinUTXO (afterAll rows' cs) hash index chain = (None, None).
Proof.
  intros Hnd Hwrite. cbv zeta.
  assert (Hnd' : NoDup (keys rows')).
  { pose proof (after_keys rows (CallWriteIfNotExists utxo) Hnd) as H.
    cbn [observer_store.after] in H. rewrite Hwrite in H. exact H. }
  assert (Hstored :
    List.find (Output.hasKey (Output.TransactionHash utxo) (Output.Index utxo)) rows'
    = Some (default utxo
              (List.find (Output.hasKey (Output.TransactionHash utxo) (Output.Index utxo))
                 rows))).
  { unfold WriteBitcoinUTXOIfNotExists, insertRow in Hwrite.
    destruct (negb _); [discriminate|].
    destruct (existsb _ rows) eqn:Hex.
    - injection Hwrite as <- <-.
      destruct (List.find _ rows) as [x|] eqn:Hf; [reflexivity|].
      apply request_store_props.find_existsb in Hf. congruence.
    - injection Hwrite as <- <-.
      apply request_store_props.find_existsb in Hex.
      rewrite (request_store_props.find_app_r _ _ _ Hex), Hex. cbn [List.find default].
      rewrite (proj2 (hasKey_eq _ _ utxo) eq_refl). reflexivity. }
  set (hash := Output.TransactionHash utxo) in *.
  set (index := Output.Index utxo) in *.
  set (stored := default utxo (List.find (Output.hasKey hash index) rows)) in *.
  clearbody stored.
  destruct (find_lookup _ _ _ Hstored) as [i Hi].
  pose proof (observer_store_props.afterAll_extends queryRow TxHash MarshalWiredTransaction
                cs rows') as Hext.
  destruct (observer_store_props.extends_lookup _ _ _ _ Hext Hi) as (o & Ho & Hstep).
  destruct (rowStep_key _ _ Hstep) as (Hh & Hidx & Haddr & Hsat & Hchain).
  apply List.find_some in Hstored as [_ Hkey]. apply hasKey_eq in Hkey.
  injection Hkey as Hk1 Hk2.
  pose proof (find_by_key _ _ _ (afterAll_keys cs rows' Hnd') Ho) as Hfind.
  rewrite Hh, Hidx, Hk1, Hk2 in Hfind.
  pose proof (fun chain => ReadBitcoinUTXO_unique (afterAll rows' cs) hash index chain
                             (afterAll_keys cs rows' Hnd')) as Hread.
  exists o. split; [|split; [exact Hstep|split; [exact Haddr|split; [exact Hsat|]]]].
  - specialize (Hread (Output.Chain stored)). rewrite Hfind, Hchain, Z.eqb_refl in Hread.
    unfold ReadBitcoinUTXO in *. cbn [fst] in Hread. rewrite Hread. reflexivity.
  - intros chain Hne. specialize (Hread chain). rewrite Hfind, Hchain in Hread.
    destruct (Z.eqb_spec (Output.Chain stored) chain) as [Heq|_]; [congruence|].
    unfold ReadBitcoinUTXO in *. cbn [fst] in Hread. rewrite Hread. reflexivity.
Qed.

End methods.
(** *** The accountant's spendable outputs *)

Abbreviation byCreatedAt := (fun a b : Output.t => Output.CreatedAt a <= Output.CreatedAt b).

Lemma insertByCreatedAt_In (o x : Output.t) (l : table) :
  In x (insertByCreatedAt o l) <-> x = o \/ In x l.
Proof.
  induction l as [|y l IH]; cbn [insertByCreatedAt].
  - cbn. intuition congruence.
  - destruct (Output.CreatedAt o <=? Output.CreatedAt y); cbn [In]; [intuition congruence|].
    rewrite IH. intuition congruence.
Qed.

Lemma insertByCreatedAt_sorted (o : Output.t) (l : table) :
  StronglySorted byCreatedAt l -> StronglySorted byCreatedAt (insertByCreatedAt o l).
Proof.
  induction 1 as [|y l Hl IH Hy]; cbn [insertByCreatedAt].
  - constructor; constructor.
  - destruct (Z.leb_spec (Output.CreatedAt o) (Output.CreatedAt y)) as [Hle|Hgt].
    + constructor; [constructor; assumption|].
      constructor; [exact Hle|].
      eapply List.Forall_impl; [|exact Hy]. cbn. intros a Ha. lia.
    + constructor; [exact IH|].
      apply List.Forall_forall. intros a Ha. apply insertByCreatedAt_In in Ha as [->|Ha].
      * lia.
      * apply (proj1 (List.Forall_forall _ _) Hy a Ha).
Qed.

Lemma insertByCreatedAt_length (o : Output.t) (l : table) :
  length (insertByCreatedAt o l) = S (length l).
Proof.
  induction l as [|y l IH]; cbn [insertByCreatedAt]; [reflexivity|].
  destruct (_ <=? _); cbn [length]; [reflexivity | rewrite IH; reflexivity].
Qed.

Lemma orderByCreatedAt_In (x : Output.t) (l : table) :
  In x (orderByCreatedAt l) <-> In x l.
Proof.
  induction l as [|y l IH]; cbn [orderByCreatedAt fold_right]; [tauto|].
  fold (orderByCreatedAt l). rewrite insertByCreatedAt_In, IH. cbn. intuition congruence.
Qed.

Lemma orderByCreatedAt_sorted (l : table) : StronglySorted byCreatedAt (orderByCreatedAt l).
Proof.
  induction l as [|y l IH]; cbn [orderByCreatedAt fold_right]; [constructor|].
  apply insertByCreatedAt_sorted. exact IH.
Qed.

Lemma orderByCreatedAt_length (l : table) : length (orderByCreatedAt l) = length l.
Proof.
  induction l as [|y l IH]; cbn [orderByCreatedAt fold_right]; [reflexivity|].
  fold (orderByCreatedAt l). rewrite insertByCreatedAt_length, IH. reflexivity.
Qed.

Lemma StronglySorted_app_le (a b : table) :
  StronglySorted byCreatedAt (a ++ b) ->
  StronglySorted byCreatedAt a
  /\ forall x y, In x a -> In y b -> Output.CreatedAt x <= Output.CreatedAt y.
Proof.
  induction a as [|h a IH]; cbn [app]; intros Hs.
  - split; [constructor | intros x y []].
  - apply StronglySorted_inv in Hs as [Hs Hh]. destruct (IH Hs) as [Ha Hab].
    split.
    + constructor; [exact Ha|]. apply List.Forall_forall. intros x Hx.
      apply (proj1 (List.Forall_forall _ _) Hh). apply in_or_app. left. exact Hx.
    + intros x y [<-|Hx] Hy; [|apply Hab; assumption].
      apply (proj1 (List.Forall_forall _ _) Hh). apply in_or_app. right. exact Hy.
Qed.

(** What the accountant may spend: [ReadBitcoinUTXOs] returns at most
    256 rows, each a row of the table on the chain asked for and still
    [Initial], oldest first; and every such row of the table is among
    them, unless 256 rows no newer than it were returned. *)
Theorem ReadBitcoinUTXOs_spendable_oldest_first (rows : table) (chain : Z) :
  let utxos := fst (ReadBitcoinUTXOs rows chain) in
  (length utxos <= 256)%nat
  /\ Forall (fun o => In o rows /\ Output.Chain o = chain
                      /\ Output.State o = common.RequestStateInitial) utxos
  /\ StronglySorted byCreatedAt utxos
  /\ forall o, In o rows -> Output.Chain o = chain ->
       Output.State o = common.RequestStateInitial ->
       In o utxos
       \/ (length utxos = 256%nat
           /\ Forall (fun u => Output.CreatedAt u <= Output.CreatedAt o) utxos).
Proof.
  unfold ReadBitcoinUTXOs. cbn [fst].
  set (p := fun o => (Output.Chain o =? chain)
                     && (Output.State o =? common.RequestStateInitial)).
  set (l := orderByCreatedAt (List.filter p rows)).
  assert (Hl : forall o, In o l <-> In o rows /\ Output.Chain o = chain
                                    /\ Output.State o = common.RequestStateInitial).
  { intros o. subst l. rewrite orderByCreatedAt_In, List.filter_In. subst p. cbn beta.
    rewrite andb_true_iff, !Z.eqb_eq. tauto. }
  assert (Hsorted : StronglySorted byCreatedAt (firstn 256 l ++ skipn 256 l)).
  { rewrite firstn_skipn. apply orderByCreatedAt_sorted. }
  destruct (StronglySorted_app_le _ _ Hsorted) as [Hfirst Hle].
  split; [apply firstn_le_length|].
  split.
  { apply List.Forall_forall. intros o Ho. apply Hl.
    rewrite <- (firstn_skipn 256 l). apply in_or_app. left. exact Ho. }
  split; [exact Hfirst|].
  intros o Hin Hchain Hstate.
  assert (Ho : In o (firstn 256 l ++ skipn 256 l)).
  { rewrite firstn_skipn. apply Hl. auto. }
  apply in_app_or in Ho as [Ho|Ho]; [left; exact Ho | right].
  split.
  - rewrite firstn_length_le; [reflexivity|].
    destruct (Nat.le_gt_cases 256 (length l)) as [H|H]; [exact H|].
    rewrite skipn_all2 in Ho by lia. destruct Ho.
  - apply List.Forall_forall. intros u Hu. apply (Hle u o Hu Ho).
Qed.

End observer_read_props.

(** ** Paying the fee of a signed transaction *)
Module observer_fee_props.
Import observer_fee.

Lemma u64_small (x : Z) : 0 <= x < 2 ^ 64 -> u64 x = x.
Proof. apply Z.mod_small. Qed.

Lemma i64_small (x : Z) : - 2 ^ 63 <= x < 2 ^ 63 -> i64 x = x.
Proof. intros H. unfold i64. rewrite Z.mod_small by lia. lia. Qed.

Lemma estvb_eq (n : nat) : (n <= 256)%nat -> estvb n = 74 + 75 * Z.of_nat n.
Proof.
  intros Hn. unfold estvb. rewrite u64_small by lia.
  replace (40 + Z.of_nat n * 300 + 2 * 128) with ((74 + 75 * Z.of_nat n) * 4) by lia.
  apply Z.div_mul. lia.
Qed.

Lemma totalSatoshi_cons (o : Output.t) (l : list Output.t) :
  totalSatoshi (o :: l) = Output.Satoshi o + totalSatoshi l.
Proof. reflexivity. Qed.

Lemma totalSatoshi_app (a b : list Output.t) :
  totalSatoshi (a ++ b) = totalSatoshi a + totalSatoshi b.
Proof.
  induction a as [|x a IH].
  - change (totalSatoshi b = 0 + totalSatoshi b). lia.
  - change (totalSatoshi (x :: (a ++ b)) = totalSatoshi (x :: a) + totalSatoshi b).
    rewrite !totalSatoshi_cons, IH. lia.
Qed.

Lemma totalSatoshi_nonneg (utxos : list Output.t) :
  Forall (fun o => 0 <= Output.Satoshi o) utxos -> 0 <= totalSatoshi utxos.
Proof.
  induction 1 as [|o l Ho _ IH]; cbn [totalSatoshi fold_right]; [lia|].
  fold (totalSatoshi l). lia.
Qed.

Section node.

Variable NewHashFromStr : string -> option string.
Variable MaxTransactionSequence : Z.
Variable ValueDust : Z -> Z.

Abbreviation selectInputs := (observer_fee.selectInputs NewHashFromStr MaxTransactionSequence ValueDust).
Abbreviation feeOutputs := (observer_fee.feeOutputs ValueDust).

(** The first loop, from any point on. *)
Lemma selectInputs_inv (fee fvb chain : Z) (script : list byte) (utxos : list Output.t) :
  forall (total : Z) (ins ins' : list wire.TxIn) (outs : list wire.TxOut),
    0 <= fee -> 0 <= fvb ->
    Forall (fun o => 0 <= Output.Satoshi o) utxos ->
    0 <= total -> total + totalSatoshi utxos < 2 ^ 64 ->
    (length ins + length utxos <= 256)%nat ->
    (74 + 75 * Z.of_nat (length ins + length utxos)) * fvb + fee < 2 ^ 64 ->
    selectInputs fee fvb chain script utxos total ins = inl (ins', outs) ->
    outs <> [] ->
    exists (k : nat) (new : list wire.TxIn),
      (1 <= k <= length utxos)%nat
      /\ ins' = ins ++ new
      /\ Forall2 (spends NewHashFromStr) (firstn k utxos) new
      /\ (74 + 75 * Z.of_nat (length ins + k)) * fvb + fee
         <= total + totalSatoshi (firstn k utxos)
      /\ (forall j, (1 <= j < k)%nat ->
            total + totalSatoshi (firstn j utxos)
            < (74 + 75 * Z.of_nat (length ins + j)) * fvb + fee)
      /\ outs = feeOutputs fee fvb chain script (total + totalSatoshi (firstn k utxos))
                  (length ins + k).
Proof.
  induction utxos as [|utxo rest IH]; intros total ins ins' outs Hfee Hfvb Hpos Htotal
    Hsum Hlen Hest; cbn [observer_fee.selectInputs].
  - intros H Hne. injection H as <- <-. contradiction.
  - apply Forall_cons in Hpos as [Hsat Hpos].
    pose proof (totalSatoshi_nonneg rest Hpos) as Hrest.
    cbn [totalSatoshi fold_right] in Hsum. fold (totalSatoshi rest) in Hsum.
    cbn [length] in Hlen, Hest.
    destruct (NewHashFromStr (Output.TransactionHash utxo)) as [hash|] eqn:Hhash;
      [|discriminate].
    rewrite length_app. cbn [length].
    rewrite (u64_small (Output.Satoshi utxo)) by lia.
    rewrite (u64_small (total + Output.Satoshi utxo)) by lia.
    rewrite estvb_eq by lia.
    assert (Hmono : (74 + 75 * Z.of_nat (length ins + 1)) * fvb
                    <= (74 + 75 * Z.of_nat (length ins + S (length rest))) * fvb).
    { apply Z.mul_le_mono_nonneg_r; lia. }
    assert (Hnn : 0 <= (74 + 75 * Z.of_nat (length ins + 1)) * fvb).
    { apply Z.mul_nonneg_nonneg; lia. }
    rewrite (u64_small ((74 + 75 * Z.of_nat (length ins + 1)) * fvb)) by lia.
    rewrite (u64_small ((74 + 75 * Z.of_nat (length ins + 1)) * fvb + fee)) by lia.
    destruct (Z.ltb_spec (total + Output.Satoshi utxo)
                ((74 + 75 * Z.of_nat (length ins + 1)) * fvb + fee)) as [Hlt|Hge].
    + intros Hrun Hne.
      destruct (IH (total + Output.Satoshi utxo) (ins ++ [feeInput MaxTransactionSequence hash utxo])
                  ins' outs Hfee Hfvb Hpos ltac:(lia) ltac:(lia)
                  ltac:(rewrite length_app; cbn [length]; lia)
                  ltac:(rewrite length_app; cbn [length];
                        replace (length ins + 1 + length rest)%nat
                          with (length ins + S (length rest))%nat by lia; exact Hest)
                  Hrun Hne)
        as (k & new & Hk & Hins & Hspends & Hcover & Hmin & Houts).
      rewrite length_app in Hcover, Hmin, Houts. cbn [length] in Hcover, Hmin, Houts.
      exists (S k), (feeInput MaxTransactionSequence hash utxo :: new).
      cbn [firstn totalSatoshi fold_right length]. fold (totalSatoshi (firstn k rest)).
      replace (length ins + S k)%nat with (length ins + 1 + k)%nat by lia.
      split; [lia|].
      split; [rewrite Hins, <- app_assoc; reflexivity|].
      split; [constructor; [split; [exact Hhash | reflexivity] | exact Hspends]|].
      split; [lia|].
      split.
      * intros j Hj. destruct j as [|j]; [lia|].
        cbn [firstn totalSatoshi fold_right]. fold (totalSatoshi (firstn j rest)).
        destruct j as [|j].
        -- replace (totalSatoshi (firstn 0 rest)) with 0 by reflexivity. lia.
        -- specialize (Hmin (S j) ltac:(lia)).
           replace (length ins + S (S j))%nat with (length ins + 1 + S j)%nat by lia. lia.
      * rewrite Houts. f_equal. lia.
    + intros H Hne. injection H as <- <-.
      exists 1%nat, [feeInput MaxTransactionSequence hash utxo].
      replace (totalSatoshi (firstn 1 (utxo :: rest))) with (Output.Satoshi utxo + 0)
        by reflexivity.
      split; [cbn [length]; lia|]. split; [reflexivity|].
      split; [constructor; [split; [exact Hhash | reflexivity] | constructor]|].
      split; [lia|].
      split; [intros j Hj; lia|].
      f_equal. lia.
Qed.

(** The fee transaction pays exactly the fee out of the oldest outputs:
    when the first loop ends with outputs, the inputs are the first [k]
    spendable outputs, [k] the least number whose total covers the fee
    and the estimated size ([74 + 75 k] vbytes) at the fee rate; output
    0 is worth the fee; and the rest of the inputs beyond the size
    estimate is the change, a second output when it is above dust and
    left to the miner otherwise. *)
Lemma selectInputs_pays_the_fee (fee fvb chain : Z) (script : list byte)
  (utxos : list Output.t) (ins : list wire.TxIn) (outs : list wire.TxOut) :
  0 <= fee < 2 ^ 63 -> 0 <= fvb -> 0 <= ValueDust chain < 2 ^ 63 ->
  Forall (fun o => 0 <= Output.Satoshi o) utxos ->
  totalSatoshi utxos < 2 ^ 63 ->
  (length utxos <= 256)%nat ->
  (74 + 75 * Z.of_nat (length utxos)) * fvb + fee < 2 ^ 64 ->
  selectInputs fee fvb chain script utxos 0 [] = inl (ins, outs) ->
  outs <> [] ->
  exists k : nat,
    (1 <= k <= length utxos)%nat
    /\ Forall2 (spends NewHashFromStr) (firstn k utxos) ins
    /\ (forall j, (1 <= j < k)%nat ->
          totalSatoshi (firstn j utxos) < (74 + 75 * Z.of_nat j) * fvb + fee)
    /\ exists change,
         totalSatoshi (firstn k utxos) = fee + (74 + 75 * Z.of_nat k) * fvb + change
         /\ 0 <= change
         /\ (if change >? ValueDust chain
             then outs = [ {| wire.Value := fee; wire.PkScript := script |};
                           {| wire.Value := change; wire.PkScript := script |} ]
             else outs = [ {| wire.Value := fee; wire.PkScript := script |} ]).
Proof.
  intros Hfee Hfvb Hdust Hpos Hsum Hlen Hest Hrun Hne.
  destruct (selectInputs_inv fee fvb chain script utxos 0 [] ins outs
              ltac:(lia) Hfvb Hpos ltac:(lia) ltac:(lia) Hlen Hest Hrun Hne)
    as (k & new & Hk & Hins & Hspends & Hcover & Hmin & Houts).
  cbn [length app Nat.add] in *. subst ins.
  exists k. split; [exact Hk|]. split; [exact Hspends|].
  split; [intros j Hj; specialize (Hmin j Hj); lia|].
  set (total := totalSatoshi (firstn k utxos)) in *.
  assert (Htot : 0 <= total <= totalSatoshi utxos).
  { subst total. split.
    - apply totalSatoshi_nonneg. apply Forall_take. exact Hpos.
    - rewrite <- (firstn_skipn k utxos) at 2. rewrite totalSatoshi_app.
      assert (Hdrop : Forall (fun o => 0 <= Output.Satoshi o) (skipn k utxos))
        by (apply Forall_drop; exact Hpos).
      pose proof (totalSatoshi_nonneg _ Hdrop). lia. }
  assert (Hnn : 0 <= (74 + 75 * Z.of_nat k) * fvb) by (apply Z.mul_nonneg_nonneg; lia).
  exists (total - (74 + 75 * Z.of_nat k) * fvb - fee).
  split; [lia|]. split; [lia|].
  rewrite Houts. unfold observer_fee.feeOutputs.
  replace (0 + total) with total by lia.
  rewrite estvb_eq by lia.
  rewrite (u64_small ((74 + 75 * Z.of_nat k) * fvb)) by lia.
  rewrite (u64_small (total - (74 + 75 * Z.of_nat k) * fvb)) by lia.
  rewrite (u64_small (total - (74 + 75 * Z.of_nat k) * fvb - fee)) by lia.
  rewrite (u64_small (ValueDust chain)) by lia.
  rewrite (i64_small fee) by lia.
  destruct (total - (74 + 75 * Z.of_nat k) * fvb - fee >? ValueDust chain);
    [rewrite i64_small by lia|]; reflexivity.
Qed.

(** Without enough to cover the fee the loop ends with no output: when
    no prefix of the outputs covers the fee and its size at the fee
    rate, every output has become an input and no output was added. *)
Lemma selectInputs_insufficient (fee fvb chain : Z) (script : list byte)
  (utxos : list Output.t) :
  0 <= fee -> 0 <= fvb ->
  Forall (fun o => 0 <= Output.Satoshi o
                   /\ is_Some (NewHashFromStr (Output.TransactionHash o))) utxos ->
  (length utxos <= 256)%nat ->
  (74 + 75 * Z.of_nat (length utxos)) * fvb + fee < 2 ^ 64 ->
  (forall j, (1 <= j <= length utxos)%nat ->
     totalSatoshi (firstn j utxos) < (74 + 75 * Z.of_nat j) * fvb + fee) ->
  exists ins,
    selectInputs fee fvb chain script utxos 0 [] = inl (ins, [])
    /\ Forall2 (spends NewHashFromStr) utxos ins.
Proof.
  intros Hfee Hfvb Hpos Hlen Hest Hshort.
  assert (Hgen : forall rest total ins,
            Forall (fun o => 0 <= Output.Satoshi o
                             /\ is_Some (NewHashFromStr (Output.TransactionHash o))) rest ->
            0 <= total ->
            (length ins + length rest <= 256)%nat ->
            (74 + 75 * Z.of_nat (length ins + length rest)) * fvb + fee < 2 ^ 64 ->
            (forall j, (1 <= j <= length rest)%nat ->
               total + totalSatoshi (firstn j rest)
               < (74 + 75 * Z.of_nat (length ins + j)) * fvb + fee) ->
            exists new,
              selectInputs fee fvb chain script rest total ins = inl (ins ++ new, [])
              /\ Forall2 (spends NewHashFromStr) rest new).
  { clear Hpos Hlen Hest Hshort. intros rest. induction rest as [|utxo rest IH];
      intros total ins Hpos Htotal Hlen Hest Hshort; cbn [observer_fee.selectInputs].
    - exists []. rewrite app_nil_r. split; [reflexivity | constructor].
    - apply Forall_cons in Hpos as [[Hsat [hash Hhash]] Hpos]. rewrite Hhash.
      cbn [length] in Hlen, Hest.
      pose proof (Hshort 1%nat ltac:(cbn [length]; lia)) as H1.
      replace (totalSatoshi (firstn 1 (utxo :: rest))) with (Output.Satoshi utxo + 0) in H1
        by reflexivity.
      assert (Hmono : (74 + 75 * Z.of_nat (length ins + 1)) * fvb
                      <= (74 + 75 * Z.of_nat (length ins + S (length rest))) * fvb).
      { apply Z.mul_le_mono_nonneg_r; lia. }
      assert (Hnn : 0 <= (74 + 75 * Z.of_nat (length ins + 1)) * fvb).
      { apply Z.mul_nonneg_nonneg; lia. }
      rewrite length_app. cbn [length].
      rewrite (u64_small (Output.Satoshi utxo)) by lia.
      rewrite (u64_small (total + Output.Satoshi utxo)) by lia.
      rewrite estvb_eq by lia.
      rewrite (u64_small ((74 + 75 * Z.of_nat (length ins + 1)) * fvb)) by lia.
      rewrite (u64_small ((74 + 75 * Z.of_nat (length ins + 1)) * fvb + fee)) by lia.
      destruct (Z.ltb_spec (total + Output.Satoshi utxo)
                  ((74 + 75 * Z.of_nat (length ins + 1)) * fvb + fee)) as [_|Hge]; [|lia].
      destruct (IH (total + Output.Satoshi utxo)
                  (ins ++ [feeInput MaxTransactionSequence hash utxo]) Hpos ltac:(lia)
                  ltac:(rewrite length_app; cbn [length]; lia)
                  ltac:(rewrite length_app; cbn [length];
                        replace (length ins + 1 + length rest)%nat
                          with (length ins + S (length rest))%nat by lia; exact Hest))
        as (new & Hrun & Hspends).
      + intros j Hj. specialize (Hshort (S j) ltac:(cbn [length]; lia)).
        change (firstn (S j) (utxo :: rest)) with (utxo :: firstn j rest) in Hshort.
        rewrite totalSatoshi_cons in Hshort.
        rewrite length_app. cbn [length].
        replace (length ins + 1 + j)%nat with (length ins + S j)%nat by lia. lia.
      + exists (feeInput MaxTransactionSequence hash utxo :: new).
        rewrite Hrun, <- app_assoc. split; [reflexivity|].
        constructor; [split; [exact Hhash | reflexivity] | exact Hspends]. }
  destruct (Hgen utxos 0 [] Hpos ltac:(lia) Hlen Hest) as (new & Hrun & Hspends).
  - intros j Hj. specialize (Hshort j Hj). cbn [length Nat.add]. lia.
  - exists new. split; [exact Hrun | exact Hspends].
Qed.

End node.

Section whole.

Variable queryRow : observer_store.QueryRow.
Variable TxHash : wire.MsgTx -> string.
Variable MarshalWiredTransaction : wire.MsgTx -> Z -> option (list byte).
Variable feeRange : Z -> Z * Z.
Variable ParseAddress : string -> Z -> list byte + string.
Variable NewHashFromStr : string -> option string.
Variable MaxTransactionSequence : Z.
Variable ValueDust : Z -> Z.
Variable ReadAccountantPrivateKey : string -> string + string.
Variable DecodeHexOrPanic : string -> option (list byte).
Variable signWitness : list byte -> wire.MsgTx -> nat -> Z -> list (list byte) + string.

Abbreviation bitcoinRetrieveFeeInputsForTransaction :=
  (observer_fee.bitcoinRetrieveFeeInputsForTransaction queryRow TxHash
     MarshalWiredTransaction feeRange ParseAddress NewHashFromStr MaxTransactionSequence
     ValueDust ReadAccountantPrivateKey DecodeHexOrPanic signWitness).
Abbreviation signFeeInputs :=
  (observer_fee.signFeeInputs ReadAccountantPrivateKey DecodeHexOrPanic signWitness).
Abbreviation nothingInRange := (observer_fee.nothingInRange queryRow feeRange).

Lemma signFeeInputs_outputs (utxos : list Output.t) (idxs : list nat) :
  forall msgTx msgTx',
    signFeeInputs utxos idxs msgTx = Returns (inl msgTx') ->
    wire.TxOut_ msgTx' = wire.TxOut_ msgTx.
Proof.
  induction idxs as [|idx rest IH]; intros msgTx msgTx'; cbn [observer_fee.signFeeInputs].
  - intros H. injection H as <-. reflexivity.
  - destruct (utxos !! idx) as [utxo|]; [|discriminate].
    destruct (ReadAccountantPrivateKey _) as [accountant|e]; [|discriminate].
    destruct (DecodeHexOrPanic accountant) as [key|]; [|discriminate].
    destruct (signWitness key msgTx idx _) as [items|e]; [|discriminate].
    intros H. rewrite (IH _ _ H). reflexivity.
Qed.


Lemma retrieve_unfold (rows : observer_store.table) (fee fvb : Z) (tx : Transaction.t)
  (now : Z) (first : Output.t) (others : list Output.t) (script : list byte) :
  nothingInRange rows fee tx ->
  fst (observer_store.ReadBitcoinUTXOs rows (Transaction.Chain tx)) = first :: others ->
  ParseAddress (Output.Address first) (Transaction.Chain tx) = inl script ->
  bitcoinRetrieveFeeInputsForTransaction rows fee fvb tx now
  = match observer_fee.selectInputs NewHashFromStr MaxTransactionSequence ValueDust
            fee fvb (Transaction.Chain tx) script (first :: others) 0 [] with
    | inr e => Returns (rows, (None, Some e))
    | inl (_, []) => Returns (rows, (None, None))
    | inl (ins, out0 :: outs) =>
        match signFeeInputs (first :: others) (seq 0 (length ins))
                {| wire.TxIn_ := ins; wire.TxOut_ := out0 :: outs |} with
        | Panics why => Panics why
        | Returns (inr e) => Returns (rows, (None, Some e))
        | Returns (inl msgTx) =>
            match MarshalWiredTransaction msgTx (Transaction.Chain tx) with
            | None => Returns (rows, (None, Some "MarshalWiredTransaction"%string))
            | Some raw =>
                let '(rows2, err) :=
                  observer_store.WriteBitcoinFeeOutput TxHash MarshalWiredTransaction
                    rows msgTx (Output.Address first) tx now in
                Returns (rows2,
                         (Some (feeOutput (TxHash msgTx) (wire.Value out0) raw), err))
            end
        end
    end.
Proof.
  unfold observer_fee.nothingInRange. intros Hnone Hutxos Hscript.
  unfold observer_fee.bitcoinRetrieveFeeInputsForTransaction.
  destruct (feeRange fee) as [min max]. cbn [fst snd] in Hnone.
  unfold observer_store.AssignBitcoinUTXOByRangeForTransaction. rewrite Hnone, Hutxos, Hscript.
  reflexivity.
Qed.

(** A new fee transaction pays exactly the fee: when the range query
    finds nothing and the call hands back an output, that output is
    output 0 of a new transaction and is worth the fee; there is a
    least number [k] of the oldest spendable outputs whose total covers
    the fee and [74 + 75 k] vbytes at the fee rate, and that total is
    the fee, that size at the fee rate and the change; and when the
    store call succeeded the table has its rows as they were or
    assigned, then output 0 as [Done] and spent by the transaction, then
    the change as a new spendable output if it is above dust. *)
Theorem fee_transaction_pays_exactly_the_fee (rows rows' : observer_store.table)
  (fee fvb : Z) (tx : Transaction.t) (now : Z) (out : Output.t) (err : error) :
  let utxos := fst (observer_store.ReadBitcoinUTXOs rows (Transaction.Chain tx)) in
  nothingInRange rows fee tx ->
  0 <= fee < 2 ^ 63 -> 0 <= fvb -> 0 <= ValueDust (Transaction.Chain tx) < 2 ^ 63 ->
  Forall (fun o => 0 <= Output.Satoshi o) utxos ->
  totalSatoshi utxos < 2 ^ 63 ->
  (74 + 75 * Z.of_nat (length utxos)) * fvb + fee < 2 ^ 64 ->
  bitcoinRetrieveFeeInputsForTransaction rows fee fvb tx now
    = Returns (rows', (Some out, err)) ->
  Output.Satoshi out = fee /\ Output.Index out = 0
  /\ exists (k : nat) (change : Z),
       (1 <= k <= length utxos)%nat
       /\ (forall j, (1 <= j < k)%nat ->
             totalSatoshi (firstn j utxos) < (74 + 75 * Z.of_nat j) * fvb + fee)
       /\ totalSatoshi (firstn k utxos) = fee + (74 + 75 * Z.of_nat k) * fvb + change
       /\ 0 <= change
       /\ match err with
          | Some _ => rows' = rows
          | None =>
              exists upd raw receiver script,
                Forall2 observer_store.rowStep rows upd
                /\ rows'
                   = upd
                     ++ observer_store.feeOutputRow (Output.TransactionHash out) raw receiver
                          tx now 0 {| wire.Value := fee; wire.PkScript := script |}
                     :: (if change >? ValueDust (Transaction.Chain tx)
                         then [ observer_store.feeOutputRow (Output.TransactionHash out) raw
                                  receiver tx now 1
                                  {| wire.Value := change; wire.PkScript := script |} ]
                         else [])
          end.
Proof.
  intros utxos Hnone Hfee Hfvb Hdust Hpos Hsum Hest Hrun.
  assert (Hlen : (length utxos <= 256)%nat).
  { subst utxos. unfold observer_store.ReadBitcoinUTXOs. cbn [fst]. apply firstn_le_length. }
  destruct utxos as [|first others] eqn:Hutxos.
  { exfalso. unfold observer_fee.bitcoinRetrieveFeeInputsForTransaction in Hrun.
    unfold observer_fee.nothingInRange in Hnone. destruct (feeRange fee) as [min max]. cbn [fst snd] in Hnone.
    unfold observer_store.AssignBitcoinUTXOByRangeForTransaction in Hrun.
    subst utxos. rewrite Hnone, Hutxos in Hrun. discriminate. }
  subst utxos.
  destruct (ParseAddress (Output.Address first) (Transaction.Chain tx)) as [script|e]
    eqn:Hscript.
  2:{ exfalso. unfold observer_fee.bitcoinRetrieveFeeInputsForTransaction in Hrun.
      unfold observer_fee.nothingInRange in Hnone. destruct (feeRange fee) as [min max]. cbn [fst snd] in Hnone.
      unfold observer_store.AssignBitcoinUTXOByRangeForTransaction in Hrun.
      rewrite Hnone, Hutxos, Hscript in Hrun. discriminate. }
  rewrite (retrieve_unfold _ _ _ _ _ _ _ _ Hnone Hutxos Hscript) in Hrun.
  destruct (observer_fee.selectInputs _ _ _ fee fvb _ script (first :: others) 0 [])
    as [[ins [|out0 outs]]|e] eqn:Hsel; try discriminate.
  destruct (selectInputs_pays_the_fee NewHashFromStr MaxTransactionSequence ValueDust
              fee fvb (Transaction.Chain tx) script (first :: others) ins (out0 :: outs)
              Hfee Hfvb Hdust Hpos Hsum Hlen Hest Hsel ltac:(discriminate))
    as (k & Hk & _ & Hmin & change & Htotal & Hchange & Houts).
  destruct (signFeeInputs _ _ _) as [[msgTx|e]|why] eqn:Hsign; try discriminate.
  pose proof (signFeeInputs_outputs _ _ _ _ Hsign) as Hsame. cbn [wire.TxOut_] in Hsame.
  destruct (MarshalWiredTransaction msgTx (Transaction.Chain tx)) as [raw|] eqn:Hraw;
    [|discriminate].
  destruct (observer_store.WriteBitcoinFeeOutput _ _ rows msgTx _ tx now) as [rows2 err2]
    eqn:Hwrite.
  injection Hrun as <- <- <-.
  assert (Hout0 : out0 = {| wire.Value := fee; wire.PkScript := script |}).
  { destruct (change >? ValueDust (Transaction.Chain tx)); injection Houts as -> _; reflexivity. }
  cbn [feeOutput Output.Satoshi Output.Index Output.TransactionHash].
  split; [rewrite Hout0; reflexivity|]. split; [reflexivity|].
  exists k, change. split; [exact Hk|]. split; [exact Hmin|].
  split; [exact Htotal|]. split; [exact Hchange|].
  destruct err2 as [e|].
  - unfold observer_store.WriteBitcoinFeeOutput in Hwrite. rewrite Hraw in Hwrite.
    destruct (observer_store.spendInputs _ _ _ rows) as [rows1|];
      [|injection Hwrite as <- _; reflexivity].
    destruct (observer_store.insertOutputs _ _ _ _ _ _ _ rows1) as [rows3|];
      [discriminate | injection Hwrite as <- _; reflexivity].
  - destruct (observer_store_props.WriteBitcoinFeeOutput_committed _ _ _ _ _ _ _ _ Hwrite)
      as (upd & raw' & Hupd & ->).
    exists upd, raw', (Output.Address first), script. split; [exact Hupd|].
    f_equal. rewrite Hsame.
    destruct (change >? ValueDust (Transaction.Chain tx)); rewrite Houts; reflexivity.
Qed.

(** No fee transaction without funds: when the range query finds
    nothing and no prefix of the spendable outputs covers the fee and
    its size at the fee rate, the call returns no output and no error,
    and the table is as it was. *)
Theorem no_fee_transaction_without_funds (rows : observer_store.table)
  (fee fvb : Z) (tx : Transaction.t) (now : Z) :
  let utxos := fst (observer_store.ReadBitcoinUTXOs rows (Transaction.Chain tx)) in
  nothingInRange rows fee tx ->
  0 <= fee -> 0 <= fvb ->
  Forall (fun o => 0 <= Output.Satoshi o
                   /\ is_Some (NewHashFromStr (Output.TransactionHash o))) utxos ->
  (forall first, head utxos = Some first ->
     exists script, ParseAddress (Output.Address first) (Transaction.Chain tx) = inl script) ->
  (74 + 75 * Z.of_nat (length utxos)) * fvb + fee < 2 ^ 64 ->
  (forall j, (1 <= j <= length utxos)%nat ->
     totalSatoshi (firstn j utxos) < (74 + 75 * Z.of_nat j) * fvb + fee) ->
  bitcoinRetrieveFeeInputsForTransaction rows fee fvb tx now = Returns (rows, (None, None)).
Proof.
  intros utxos Hnone Hfee Hfvb Hpos Hparse Hest Hshort.
  assert (Hlen : (length utxos <= 256)%nat).
  { subst utxos. unfold observer_store.ReadBitcoinUTXOs. cbn [fst]. apply firstn_le_length. }
  destruct utxos as [|first others] eqn:Hutxos.
  - unfold observer_fee.bitcoinRetrieveFeeInputsForTransaction.
    unfold observer_fee.nothingInRange in Hnone. destruct (feeRange fee) as [min max]. cbn [fst snd] in Hnone.
    unfold observer_store.AssignBitcoinUTXOByRangeForTransaction.
    subst utxos. rewrite Hnone, Hutxos. reflexivity.
  - subst utxos. destruct (Hparse first eq_refl) as [script Hscript].
    rewrite (retrieve_unfold _ _ _ _ _ _ _ _ Hnone Hutxos Hscript).
    destruct (selectInputs_insufficient NewHashFromStr MaxTransactionSequence ValueDust
                fee fvb (Transaction.Chain tx) script (first :: others)
                Hfee Hfvb Hpos Hlen Hest Hshort) as (ins & -> & _).
    reflexivity.
Qed.

End whole.
End observer_fee_props.

(** ** Broadcasting a spend and the transaction that pays its fee *)
Module observer_spend_props.
Section node.

Variable W : Type.
Variable bitcoinParams : Z -> option (string * string).
Variable RPCSendRawTransaction : W -> string -> string -> W * (string * error).
Variable DecodeHexOrPanic : string -> option (list byte).
Variable TxHash : wire.MsgTx -> string.
Variable MarshalWiredTransaction : wire.MsgTx -> Z -> option (list byte).
Variable RPCGetTransaction : W -> Z -> string -> string -> W * (bool * error).
Variable bitcoinProcessTransaction : W -> string -> Z -> W * exit.

Abbreviation bitcoinBroadcastTransactionAndWriteDeposit :=
  (observer_spend.bitcoinBroadcastTransactionAndWriteDeposit W bitcoinParams
     RPCSendRawTransaction DecodeHexOrPanic TxHash MarshalWiredTransaction
     RPCGetTransaction bitcoinProcessTransaction).
Abbreviation broadcastAndFetch :=
  (observer_spend.broadcastAndFetch W bitcoinParams RPCSendRawTransaction RPCGetTransaction).

Lemma broadcastAndFetch_already_in_chain (w : W) (rpc asset hash : string) (raw : list byte)
  (chain : Z) (e : string) :
  bitcoinParams chain = Some (rpc, asset) ->
  RPCSendRawTransaction w rpc (hex.EncodeToString raw) = (w, (EmptyString, Some e)) ->
  strings.Contains e "Transaction already in block chain" = true ->
  RPCGetTransaction w chain rpc hash = (w, (true, None)) ->
  broadcastAndFetch w rpc hash raw chain = (w, inl tt).
Proof.
  intros Hparams Hsend Hin Hget.
  unfold observer_spend.broadcastAndFetch, observer.bitcoinBroadcastTransaction.
  rewrite Hparams, Hsend, Hin, Hget. reflexivity.
Qed.

(** The fee goes first, and a rerun picks up where the chain is: when
    the node refuses the transaction that pays the fee (an error other
    than "already in block chain"), the call returns that error after
    this one RPC call, with the spend not sent; and when the node says
    of both transactions that they are already in the block chain and
    can fetch them, the call goes on to process the spend. *)
Theorem fee_is_broadcast_before_the_spend (w : W) (feeInput : Output.t)
  (msgTx : wire.MsgTx) (chain : Z) (rpc asset : string) (feeRaw : list byte) :
  bitcoinParams chain = Some (rpc, asset) ->
  sql.String_ (Output.RawTransaction feeInput) <> EmptyString ->
  DecodeHexOrPanic (sql.String_ (Output.RawTransaction feeInput)) = Some feeRaw ->
  (forall w1 id e,
     RPCSendRawTransaction w rpc (hex.EncodeToString feeRaw) = (w1, (id, Some e)) ->
     strings.Contains e "Transaction already in block chain" = false ->
     bitcoinBroadcastTransactionAndWriteDeposit w feeInput msgTx chain
     = (w1, Return (Some e)))
  /\ (forall raw,
        MarshalWiredTransaction msgTx chain = Some raw ->
        (forall x, exists e,
           RPCSendRawTransaction w rpc x = (w, (EmptyString, Some e))
           /\ strings.Contains e "Transaction already in block chain" = true) ->
        (forall hash, RPCGetTransaction w chain rpc hash = (w, (true, None))) ->
        bitcoinBroadcastTransactionAndWriteDeposit w feeInput msgTx chain
        = bitcoinProcessTransaction w (TxHash msgTx) chain).
Proof.
  intros Hparams Hraw Hdecode.
  apply String.eqb_neq in Hraw.
  split.
  - intros w1 id e Hsend Hother.
    unfold observer_spend.bitcoinBroadcastTransactionAndWriteDeposit.
    rewrite Hparams, Hraw, Hdecode.
    unfold observer_spend.broadcastAndFetch, observer.bitcoinBroadcastTransaction.
    rewrite Hparams, Hsend, Hother. reflexivity.
  - intros raw Hmarshal Hsend Hget.
    unfold observer_spend.bitcoinBroadcastTransactionAndWriteDeposit.
    rewrite Hparams, Hraw, Hdecode.
    destruct (Hsend (hex.EncodeToString feeRaw)) as (e1 & Hs1 & Hin1).
    rewrite (broadcastAndFetch_already_in_chain w rpc asset _ feeRaw chain e1
               Hparams Hs1 Hin1 (Hget _)).
    rewrite Hmarshal.
    destruct (Hsend (hex.EncodeToString raw)) as (e2 & Hs2 & Hin2).
    rewrite (broadcastAndFetch_already_in_chain w rpc asset _ raw chain e2
               Hparams Hs2 Hin2 (Hget _)).
    reflexivity.
Qed.

End node.
End observer_spend_props.

(** ** The signer node *)
Module signer_props.
Import signer.

Lemma findFrom_range (members : list string) (m : string) :
  forall i, 0 <= i ->
    (findFrom i members m = -1 /\ ~ In m members)
    \/ (exists k : nat,
          findFrom i members m = i + Z.of_nat k
          /\ members !! k = Some m
          /\ forall j, (j < k)%nat -> members !! j <> Some m).
Proof.
  induction members as [|id rest IH]; intros i Hi; cbn [findFrom].
  - left. split; [reflexivity | intros []].
  - destruct (String.eqb_spec m id) as [->|Hne].
    + right. exists 0%nat. split; [lia|]. split; [reflexivity|]. intros j Hj. lia.
    + destruct (IH (i + 1) ltac:(lia)) as [[Hnone Hnot]|(k & Hk & Hat & Hfirst)].
      * left. split; [exact Hnone|]. intros [Heq|Hin]; [congruence | contradiction].
      * right. exists (S k). split; [lia|]. split; [exact Hat|].
        intros j Hj. destruct j as [|j]; cbn; [congruence|]. apply Hfirst. lia.
Qed.

(** [findMember] gives the first place of a member, counted from 0, and
    -1 for a stranger; [Index] panics exactly when the node is not among
    its members. *)
Theorem findMember_first_place (members : list string) (m : string) :
  (~ In m members
   /\ findMember members m = -1
   /\ Index members m = Panics m)
  \/ (exists k : nat,
        findMember members m = Z.of_nat k
        /\ members !! k = Some m
        /\ (forall j, (j < k)%nat -> members !! j <> Some m)
        /\ Index members m = Returns (Z.of_nat k)).
Proof.
  unfold Index, findMember.
  destruct (findFrom_range members m 0 ltac:(lia)) as [[Hnone Hnot]|(k & Hk & Hat & Hfirst)].
  - left. rewrite Hnone. split; [exact Hnot|]. split; reflexivity.
  - right. exists k. rewrite Hk. replace (0 + Z.of_nat k) with (Z.of_nat k) by lia.
    destruct (Z.ltb_spec (Z.of_nat k) 0) as [Hneg|_]; [lia|].
    split; [reflexivity|]. split; [exact Hat|]. split; [exact Hfirst | reflexivity].
Qed.

(** *** Queued operations *)

Lemma startedBy_spec (opIds : list string) :
  forall operations,
    NoDup (startedBy operations opIds)
    /\ forall id, In id (startedBy operations opIds) <-> In id opIds /\ id ∉ operations.
Proof.
  induction opIds as [|opId rest IH]; intros operations; cbn [startedBy].
  - split; [constructor | intros id; cbn; tauto].
  - unfold queueOperation. destruct (decide (opId ∈ operations)) as [Hin|Hnotin].
    + destruct (IH operations) as [Hnd Hiff]. cbn [app]. split; [exact Hnd|].
      intros id. rewrite Hiff. cbn [In]. split; [tauto|].
      intros [[<-|Hr] Hno]; [contradiction | tauto].
    + destruct (IH ({[opId]} ∪ operations)) as [Hnd Hiff]. cbn [app]. split.
      * constructor; [|exact Hnd]. intros Hx. apply list_elem_of_In, Hiff in Hx as [_ Hx].
        apply Hx. apply elem_of_union. left. apply elem_of_singleton. reflexivity.
      * intros id. cbn [In]. rewrite Hiff. split.
        -- intros [<-|[Hr Hno]]; [auto|]. split; [auto|].
           intros H. apply Hno. apply elem_of_union. right. exact H.
        -- intros [[<-|Hr] Hno]; [auto|].
           destruct (decide (id = opId)) as [->|Hne]; [auto|].
           right. split; [exact Hr|].
           intros H. apply elem_of_union in H as [H|H]; [|contradiction].
           apply elem_of_singleton in H. contradiction.
Qed.

(** An operation is started at most once: over any sequence of
    [queueOperation] calls, the operations started are those of the
    sequence that had not been started before, each one once. *)
Theorem queueOperation_starts_once (operations : gset string) (opIds : list string) :
  NoDup (startedBy operations opIds)
  /\ forall id, In id (startedBy operations opIds) <-> In id opIds /\ id ∉ operations.
Proof. apply startedBy_spec. Qed.

(** *** Session messages *)

Section messages.

Variable Message : Type.
Variable MarshalPanic : Message -> option (list byte).
Variable UnmarshalBinary : list byte -> Message * error.

Abbreviation marshalSessionMessage := (signer.marshalSessionMessage Message MarshalPanic).
Abbreviation unmarshalSessionMessage := (signer.unmarshalSessionMessage Message UnmarshalBinary).

(** A session message comes back as it was sent: for a session id of at
    most 32 bytes and a message with a non-empty encoding, at least 16
    bytes together with the length byte, the receiver splits off the
    same session id and decodes the same bytes; a message whose encoding
    is empty, or that is shorter than that, is answered with the "short"
    error. *)
Theorem session_message_round_trip (sessionId : list byte) (msg : Message)
  (encoded : list byte) :
  (length sessionId <= 32)%nat ->
  MarshalPanic msg = Some encoded ->
  exists b,
    marshalSessionMessage sessionId msg = Returns b
    /\ length b = (1 + length sessionId + length encoded)%nat
    /\ unmarshalSessionMessage b
       = if ((length b <? 16) || (length encoded =? 0))%nat
         then Returns (None, None, Some "short"%string)
         else Returns (Some sessionId, Some (fst (UnmarshalBinary encoded)),
                       snd (UnmarshalBinary encoded)).
Proof.
  intros Hlen Hmarshal. unfold signer.marshalSessionMessage. rewrite Hmarshal.
  destruct (Nat.ltb_spec 32 (length sessionId)) as [Hbig|_]; [lia|].
  eexists. split; [reflexivity|].
  split; [cbn [app length]; rewrite length_app; lia|].
  unfold signer.unmarshalSessionMessage.
  set (b := [binary.byteOf (Z.of_nat (length sessionId))] ++ sessionId ++ encoded).
  assert (Hb : length b = (1 + length sessionId + length encoded)%nat).
  { subst b. cbn [app length]. rewrite length_app. lia. }
  destruct (Nat.ltb_spec (length b) 16) as [Hshort|Hlong]; [reflexivity|]. cbn [orb].
  assert (Hb0 : Z.of_N (Byte.to_N (nth 0 b x00)) = Z.of_nat (length sessionId)).
  { subst b. cbn [app nth]. rewrite wire_props.to_N_byteOf. apply Z.mod_small. lia. }
  rewrite Hb0.
  assert (Hrest : length (slice_from 1 b) = (length sessionId + length encoded)%nat).
  { unfold slice_from. rewrite length_skipn. lia. }
  rewrite Hrest.
  destruct (Nat.eqb_spec (length encoded) 0) as [Hempty|Hsome].
  - destruct (Z.leb_spec (Z.of_nat (length sessionId + length encoded))
                (Z.of_nat (length sessionId))) as [_|Hgt]; [reflexivity | lia].
  - destruct (Z.leb_spec (Z.of_nat (length sessionId + length encoded))
                (Z.of_nat (length sessionId))) as [Hle|_]; [lia|].
    rewrite (Z.mod_small (1 + Z.of_nat (length sessionId))) by lia.
    destruct (Z.ltb_spec (1 + Z.of_nat (length sessionId)) 1) as [Hneg|_]; [lia|].
    replace (Z.to_nat (1 + Z.of_nat (length sessionId))) with (S (length sessionId)) by lia.
    assert (Hid : slice 1 (S (length sessionId)) b = sessionId).
    { subst b. apply (wire_props.slice_app_mid 1 (S (length sessionId)) [_]);
        [reflexivity | lia]. }
    assert (Henc : slice_from (S (length sessionId)) b = encoded).
    { subst b. unfold slice_from. cbn [app skipn].
      change (@skipn byte) with (@drop byte). rewrite drop_app_length. reflexivity. }
    rewrite Hid, Henc. destruct (UnmarshalBinary encoded) as [m e]. reflexivity.
Qed.

(** A length byte of 255 stops the receiver: the bound [1+b[0]] wraps to
    0, so a message of more than 256 bytes whose first byte is 255
    panics on the slice [b[1:0]] instead of being refused. *)
Theorem unmarshalSessionMessage_panics_on_length_255 (b : list byte) :
  nth 0 b x00 = xff ->
  (256 < length b)%nat ->
  unmarshalSessionMessage b = Panics "slice bounds out of range".
Proof.
  intros Hfirst Hlen. unfold signer.unmarshalSessionMessage. rewrite Hfirst.
  destruct (Nat.ltb_spec (length b) 16) as [Hshort|_]; [lia|].
  change (Z.of_N (Byte.to_N xff)) with 255.
  unfold slice_from. rewrite length_skipn.
  destruct (Z.leb_spec (Z.of_nat (length b - 1)) 255) as [Hle|_]; [lia|].
  reflexivity.
Qed.

End messages.

(** *** Message and signature in one extra *)

Lemma Uint32_bigEndian (v : Z) :
  binary.Uint32 (binary.bigEndian 4 v) = v mod 2 ^ 32.
Proof. apply (wire_props.Uint64_bigEndian 4 v). Qed.

Section verify.

Variables CurveSecp256k1ECDSABitcoin CurveSecp256k1ECDSAEthereum
  CurveSecp256k1SchnorrBitcoin CurveEdwards25519Default CurveEdwards25519Mixin : Z.
Variable deriveByPath : Z -> list byte -> list byte -> option (list byte * list byte).
Variable bitcoin_VerifySignatureDER : string -> list byte -> list byte -> error.
Variable ethereum_VerifyHashSignature : string -> list byte -> list byte -> outcome error.
Variable mixinVerify : string -> list byte -> list byte -> option bool.
Variable CheckTestEnvironment : bool.

Abbreviation verifySessionSignature :=
  (signer.verifySessionSignature CurveSecp256k1ECDSABitcoin CurveSecp256k1ECDSAEthereum
     CurveSecp256k1SchnorrBitcoin CurveEdwards25519Default CurveEdwards25519Mixin
     deriveByPath bitcoin_VerifySignatureDER ethereum_VerifyHashSignature mixinVerify
     CheckTestEnvironment).

(** What [concatMessageAndSignature] joins, [verifySessionSignature]
    takes apart again: for a Bitcoin ECDSA session the signature checked
    against the derived key is the one that was joined to the message,
    over that message; and a signature of fewer than 28 bytes is
    refused before any key is derived. *)
Theorem message_and_signature_round_trip (holder : string) (msg sig share path : list byte) :
  Z.of_nat (length msg) < 2 ^ 32 - 4 ->
  let extra := concatMessageAndSignature msg sig in
  ((length sig < 28)%nat ->
   verifySessionSignature CurveSecp256k1ECDSABitcoin holder extra share path
   = Returns (false, None))
  /\ ((28 <= length sig)%nat ->
      forall public chainCode,
        deriveByPath CurveSecp256k1ECDSABitcoin share path = Some (public, chainCode) ->
        verifySessionSignature CurveSecp256k1ECDSABitcoin holder extra share path
        = Returns (bool_decide (bitcoin_VerifySignatureDER (hex.EncodeToString public) msg sig
                                = None), Some sig)).
Proof.
  intros Hmsg extra. subst extra.
  unfold concatMessageAndSignature, binary.AppendUint32. cbn [app].
  set (prefix := binary.bigEndian 4 (Z.of_nat (length msg) mod 2 ^ 32)).
  assert (Hprefix : length prefix = 4%nat) by apply wire_props.bigEndian_length.
  assert (Hel : binary.Uint32 prefix = Z.of_nat (length msg)).
  { subst prefix. rewrite Uint32_bigEndian, Z.mod_mod by lia. apply Z.mod_small. lia. }
  clearbody prefix.
  assert (Hlen : length (prefix ++ msg ++ sig) = (4 + length msg + length sig)%nat).
  { rewrite !length_app. lia. }
  assert (Hhead : slice 0 4 (prefix ++ msg ++ sig) = prefix).
  { apply (wire_props.slice_app_mid 0 4 [] prefix (msg ++ sig)); [reflexivity | exact Hprefix]. }
  unfold signer.verifySessionSignature. rewrite Hlen, Hhead, Hel.
  destruct (Nat.ltb_spec (4 + length msg + length sig) 4) as [Hshort|_]; [lia|].
  split.
  - intros Hsig.
    destruct (Z.ltb_spec (Z.of_nat (4 + length msg + length sig))
                (Z.of_nat (length msg) + 32)) as [_|Hge]; [reflexivity | lia].
  - intros Hsig public chainCode Hderive.
    destruct (Z.ltb_spec (Z.of_nat (4 + length msg + length sig))
                (Z.of_nat (length msg) + 32)) as [Hlt|_]; [lia|].
    rewrite (Z.mod_small (4 + Z.of_nat (length msg))) by lia.
    destruct (Z.ltb_spec (4 + Z.of_nat (length msg)) 4) as [Hneg|_]; [lia|].
    replace (Z.to_nat (4 + Z.of_nat (length msg))) with (4 + length msg)%nat by lia.
    assert (Hm : slice 4 (4 + length msg) (prefix ++ msg ++ sig) = msg).
    { apply wire_props.slice_app_mid; [exact Hprefix | lia]. }
    assert (Hs : slice_from (4 + length msg) (prefix ++ msg ++ sig) = sig).
    { unfold slice_from. change (@skipn byte) with (@drop byte).
      rewrite app_assoc, drop_app_length'; [reflexivity|]. rewrite length_app. lia. }
    rewrite Hm, Hs, Hderive, Z.eqb_refl. reflexivity.
Qed.

End verify.

(** *** When a session is finished *)

Section results.

Variables OperationTypeKeygenInput OperationTypeSignInput : Z.
Variable Members : list string.
Variable self : string.
Variable threshold : Z.
Variable DecodeHexOrPanic : string -> option (list byte).

Abbreviation verifySessionSignerResults :=
  (signer.verifySessionSignerResults OperationTypeKeygenInput OperationTypeSignInput
     Members self threshold DecodeHexOrPanic).
Abbreviation signLoop := (signer.signLoop DecodeHexOrPanic).

Lemma filter_all_length {A : Type} (p : A -> bool) (l : list A) :
  (length l <= length (List.filter p l))%nat <-> Forall (fun x => p x = true) l.
Proof.
  induction l as [|x l IH]; cbn [List.filter length].
  - split; [constructor | lia].
  - pose proof (List.filter_length_le p l) as Hle.
    destruct (p x) eqn:Hx; cbn [length].
    + rewrite <- Nat.succ_le_mono, IH. split.
      * intros H. constructor; assumption.
      * intros H. apply Forall_cons in H as [_ H]. exact H.
    + split; [lia|]. intros H. apply Forall_cons in H as [H _]. congruence.
Qed.

(** Key generation ends on unanimity: the session counts as finished
    exactly when every member has reported the session's public key and
    that key is what this node reported itself. *)
Theorem keygen_finishes_on_unanimity (session : Session)
  (sessionSigners : gmap string string) :
  Operation session = OperationTypeKeygenInput ->
  exists finished,
    verifySessionSignerResults session sessionSigners = Returns (finished, None)
    /\ (finished = true <->
        Forall (fun id =>
                  sessionSigners !! id = Some (Public session)
                  /\ default EmptyString (sessionSigners !! self) = Public session) Members).
Proof.
  intros Hop. unfold signer.verifySessionSignerResults. rewrite Hop, Z.eqb_refl.
  eexists. split; [reflexivity|].
  rewrite Nat.leb_le, filter_all_length.
  apply Forall_iff. intros id. unfold keygenSigned.
  destruct (sessionSigners !! id) as [public|]; [|split; [discriminate | intros [H _]; discriminate]].
  rewrite andb_true_iff, !String.eqb_eq. split.
  - intros [-> H]. auto.
  - intros [H1 H2]. injection H1 as ->. auto.
Qed.

Lemma signLoop_agreed (sessionSigners : gmap string string) (sig : list byte)
  (ids : list string) :
  forall signed,
    signLoop sessionSigners ids (signed, Some sig)
    = Some (signed + Z.of_nat (length (List.filter (agrees sessionSigners sig) ids)),
            Some sig).
Proof.
  induction ids as [|id rest IH]; intros signed; cbn [signer.signLoop List.filter length].
  - rewrite Z.add_0_r. reflexivity.
  - destruct (agrees sessionSigners sig id) eqn:Hag; unfold agrees in Hag; unfold signStep;
      destruct (sessionSigners !! id) as [extra|]; try discriminate;
      try rewrite Hag; rewrite IH; cbn [length]; do 2 f_equal; lia.
Qed.

(** A signature needs more than threshold members behind it: the
    signature handed back is the one of the first member, in genesis
    order, that reported anything, and the session counts as finished
    exactly when more than [threshold] members reported that very
    signature, not empty; when no member reported, there is no
    signature. *)
Theorem signing_finishes_above_threshold (session : Session)
  (sessionSigners : gmap string string) (finished : bool) (sig : option (list byte)) :
  Operation session <> OperationTypeKeygenInput ->
  Operation session = OperationTypeSignInput ->
  verifySessionSignerResults session sessionSigners = Returns (finished, sig) ->
  match sig with
  | None =>
      Forall (fun id => sessionSigners !! id = None) Members
      /\ finished = (threshold <? 0)
  | Some s =>
      (exists before first rest extra,
         Members = before ++ first :: rest
         /\ Forall (fun id => sessionSigners !! id = None) before
         /\ sessionSigners !! first = Some extra
         /\ DecodeHexOrPanic extra = Some s)
      /\ finished
         = (threshold <? Z.of_nat (length (List.filter (agrees sessionSigners s) Members)))
  end.
Proof.
  intros Hkeygen Hsign. unfold signer.verifySessionSignerResults.
  destruct (Z.eqb_spec (Operation session) OperationTypeKeygenInput) as [|_]; [contradiction|].
  rewrite Hsign, Z.eqb_refl.
  assert (Hgen : forall ids,
            match signLoop sessionSigners ids (0, None) with
            | None => True
            | Some (signed, None) =>
                Forall (fun id => sessionSigners !! id = None) ids /\ signed = 0
            | Some (signed, Some s) =>
                (exists before first rest extra,
                   ids = before ++ first :: rest
                   /\ Forall (fun id => sessionSigners !! id = None) before
                   /\ sessionSigners !! first = Some extra
                   /\ DecodeHexOrPanic extra = Some s)
                /\ signed = Z.of_nat (length (List.filter (agrees sessionSigners s) ids))
            end).
  { induction ids as [|id rest IH]; cbn [signer.signLoop].
    - split; [constructor | reflexivity].
    - unfold signStep at 1. destruct (sessionSigners !! id) as [extra|] eqn:Hid.
      + destruct (DecodeHexOrPanic extra) as [s|] eqn:Hdec; [|exact I].
        assert (Hfirst : exists before first rest0 extra0,
                   id :: rest = before ++ first :: rest0
                   /\ Forall (fun id => sessionSigners !! id = None) before
                   /\ sessionSigners !! first = Some extra0
                   /\ DecodeHexOrPanic extra0 = Some s).
        { exists [], id, rest, extra. split; [reflexivity|]. split; [constructor|]. auto. }
        assert (Hag : agrees sessionSigners s id
                      = negb (String.eqb extra EmptyString)
                        && String.eqb (hex.EncodeToString s) extra).
        { unfold agrees. rewrite Hid. reflexivity. }
        destruct (negb (String.eqb extra EmptyString)
                  && String.eqb (hex.EncodeToString s) extra);
          rewrite signLoop_agreed; (split; [exact Hfirst|]);
          cbn [List.filter]; rewrite Hag; cbn [length]; lia.
      + destruct (signLoop sessionSigners rest (0, None)) as [[signed [s|]]|]; [| |exact I].
        * destruct IH as [(before & first & rest0 & extra & -> & Hnone & Hf & Hdec) ->].
          split.
          -- exists (id :: before), first, rest0, extra.
             split; [reflexivity|]. split; [constructor; assumption|]. auto.
          -- cbn [List.filter].
             replace (agrees sessionSigners s id) with false; [reflexivity|].
             unfold agrees. rewrite Hid. reflexivity.
        * destruct IH as [Hnone ->]. split; [constructor; assumption | reflexivity]. }
  specialize (Hgen Members).
  destruct (signLoop sessionSigners Members (0, None)) as [[signed sig0]|]; [|discriminate].
  intros H. injection H as <- <-.
  destruct sig0 as [s|].
  - destruct Hgen as [Hfirst ->]. split; [exact Hfirst | reflexivity].
  - destruct Hgen as [Hnone ->]. split; [exact Hnone | reflexivity].
Qed.

End results.

End signer_props.

(** ** The owners of an Ethereum safe *)
Module ethereum_account_props.
Section owners.

Variable ParseEthereumCompressedPublicKey : string -> option Z.
Variable Hex : Z -> string.
Variable HexToAddress : string -> Z.

Lemma perm3_swap12 {A : Type} (a b c : A) : [b; a; c] ≡ₚ [a; b; c].
Proof. apply perm_swap. Qed.

Lemma perm3_swap23 {A : Type} (a b c : A) : [a; c; b] ≡ₚ [a; b; c].
Proof. apply perm_skip, perm_swap. Qed.

Lemma perm3_rotl {A : Type} (a b c : A) : [b; c; a] ≡ₚ [a; b; c].
Proof. etransitivity; [apply perm3_swap23 | apply perm3_swap12]. Qed.

Lemma perm3_rotr {A : Type} (a b c : A) : [c; a; b] ≡ₚ [a; b; c].
Proof. etransitivity; [apply perm3_swap12 | apply perm3_swap23]. Qed.

Lemma perm3_swap13 {A : Type} (a b c : A) : [c; b; a] ≡ₚ [a; b; c].
Proof. etransitivity; [apply perm3_swap12 | apply perm3_rotl]. Qed.

Ltac perm3 :=
  first [ reflexivity | apply perm3_swap12 | apply perm3_swap23 | apply perm3_rotl
        | apply perm3_rotr | apply perm3_swap13 ].

Abbreviation GetSortedSafeOwners :=
  (ethereum_account.GetSortedSafeOwners ParseEthereumCompressedPublicKey Hex HexToAddress).

(** The owners come out in ascending order with their keys beside them:
    for three keys that parse, [GetSortedSafeOwners] returns the three
    addresses sorted, and, when the addresses differ, the keys in the
    same order, key [i] being the key of owner [i]; when two keys have
    the same address, one place of the keys is left empty. *)
Theorem GetSortedSafeOwners_aligned (holder signer observer : string) (h s o : Z) :
  ParseEthereumCompressedPublicKey holder = Some h ->
  ParseEthereumCompressedPublicKey signer = Some s ->
  ParseEthereumCompressedPublicKey observer = Some o ->
  HexToAddress (Hex h) = h -> HexToAddress (Hex s) = s -> HexToAddress (Hex o) = o ->
  exists owners pubs,
    GetSortedSafeOwners holder signer observer = Returns (owners, pubs)
    /\ Permutation owners [Hex h; Hex s; Hex o]
    /\ StronglySorted (fun a b => HexToAddress a <= HexToAddress b) owners
    /\ (h <> s -> h <> o -> s <> o ->
        Permutation pubs [holder; signer; observer]
        /\ Forall2 (fun owner pub =>
                      Hex <$> ParseEthereumCompressedPublicKey pub = Some owner)
             owners pubs)
    /\ (h = s \/ h = o \/ s = o -> In EmptyString pubs).
Proof.
  intros Hholder Hsigner Hobserver Hh Hs Ho.
  unfold ethereum_account.GetSortedSafeOwners.
  cbn [ethereum_account.addressesOf]. rewrite Hholder, Hsigner, Hobserver.
  unfold sort.Slice. cbn [fold_left sort.insertLeft].
  unfold ethereum_account.lessAddress. rewrite ?Hh, ?Hs, ?Ho.
  assert (Hsorted3 : forall a b c : Z,
            HexToAddress (Hex a) = a -> HexToAddress (Hex b) = b ->
            HexToAddress (Hex c) = c -> a <= b -> b <= c ->
            StronglySorted (fun x y => HexToAddress x <= HexToAddress y)
              [Hex a; Hex b; Hex c]).
  { intros a b c Ha Hb Hc Hab Hbc.
    repeat (constructor; [|repeat (constructor; try (rewrite ?Ha, ?Hb, ?Hc; lia))]).
    constructor. }
  destruct (Z.ltb_spec s h) as [Hsh|Hsh]; cbn [sort.insertLeft];
    rewrite ?Hh, ?Hs, ?Ho;
    destruct (Z.ltb_spec o h) as [Hoh|Hoh]; cbn [sort.insertLeft];
    rewrite ?Hh, ?Hs, ?Ho;
    try (destruct (Z.ltb_spec o s) as [Hos|Hos]; cbn [sort.insertLeft]);
    cbn [rev app ethereum_account.indexOwners ethereum_account.placeKeys replicate];
    rewrite ?Hholder, ?Hsigner, ?Hobserver.
  all: destruct (Z.eq_dec h s) as [Ehs|Ehs]; try (exfalso; lia);
    destruct (Z.eq_dec h o) as [Eho|Eho]; try (exfalso; lia);
    destruct (Z.eq_dec s o) as [Eso|Eso]; try (exfalso; lia);
    subst;
    repeat first
      [ rewrite lookup_insert_eq
      | rewrite lookup_insert_ne
          by (let E := fresh in
              intros E; apply (f_equal HexToAddress) in E; rewrite ?Hh, ?Hs, ?Ho in E; lia) ];
    cbn;
    (eexists _, _; split; [reflexivity|]);
    (split; [perm3|]);
    (split; [apply Hsorted3; (assumption || lia)|]);
    (split;
     [ intros N1 N2 N3;
       first
         [ exfalso; congruence
         | split;
           [ perm3
           | do 3 (once constructor;
                   [rewrite ?Hholder, ?Hsigner, ?Hobserver; reflexivity|]);
             once constructor ] ]
     | intros [E|[E|E]]; first [ exfalso; lia | cbn [In]; tauto ] ]).
Qed.

End owners.
End ethereum_account_props.

(** ** Examples: price info and network records *)
Module wire_examples.

Lemma price_info_reaches_the_keeper_witness :
  exists id extra,
    samples.sendBitcoinPriceInfo [] 1 = ([(id, extra)], Return None)
    /\ length extra = 33%nat
    /\ OperationParams.OperationPriceAmount
         (keeper_params.decodeParams
            {| common.Id := "r1"; common.Role_ := common.RequestRoleObserver;
               common.Curve := 1; common.ExtraBytes := extra; common.CreatedAt := 0 |})
       = decimal.New 100000000 (-8).
Proof.
  destruct (wire_props.price_info_reaches_the_keeper
              (list (string * list byte)) fixtures.bitcoinParams
              (fun w _ => (w, (Some samples.priceAsset, None)))
              "31d2ea9c-95eb-3355-b65b-ba096853bc18"
              (Some (decimal.New 1 0)) (Some (decimal.New 1 (-4))) 1000 "holder"
              (fun a b => (a ++ ":" ++ b)%string) (fun _ => "1"%string)
              (fun _ => Some (repeat x11 16)) 123
              (fun w _ _ _ id extra => ((id, extra) :: w, None))
              unit 1 5 2 6 (fun _ => 1)
              (fun k _ _ => Returns (k, ([], EmptyString)))
              (fun k _ _ => (k, None))
              (fun s _ _ _ _ _ => (s, None))
              [] [] 1 "btc" "bitcoin-asset" samples.priceAsset
              (decimal.New 1 0) (decimal.New 1 (-4)) (repeat x11 16))
    as (id & extra & Hsend & Hlen & Hread).
  - reflexivity.
  - reflexivity.
  - reflexivity.
  - reflexivity.
  - vm_compute. reflexivity.
  - vm_compute. reflexivity.
  - vm_compute. discriminate.
  - reflexivity.
  - reflexivity.
  - lia.
  - exists id, extra. split; [exact Hsend|]. split; [exact Hlen|].
    vm_compute in Hsend. injection Hsend as <- <-. vm_compute. reflexivity.
Defined.

End wire_examples.

Module network_record_examples.

Lemma writeNetworkInfo_stores_new_block_witness :
  fixtures.writeNetworkInfo fixtures.storeAt100 (fixtures.networkRequest "r1" x05 x64 xbb)
  = Returns (store.WriteNetworkInfoFromRequest fixtures.storeAt100 (fixtures.pushed 5),
             ([], EmptyString))
  /\ store.ReadLatestNetworkInfo
       (store.WriteNetworkInfoFromRequest fixtures.storeAt100 (fixtures.pushed 5)) 1
     = Some (fixtures.pushed 5).
Proof.
  apply (keeper_record_props.writeNetworkInfo_stores_new_block
           fixtures.SafeChainBitcoin fixtures.SafeChainLitecoin
           fixtures.SafeChainEthereum fixtures.SafeChainPolygon (fun _ => 1)
           "btc" "ltc" "eth" "matic" fixtures.rpcAt100 fixtures.rpcAt100
           fixtures.storeAt100 (fixtures.networkRequest "r1" x05 x64 xbb)
           {| rpc.Height := 100; rpc.Confirmations := 6 |}).
  - reflexivity.
  - reflexivity.
  - intros old Hold. vm_compute in Hold. injection Hold as <-.
    split; [discriminate | vm_compute; discriminate].
  - reflexivity.
  - reflexivity.
  - vm_compute. reflexivity.
  - reflexivity.
  - reflexivity.
  - vm_compute. discriminate.
  - vm_compute. split; discriminate.
Defined.

Lemma writeNetworkInfo_reaffirms_without_rpc_witness :
  keeper.writeNetworkInfo fixtures.SafeChainBitcoin fixtures.SafeChainLitecoin
    fixtures.SafeChainEthereum fixtures.SafeChainPolygon (fun _ => 1)
    "btc" "ltc" "eth" "matic" samples.rpcDown samples.rpcDown
    fixtures.storeAt100 (fixtures.networkRequest "r1" x05 x64 xaa)
  = Returns (store.WriteNetworkInfoFromRequest fixtures.storeAt100
               (keeper_v1.withHash
                  (keeper_v1.decodeInfo (fixtures.networkRequest "r1" x05 x64 xaa))
                  (hex.EncodeToString (repeat xaa 32))),
             ([], EmptyString)).
Proof.
  apply (keeper_record_props.writeNetworkInfo_reaffirms_without_rpc
           fixtures.SafeChainBitcoin fixtures.SafeChainLitecoin
           fixtures.SafeChainEthereum fixtures.SafeChainPolygon (fun _ => 1)
           "btc" "ltc" "eth" "matic" samples.rpcDown samples.rpcDown
           fixtures.storeAt100 (fixtures.networkRequest "r1" x05 x64 xaa)
           fixtures.tip100).
  - reflexivity.
  - reflexivity.
  - reflexivity.
  - reflexivity.
  - reflexivity.
  - vm_compute. discriminate.
  - vm_compute. reflexivity.
  - reflexivity.
  - vm_compute. split; discriminate.
Defined.

Lemma writeNetworkInfo_panics_on_unconfirmed_block_witness :
  exists why,
    keeper.writeNetworkInfo fixtures.SafeChainBitcoin fixtures.SafeChainLitecoin
      fixtures.SafeChainEthereum fixtures.SafeChainPolygon (fun _ => 1)
      "btc" "ltc" "eth" "matic" samples.rpcDown samples.rpcDown
      fixtures.storeAt100 (fixtures.networkRequest "r1" x05 x64 xbb)
    = Panics why.
Proof.
  apply (keeper_record_props.writeNetworkInfo_panics_on_unconfirmed_block
           fixtures.SafeChainBitcoin fixtures.SafeChainLitecoin
           fixtures.SafeChainEthereum fixtures.SafeChainPolygon (fun _ => 1)
           "btc" "ltc" "eth" "matic" samples.rpcDown samples.rpcDown
           fixtures.storeAt100 (fixtures.networkRequest "r1" x05 x64 xbb)).
  - reflexivity.
  - reflexivity.
  - intros old Hold. vm_compute in Hold. injection Hold as <-.
    split; [discriminate | vm_compute; discriminate].
  - reflexivity.
  - reflexivity.
  - vm_compute. reflexivity.
  - exact I.
Defined.

Lemma writeNetworkInfo_stored_record_witness :
  length (common.ExtraBytes (fixtures.networkRequest "r1" x05 x64 xbb)) = 49%nat
  /\ exists prefix,
       store.WriteNetworkInfoFromRequest fixtures.storeAt100 (fixtures.pushed 5)
       = store.WriteNetworkInfoFromRequest fixtures.storeAt100
           (keeper_v1.withHash
              (keeper_v1.decodeInfo (fixtures.networkRequest "r1" x05 x64 xbb))
              (prefix ++ hex.EncodeToString (repeat xbb 32)))
       /\ (prefix = EmptyString \/ prefix = "0x"%string).
Proof.
  destruct (keeper_record_props.writeNetworkInfo_stored_record
              fixtures.SafeChainBitcoin fixtures.SafeChainLitecoin
              fixtures.SafeChainEthereum fixtures.SafeChainPolygon (fun _ => 1)
              "btc" "ltc" "eth" "matic" fixtures.rpcAt100 fixtures.rpcAt100
              fixtures.storeAt100 (fixtures.networkRequest "r1" x05 x64 xbb)
              (store.WriteNetworkInfoFromRequest fixtures.storeAt100 (fixtures.pushed 5))
              ([], EmptyString))
    as (Hlen & _ & _ & prefix & Hs & Hp).
  - vm_compute. reflexivity.
  - vm_compute. discriminate.
  - split; [exact Hlen|]. exists prefix. split; [exact Hs|].
    destruct Hp as [[Hp _]|[Hp _]]; [left | right]; exact Hp.
Defined.

End network_record_examples.

(** ** Examples: the requests table *)
Module request_store_examples.

Lemma WriteRequestIfNotExist_then_ReadRequest_witness :
  fst (request_store.ReadRequest
         (samples.requests ++ [(samples.request "r2" common.RequestStateInitial 20, 20)])
         "r2")
  = Some (samples.request "r2" common.RequestStateInitial 20).
Proof.
  destruct (request_store_props.WriteRequestIfNotExist_then_ReadRequest
              samples.requests
              (samples.requests ++ [(samples.request "r2" common.RequestStateInitial 20, 20)])
              (samples.request "r2" common.RequestStateInitial 20) None)
    as (_ & _ & _ & Hread & _).
  - vm_compute. reflexivity.
  - exact Hread.
Defined.

Lemma FinishRequest_finishes_once_witness :
  exists r,
    fst (request_store.ReadRequest samples.requests "r1") = Some r
    /\ request_store.State r = common.RequestStateInitial
    /\ forall now',
         request_store.FinishRequest
           (fst (request_store.FinishRequest samples.requests "r1" 30)) "r1" now'
         = (fst (request_store.FinishRequest samples.requests "r1" 30),
            Some "UPDATE requests"%string).
Proof.
  destruct (request_store_props.FinishRequest_finishes_once
              samples.requests
              (fst (request_store.FinishRequest samples.requests "r1" 30)) "r1" 30)
    as (r & Hr & Hst & _ & _ & Hagain & _).
  - apply (bool_decide_unpack _). vm_compute. exact I.
  - vm_compute. reflexivity.
  - exists r. split; [exact Hr|]. split; [exact Hst|]. exact Hagain.
Defined.

Lemma stored_request_is_kept_witness :
  exists r',
    fst (request_store.ReadRequest
           (request_store.afterAll samples.requests
              [ request_store.CallWrite (samples.request "r1" common.RequestStateDone 40);
                request_store.CallFinish "r1" 50;
                request_store.CallFinish "r1" 60 ]) "r1") = Some r'
    /\ request_store.requestStep (samples.request "r1" common.RequestStateInitial 11) r'.
Proof.
  apply (request_store_props.stored_request_is_kept
           [ request_store.CallWrite (samples.request "r1" common.RequestStateDone 40);
             request_store.CallFinish "r1" 50;
             request_store.CallFinish "r1" 60 ]
           samples.requests "r1" (samples.request "r1" common.RequestStateInitial 11)).
  vm_compute. reflexivity.
Defined.

End request_store_examples.

(** ** Examples: the safes table and the observer's fee transaction *)
Module safe_store_examples.

Lemma WriteSafeWithRequest_then_ReadSafe_witness :
  fst (safe_store.ReadSafe
         (fst (safe_store.WriteSafeWithRequest samples.sameHolder samples.safeStore
                 (samples.safeOf "h1" "r1" []) 30)) "h1")
  = Some (samples.safeOf "h1" "r1" [EmptyString]).
Proof.
  pose proof (safe_store_props.WriteSafeWithRequest_then_ReadSafe
                samples.sameHolder samples.safeStore
                (fst (safe_store.WriteSafeWithRequest samples.sameHolder samples.safeStore
                        (samples.safeOf "h1" "r1" []) 30))
                (samples.safeOf "h1" "r1" []) 30 None) as H.
  cbv beta iota in H. destruct H as [Hread _].
  - vm_compute. reflexivity.
  - intros row [<-|[]]. vm_compute. discriminate.
  - refine (eq_trans Hread _). vm_compute. reflexivity.
Defined.

End safe_store_examples.

Module observer_fee_examples.
Import observer_store.

Lemma bitcoin_outputs_keys_stay_unique_witness :
  NoDup (keys (afterAll firstRow fixtures.TxHash fixtures.MarshalWiredTransaction
                 fixtures.outputs fixtures.calls)).
Proof.
  apply (observer_read_props.bitcoin_outputs_keys_stay_unique
           firstRow fixtures.TxHash fixtures.MarshalWiredTransaction
           fixtures.outputs fixtures.calls).
  apply (bool_decide_unpack _). vm_compute. exact I.
Defined.

Lemma ReadBitcoinUTXO_after_write_witness :
  exists o,
    ReadBitcoinUTXO
      (afterAll firstRow fixtures.TxHash fixtures.MarshalWiredTransaction
         (fixtures.outputs ++ [fixtures.utxo "cc" 2 46000 common.RequestStateInitial sql.null])
         fixtures.calls) "cc" 2 1 = (Some o, None)
    /\ Output.Satoshi o = 46000.
Proof.
  destruct (observer_read_props.ReadBitcoinUTXO_after_write
              firstRow fixtures.TxHash fixtures.MarshalWiredTransaction
              fixtures.outputs
              (fixtures.outputs ++ [fixtures.utxo "cc" 2 46000 common.RequestStateInitial sql.null])
              (fixtures.utxo "cc" 2 46000 common.RequestStateInitial sql.null) None
              fixtures.calls)
    as (o & Hread & _ & _ & Hsat & _).
  - apply (bool_decide_unpack _). vm_compute. exact I.
  - vm_compute. reflexivity.
  - exists o. split; [exact Hread | exact Hsat].
Defined.

End observer_fee_examples.

Module fee_transaction_examples.
Import observer_store.

Lemma fee_transaction_pays_exactly_the_fee_witness :
  Output.Satoshi (observer_fee.feeOutput "fee" 1000 [xab]) = 1000
  /\ Output.Index (observer_fee.feeOutput "fee" 1000 [xab]) = 0
  /\ exists (k : nat) (change : Z),
       (1 <= k <= 1)%nat
       /\ observer_fee.totalSatoshi (firstn k samples.richOutputs)
          = 1000 + (74 + 75 * Z.of_nat k) * 2 + change
       /\ 0 <= change.
Proof.
  destruct (observer_fee_props.fee_transaction_pays_exactly_the_fee
              firstRow fixtures.TxHash fixtures.MarshalWiredTransaction
              (fun fee => (fee * 9 / 10, fee * 11 / 10))
              (fun _ _ => inl [x00; x14])
              Some 4294967295 (fun _ => 1000)
              (fun _ => inl "0a"%string) (fun _ => Some [x0a])
              (fun key _ _ _ => inl [[x30; x01]; key])
              samples.richOutputs samples.feeRows 1000 2 (fixtures.approval "tx9") 9
              (observer_fee.feeOutput "fee" 1000 [xab]) None)
    as (Hsat & Hidx & k & change & Hk & _ & Htotal & Hchange & _).
  - vm_compute. reflexivity.
  - lia.
  - lia.
  - vm_compute. split; [discriminate | reflexivity].
  - vm_compute. repeat constructor; discriminate.
  - vm_compute. reflexivity.
  - vm_compute. reflexivity.
  - vm_compute. reflexivity.
  - split; [exact Hsat|]. split; [exact Hidx|].
    exists k, change. split; [exact Hk|]. split; [exact Htotal | exact Hchange].
Defined.

Lemma no_fee_transaction_without_funds_witness :
  samples.bitcoinRetrieveFeeInputsForTransaction samples.poorOutputs 1000 2
    (fixtures.approval "tx9") 9
  = Returns (samples.poorOutputs, (None, None)).
Proof.
  apply (observer_fee_props.no_fee_transaction_without_funds
           firstRow fixtures.TxHash fixtures.MarshalWiredTransaction
           (fun fee => (fee * 9 / 10, fee * 11 / 10))
           (fun _ _ => inl [x00; x14])
           Some 4294967295 (fun _ => 1000)
           (fun _ => inl "0a"%string) (fun _ => Some [x0a])
           (fun key _ _ _ => inl [[x30; x01]; key])
           samples.poorOutputs 1000 2 (fixtures.approval "tx9") 9).
  - vm_compute. reflexivity.
  - lia.
  - lia.
  - vm_compute. repeat constructor; [discriminate | eexists; reflexivity].
  - intros first Hfirst. eexists. reflexivity.
  - vm_compute. reflexivity.
  - intros j Hj. vm_compute in Hj. assert (j = 1%nat) as -> by lia.
    vm_compute. reflexivity.
Defined.

Lemma fee_is_broadcast_before_the_spend_witness :
  observer_spend.bitcoinBroadcastTransactionAndWriteDeposit (list string)
    fixtures.bitcoinParams samples.rpcHasAll (fun _ => Some [xab])
    fixtures.TxHash fixtures.MarshalWiredTransaction
    (fun w _ _ _ => (w, (true, None)))
    (fun w hash _ => (hash :: w, Return None))
    [] (observer_fee.feeOutput "fee" 1000 [xab]) fixtures.feeTx 1
  = (["fee"%string], Return None).
Proof.
  destruct (observer_spend_props.fee_is_broadcast_before_the_spend
              (list string) fixtures.bitcoinParams
              samples.rpcHasAll
              (fun _ => Some [xab])
              fixtures.TxHash fixtures.MarshalWiredTransaction
              (fun w _ _ _ => (w, (true, None)))
              (fun w hash _ => (hash :: w, Return None))
              [] (observer_fee.feeOutput "fee" 1000 [xab]) fixtures.feeTx 1
              "btc" "bitcoin-asset" [xab])
    as [_ Hspend].
  - reflexivity.
  - vm_compute. discriminate.
  - reflexivity.
  - vm_compute. reflexivity.
Defined.

End fee_transaction_examples.

(** ** Examples: signer sessions and the owners of a safe *)
Module signer_examples.

Lemma session_message_round_trip_witness :
  exists b,
    signer.marshalSessionMessage (list byte) Some (repeat x11 16) [x01; x02] = Returns b
    /\ signer.unmarshalSessionMessage (list byte) (fun m => (m, None)) b
       = Returns (Some (repeat x11 16), Some [x01; x02], None).
Proof.
  destruct (signer_props.session_message_round_trip
              (list byte) Some (fun m => (m, None)) (repeat x11 16) [x01; x02] [x01; x02])
    as (b & Hb & _ & Hback).
  - vm_compute. lia.
  - reflexivity.
  - exists b. split; [exact Hb|].
    vm_compute in Hb. injection Hb as <-. exact Hback.
Defined.

Lemma unmarshalSessionMessage_panics_on_length_255_witness :
  signer.unmarshalSessionMessage (list byte) (fun m => (m, None)) (xff :: repeat x00 256)
  = Panics "slice bounds out of range".
Proof.
  apply (signer_props.unmarshalSessionMessage_panics_on_length_255
           (list byte) (fun m => (m, None)) (xff :: repeat x00 256)).
  - reflexivity.
  - vm_compute. lia.
Defined.

Lemma message_and_signature_round_trip_witness :
  signer.verifySessionSignature 1 2 3 4 5 (fun _ _ _ => Some ([x02; xaa], []))
    (fun _ _ _ => None) (fun _ _ _ => Returns None) (fun _ _ _ => Some true) false
    1 "holder" (signer.concatMessageAndSignature [x01; x02] [x30; x01]) [] []
  = Returns (false, None).
Proof.
  destruct (signer_props.message_and_signature_round_trip
              1 2 3 4 5 (fun _ _ _ => Some ([x02; xaa], []))
              (fun _ _ _ => None) (fun _ _ _ => Returns None) (fun _ _ _ => Some true) false
              "holder" [x01; x02] [x30; x01] [] [])
    as [Hshort _].
  - vm_compute. reflexivity.
  - apply Hshort. vm_compute. lia.
Defined.

Lemma keygen_finishes_on_unanimity_witness :
  exists finished,
    signer.verifySessionSignerResults 1 2 samples.members "m1" 1 samples.decodeSignature
      (samples.session 1) samples.keygenSigners = Returns (finished, None).
Proof.
  destruct (signer_props.keygen_finishes_on_unanimity
              1 2 samples.members "m1" 1 samples.decodeSignature
              (samples.session 1) samples.keygenSigners)
    as (finished & Hrun & _).
  - reflexivity.
  - exists finished. exact Hrun.
Defined.

Lemma signing_finishes_above_threshold_witness :
  exists before first rest extra,
    samples.members = before ++ first :: rest
    /\ Forall (fun id => samples.signSigners !! id = None) before
    /\ samples.signSigners !! first = Some extra
    /\ samples.decodeSignature extra = Some [x30; x01].
Proof.
  apply (signer_props.signing_finishes_above_threshold
           1 2 samples.members "m1" 1 samples.decodeSignature
           (samples.session 2) samples.signSigners true (Some [x30; x01])).
  - vm_compute. discriminate.
  - reflexivity.
  - vm_compute. reflexivity.
Defined.

End signer_examples.

Module ethereum_account_examples.

Lemma GetSortedSafeOwners_aligned_witness :
  exists owners pubs,
    ethereum_account.GetSortedSafeOwners samples.ParseEthereumCompressedPublicKey
      samples.addressHex samples.HexToAddress "holder" "signer" "observer"
    = Returns (owners, pubs)
    /\ Permutation owners ["0x03"; "0x01"; "0x02"]%string
    /\ StronglySorted (fun a b => samples.HexToAddress a <= samples.HexToAddress b) owners.
Proof.
  destruct (ethereum_account_props.GetSortedSafeOwners_aligned
              samples.ParseEthereumCompressedPublicKey samples.addressHex samples.HexToAddress
              "holder" "signer" "observer" 3 1 2)
    as (owners & pubs & Hrun & Hperm & Hsorted & _); try reflexivity.
  exists owners, pubs. split; [exact Hrun|]. split; [exact Hperm | exact Hsorted].
Defined.

End ethereum_account_examples.
